(** * EventQRollcall: attendance recording and eligibility engine

    A shallow embedding of the backend (database.js, the Express routes of
    the server) and of the scanning client (QRScanner.onScanSuccess with the
    apiService calls it makes), followed by the properties of the
    specification that can be settled on it.

    Conventions of the embedding:
    - a SQLite table is the list of its rows in insertion order; every
      constraint the schema declares (PRIMARY KEY, UNIQUE, NOT NULL,
      FOREIGN KEY with its ON DELETE action) is checked where SQLite checks
      it, and a failed statement leaves the table as it was;
    - SQLite enforces foreign keys only on a connection that ran
      [PRAGMA foreign_keys = ON]; the flag is a field of the store;
    - a handler is a function from the store to the new store and the HTTP
      response; values the environment chooses (uuid, clock) are arguments;
    - a JavaScript number is an integer ([Z]) where the code stores or
      counts, and an exact rational ([Q]) where it divides; the capacity a
      request carries is a JSON value ([Js.value]): null, a number or a
      string;
    - the [users] table and the credential checks are outside the model: a
      request carries the authenticated user's id and role. *)

From Stdlib Require Import String List ZArith QArith Bool Arith Lia.
Import ListNotations.
Open Scope string_scope.
Open Scope Z_scope.

(** ** JavaScript truthiness of the values the handlers test *)

Module Js.

(** [!!s] for a string-or-undefined: undefined and the empty string are falsy. *)
Definition truthy_string (s : option string) : bool :=
  match s with
  | Some s => negb (s =? "")%string
  | None => false
  end.

(** [!!n] for a number-or-null/undefined: null, undefined and 0 are falsy. *)
Definition truthy_number (n : option Z) : bool :=
  match n with
  | Some z => negb (z =? 0)
  | None => false
  end.

(** [a || b] on numbers-or-undefined: the first operand when it is truthy. *)
Definition or_number (a b : option Z) : option Z :=
  if truthy_number a then a else b.

(** [n >= m] where [m] may be undefined: comparing with undefined is false. *)
Definition ge_number (n : Z) (m : option Z) : bool :=
  match m with
  | Some m => m <=? n
  | None => false
  end.

(** The JSON value of a field the code uses as a number: absent or null, a
    number, or a string. [Numeral n] is a non-empty string that JavaScript
    (ToNumber) and SQLite (a column of INTEGER affinity) both read as the
    integer [n], such as ["0"] or ["12"]. *)
Inductive value :=
| Null
| Number (n : Z)
| Numeral (n : Z).

(** [!!v]: null and the number 0 are falsy; a non-empty string is truthy,
    the string ["0"] too. *)
Definition truthy_value (v : value) : bool :=
  match v with
  | Null => false
  | Number n => negb (n =? 0)
  | Numeral _ => true
  end.

(** [v > m]: a string is compared as the number it reads as; null and
    undefined are not greater than a positive number. *)
Definition gt_value (v : value) (m : Z) : bool :=
  match v with
  | Null => false
  | Number n => m <? n
  | Numeral n => m <? n
  end.

End Js.

(** ** Rows of the four tables (migrations.js) *)

Module Workshop.

Record row := mk {
  id : string;
  name : string;
  description : option string;
  date : string;
  location : string;
  user_id : Z;
  is_vip : Z;
  max_capacity : option Z
}.

(** The object a query hands to JavaScript: the columns, and the camelCase
    aliases when the SELECT names them (undefined otherwise). *)
Record obj := mkObj {
  columns : row;
  isVip : option Z;
  maxCapacity : option Z
}.

(** [SELECT * FROM workshops] *)
Definition select_star (r : row) : obj :=
  {| columns := r; isVip := None; maxCapacity := None |}.

(** [SELECT *, is_vip as isVip, max_capacity as maxCapacity FROM workshops] *)
Definition select_aliased (r : row) : obj :=
  {| columns := r; isVip := Some (is_vip r); maxCapacity := max_capacity r |}.

End Workshop.

Module Guest.

Record row := mk {
  id : string;
  name : string;
  email : string;
  qr_code : string;
  user_id : Z;
  is_vip : Z
}.

(** [SELECT * FROM guests]: the row object has no [isVip] property. *)
Definition isVip (g : row) : option Z := None.

End Guest.

Module Attendance.

Record row := mk {
  id : string;
  workshop_id : string;
  guest_id : string;
  timestamp : string;
  created_by : Z
}.

End Attendance.

Module VipAccess.

Record row := mk {
  id : string;
  guest_id : string;
  workshop_id : string
}.

End VipAccess.

(** ** The store: the database file seen through one connection *)

Record Db := mkDb {
  workshops : list Workshop.row;
  guests : list Guest.row;
  attendance : list Attendance.row;
  vip_access : list VipAccess.row;
  foreign_keys : bool
}.

(** The tables as runMigrations leaves them (dropped and created again). *)
Definition empty_db (fk : bool) : Db :=
  {| workshops := []; guests := []; attendance := []; vip_access := [];
     foreign_keys := fk |}.

Definition set_workshops (db : Db) (l : list Workshop.row) : Db :=
  {| workshops := l; guests := guests db; attendance := attendance db;
     vip_access := vip_access db; foreign_keys := foreign_keys db |}.

Definition set_guests (db : Db) (l : list Guest.row) : Db :=
  {| workshops := workshops db; guests := l; attendance := attendance db;
     vip_access := vip_access db; foreign_keys := foreign_keys db |}.

Definition set_attendance (db : Db) (l : list Attendance.row) : Db :=
  {| workshops := workshops db; guests := guests db; attendance := l;
     vip_access := vip_access db; foreign_keys := foreign_keys db |}.

Definition set_vip_access (db : Db) (l : list VipAccess.row) : Db :=
  {| workshops := workshops db; guests := guests db; attendance := attendance db;
     vip_access := l; foreign_keys := foreign_keys db |}.

(** ** SQL statements *)

Module Sql.

Inductive error :=
| UniqueFailed (columns : string)
| NotNullFailed (column : string)
| ForeignKeyFailed.

(** The text node-sqlite3 puts in [err.message]. *)
Definition message (e : error) : string :=
  match e with
  | UniqueFailed c => "SQLITE_CONSTRAINT: UNIQUE constraint failed: " ++ c
  | NotNullFailed c => "SQLITE_CONSTRAINT: NOT NULL constraint failed: " ++ c
  | ForeignKeyFailed => "SQLITE_CONSTRAINT: FOREIGN KEY constraint failed"
  end.

(** [err.message.includes('UNIQUE constraint failed: ' + columns)] *)
Definition unique_failed_on (e : error) (columns : string) : bool :=
  match e with
  | UniqueFailed c => (c =? columns)%string
  | _ => false
  end.

Inductive result (A : Type) :=
| Done (a : A)
| Failed (e : error).
Arguments Done {A} a.
Arguments Failed {A} e.

(** [ORDER BY] as an insertion sort on a key; rows with equal keys keep
    their table order. *)
Fixpoint insert_by {A : Type} (le : A -> A -> bool) (x : A) (l : list A) : list A :=
  match l with
  | [] => [x]
  | y :: l' => if le x y then x :: y :: l' else y :: insert_by le x l'
  end.

Definition order_by {A : Type} (le : A -> A -> bool) (l : list A) : list A :=
  fold_right (insert_by le) [] l.

Definition has_workshop (db : Db) (id : string) : bool :=
  existsb (fun w => (Workshop.id w =? id)%string) (workshops db).

Definition has_guest (db : Db) (id : string) : bool :=
  existsb (fun g => (Guest.id g =? id)%string) (guests db).

(** The value a column of INTEGER affinity holds for a bound JSON value:
    NULL for null, the integer for a number, and for a string that is an
    integer literal the integer it reads as (the affinity converts it). *)
Definition integer_column (v : Js.value) : option Z :=
  match v with
  | Js.Null => None
  | Js.Number n => Some n
  | Js.Numeral n => Some n
  end.

(** [INSERT INTO workshops (...)]: id is the PRIMARY KEY; name, date and
    location are NOT NULL. *)
Definition insert_workshop (db : Db) (id : string)
    (name description date location : option string)
    (user_id is_vip : Z) (max_capacity : option Z) : result Db :=
  match name, date, location with
  | None, _, _ => Failed (NotNullFailed "workshops.name")
  | _, None, _ => Failed (NotNullFailed "workshops.date")
  | _, _, None => Failed (NotNullFailed "workshops.location")
  | Some n, Some d, Some l =>
      if has_workshop db id then Failed (UniqueFailed "workshops.id")
      else Done (set_workshops db
             (workshops db ++
              [Workshop.mk id n description d l user_id is_vip max_capacity]))
  end.

(** [UPDATE workshops SET name = ?, description = ?, date = ?, location = ?
    WHERE id = ?]; the number is [this.changes]. *)
Definition update_workshop (db : Db) (id : string)
    (name description date location : option string) : result (Db * nat) :=
  if has_workshop db id then
    match name, date, location with
    | None, _, _ => Failed (NotNullFailed "workshops.name")
    | _, None, _ => Failed (NotNullFailed "workshops.date")
    | _, _, None => Failed (NotNullFailed "workshops.location")
    | Some n, Some d, Some l =>
        Done (set_workshops db
                (map (fun w =>
                        if (Workshop.id w =? id)%string
                        then Workshop.mk (Workshop.id w) n description d l
                               (Workshop.user_id w) (Workshop.is_vip w)
                               (Workshop.max_capacity w)
                        else w) (workshops db)),
              length (filter (fun w => (Workshop.id w =? id)%string) (workshops db)))
    end
  else Done (db, 0%nat).

(** [DELETE FROM workshops WHERE id = ?]. With foreign keys enforced,
    attendance rows follow (ON DELETE CASCADE) and a vip_access row that
    references the workshop (no ON DELETE action) makes the statement fail. *)
Definition delete_workshop (db : Db) (id : string) : result (Db * nat) :=
  if has_workshop db id then
    let kept := filter (fun w => negb (Workshop.id w =? id)%string) (workshops db) in
    let changes := length (filter (fun w => (Workshop.id w =? id)%string) (workshops db)) in
    if foreign_keys db then
      if existsb (fun v => (VipAccess.workshop_id v =? id)%string) (vip_access db)
      then Failed ForeignKeyFailed
      else Done (set_attendance (set_workshops db kept)
                   (filter (fun a => negb (Attendance.workshop_id a =? id)%string)
                      (attendance db)),
                 changes)
    else Done (set_workshops db kept, changes)
  else Done (db, 0%nat).

(** [INSERT INTO guests (...)]: id is the PRIMARY KEY; email and qr_code are
    UNIQUE NOT NULL; name is NOT NULL. *)
Definition insert_guest (db : Db) (id : string) (name : option string)
    (email qr_code : string) (user_id is_vip : Z) : result Db :=
  match name with
  | None => Failed (NotNullFailed "guests.name")
  | Some n =>
      if has_guest db id then Failed (UniqueFailed "guests.id")
      else if existsb (fun g => (Guest.email g =? email)%string) (guests db)
      then Failed (UniqueFailed "guests.email")
      else if existsb (fun g => (Guest.qr_code g =? qr_code)%string) (guests db)
      then Failed (UniqueFailed "guests.qr_code")
      else Done (set_guests db
             (guests db ++ [Guest.mk id n email qr_code user_id is_vip]))
  end.

(** [UPDATE guests SET name = ?, email = ?, is_vip = ? WHERE id = ?] *)
Definition update_guest (db : Db) (id : string) (name email : option string)
    (is_vip : Z) : result (Db * nat) :=
  if has_guest db id then
    match name, email with
    | None, _ => Failed (NotNullFailed "guests.name")
    | _, None => Failed (NotNullFailed "guests.email")
    | Some n, Some e =>
        if existsb (fun g => (Guest.email g =? e)%string && negb (Guest.id g =? id)%string)
             (guests db)
        then Failed (UniqueFailed "guests.email")
        else
          Done (set_guests db
                  (map (fun g =>
                          if (Guest.id g =? id)%string
                          then Guest.mk (Guest.id g) n e (Guest.qr_code g)
                                 (Guest.user_id g) is_vip
                          else g) (guests db)),
                length (filter (fun g => (Guest.id g =? id)%string) (guests db)))
    end
  else Done (db, 0%nat).

(** [DELETE FROM guests WHERE id = ?], with the same foreign-key actions as
    for workshops. *)
Definition delete_guest (db : Db) (id : string) : result (Db * nat) :=
  if has_guest db id then
    let kept := filter (fun g => negb (Guest.id g =? id)%string) (guests db) in
    let changes := length (filter (fun g => (Guest.id g =? id)%string) (guests db)) in
    if foreign_keys db then
      if existsb (fun v => (VipAccess.guest_id v =? id)%string) (vip_access db)
      then Failed ForeignKeyFailed
      else Done (set_attendance (set_guests db kept)
                   (filter (fun a => negb (Attendance.guest_id a =? id)%string)
                      (attendance db)),
                 changes)
    else Done (set_guests db kept, changes)
  else Done (db, 0%nat).

(** [INSERT INTO attendance (...)]: id is the PRIMARY KEY,
    UNIQUE(workshop_id, guest_id), and both references must exist when
    foreign keys are enforced. *)
Definition insert_attendance (db : Db) (r : Attendance.row) : result Db :=
  if existsb (fun a => (Attendance.id a =? Attendance.id r)%string) (attendance db)
  then Failed (UniqueFailed "attendance.id")
  else if existsb (fun a =>
                     (Attendance.workshop_id a =? Attendance.workshop_id r)%string
                     && (Attendance.guest_id a =? Attendance.guest_id r)%string)
            (attendance db)
  then Failed (UniqueFailed "attendance.workshop_id, attendance.guest_id")
  else if foreign_keys db
          && negb (has_workshop db (Attendance.workshop_id r)
                   && has_guest db (Attendance.guest_id r))
  then Failed ForeignKeyFailed
  else Done (set_attendance db (attendance db ++ [r])).

(** [DELETE FROM attendance WHERE id = ?] *)
Definition delete_attendance (db : Db) (id : string) : Db :=
  set_attendance db
    (filter (fun a => negb (Attendance.id a =? id)%string) (attendance db)).

(** [INSERT INTO vip_access (id, guest_id, workshop_id)]: id is the PRIMARY
    KEY, UNIQUE(guest_id, workshop_id). *)
Definition insert_vip_access (db : Db) (r : VipAccess.row) : result Db :=
  if existsb (fun v => (VipAccess.id v =? VipAccess.id r)%string) (vip_access db)
  then Failed (UniqueFailed "vip_access.id")
  else if existsb (fun v =>
                     (VipAccess.guest_id v =? VipAccess.guest_id r)%string
                     && (VipAccess.workshop_id v =? VipAccess.workshop_id r)%string)
            (vip_access db)
  then Failed (UniqueFailed "vip_access.guest_id, vip_access.workshop_id")
  else if foreign_keys db
          && negb (has_guest db (VipAccess.guest_id r)
                   && has_workshop db (VipAccess.workshop_id r))
  then Failed ForeignKeyFailed
  else Done (set_vip_access db (vip_access db ++ [r])).

(** [DELETE FROM vip_access WHERE guest_id = ? AND workshop_id = ?] *)
Definition delete_vip_access (db : Db) (guestId workshopId : string) : Db :=
  set_vip_access db
    (filter (fun v => negb ((VipAccess.guest_id v =? guestId)%string
                            && (VipAccess.workshop_id v =? workshopId)%string))
       (vip_access db)).

End Sql.

(** ** database.js: the query functions the routes import *)

(** A settled promise: the resolved value, or the message of the Error it
    was rejected with. *)
Inductive promise (A : Type) :=
| Resolved (a : A)
| Rejected (message : string).
Arguments Resolved {A} a.
Arguments Rejected {A} message.

Module Database.

(** [userId ? '... AND user_id = ?' : '...']: the owner filter applies only
    when the caller passes a truthy user id. *)
Definition owned_by (userId : option Z) (user_id : Z) : bool :=
  if Js.truthy_number userId
  then match userId with Some u => user_id =? u | None => false end
  else true.

Definition getAllWorkshops (db : Db) (userId : option Z) : list Workshop.obj :=
  map Workshop.select_aliased
    (filter (fun w => owned_by userId (Workshop.user_id w)) (workshops db)).

Definition getWorkshopById (db : Db) (id : string) (userId : option Z)
    : option Workshop.obj :=
  option_map Workshop.select_star
    (find (fun w => (Workshop.id w =? id)%string
                    && owned_by userId (Workshop.user_id w)) (workshops db)).

Record workshopData := {
  wd_name : option string;
  wd_description : option string;
  wd_date : option string;
  wd_location : option string;
  wd_userId : Z;
  wd_isVip : bool;
  wd_maxCapacity : Js.value
}.

Definition createWorkshop (db : Db) (data : workshopData) (uuid : string)
    : Db * promise unit :=
  match Sql.insert_workshop db uuid (wd_name data) (wd_description data)
          (wd_date data) (wd_location data) (wd_userId data)
          (if wd_isVip data then 1 else 0)
          (Sql.integer_column (wd_maxCapacity data)) with
  | Sql.Failed e => (db, Rejected (Sql.message e))
  | Sql.Done db' => (db', Resolved tt)
  end.

Definition updateWorkshop (db : Db) (id : string)
    (name description date location : option string) : Db * promise unit :=
  match Sql.update_workshop db id name description date location with
  | Sql.Failed e => (db, Rejected (Sql.message e))
  | Sql.Done (db', changes) =>
      if (changes =? 0)%nat then (db', Rejected "Workshop not found")
      else (db', Resolved tt)
  end.

Definition deleteWorkshop (db : Db) (id : string) : Db * promise unit :=
  match Sql.delete_workshop db id with
  | Sql.Failed e => (db, Rejected (Sql.message e))
  | Sql.Done (db', changes) =>
      if (changes =? 0)%nat then (db', Rejected "Workshop not found")
      else (db', Resolved tt)
  end.

Definition getAllGuests (db : Db) (userId : option Z) : list Guest.row :=
  Sql.order_by (fun a b => String.leb (Guest.name a) (Guest.name b))
    (filter (fun g => owned_by userId (Guest.user_id g)) (guests db)).

Definition getGuestById (db : Db) (id : string) (userId : option Z)
    : option Guest.row :=
  find (fun g => (Guest.id g =? id)%string
                 && owned_by userId (Guest.user_id g)) (guests db).

Definition getGuestByQRCode (db : Db) (qrCode : string) (userId : option Z)
    : option Guest.row :=
  find (fun g => (Guest.qr_code g =? qrCode)%string
                 && owned_by userId (Guest.user_id g)) (guests db).

Record guestData := {
  gd_name : option string;
  gd_email : option string;
  gd_userId : Z;
  gd_isVip : Z
}.

(** [email || ''] and [isVip || 0] *)
Definition createGuest (db : Db) (data : guestData) (uuid : string)
    : Db * promise unit :=
  let qrCode := "guest-" ++ uuid in
  match Sql.insert_guest db uuid (gd_name data)
          (if Js.truthy_string (gd_email data)
           then match gd_email data with Some e => e | None => "" end
           else "")
          qrCode (gd_userId data)
          (match Js.or_number (Some (gd_isVip data)) (Some 0) with
           | Some z => z | None => 0 end) with
  | Sql.Failed e =>
      if Sql.unique_failed_on e "guests.email"
      then (db, Rejected "Email already exists")
      else (db, Rejected (Sql.message e))
  | Sql.Done db' => (db', Resolved tt)
  end.

Definition updateGuest (db : Db) (id : string) (name email : option string)
    (isVip : Z) : Db * promise unit :=
  match Sql.update_guest db id name email
          (match Js.or_number (Some isVip) (Some 0) with
           | Some z => z | None => 0 end) with
  | Sql.Failed e =>
      if Sql.unique_failed_on e "guests.email"
      then (db, Rejected "Email already exists")
      else (db, Rejected (Sql.message e))
  | Sql.Done (db', changes) =>
      if (changes =? 0)%nat then (db', Rejected "Guest not found")
      else (db', Resolved tt)
  end.

Definition deleteGuest (db : Db) (id : string) : Db * promise unit :=
  match Sql.delete_guest db id with
  | Sql.Failed e => (db, Rejected (Sql.message e))
  | Sql.Done (db', changes) =>
      if (changes =? 0)%nat then (db', Rejected "Guest not found")
      else (db', Resolved tt)
  end.

(** [SELECT a.* FROM attendance a JOIN workshops w ON a.workshop_id = w.id
    JOIN guests g ON a.guest_id = g.id [WHERE w.user_id = ? OR g.user_id = ?]
    ORDER BY a.timestamp DESC]. Timestamps are compared as text, as SQLite
    does for the ISO 8601 strings the clients send; rows with equal
    timestamps keep their table order here, an order SQLite does not
    promise. *)
Definition getAllAttendance (db : Db) (userId : option Z) : list Attendance.row :=
  Sql.order_by (fun a b => String.leb (Attendance.timestamp b) (Attendance.timestamp a))
    (flat_map
       (fun a =>
          flat_map
            (fun w =>
               flat_map
                 (fun g =>
                    if Js.truthy_number userId
                    then if owned_by userId (Workshop.user_id w)
                            || owned_by userId (Guest.user_id g)
                         then [a] else []
                    else [a])
                 (filter (fun g => (Attendance.guest_id a =? Guest.id g)%string)
                    (guests db)))
            (filter (fun w => (Attendance.workshop_id a =? Workshop.id w)%string)
               (workshops db)))
       (attendance db)).

Definition getAttendanceRecord (db : Db) (guestId workshopId : string)
    : option Attendance.row :=
  find (fun a => (Attendance.guest_id a =? guestId)%string
                 && (Attendance.workshop_id a =? workshopId)%string)
    (attendance db).

(** The UNIQUE failure is reported as 'Attendance already recorded'. *)
Definition createAttendance (db : Db) (guestId workshopId timestamp : string)
    (userId : Z) (uuid : string) : Db * promise Attendance.row :=
  let r := Attendance.mk uuid workshopId guestId timestamp userId in
  match Sql.insert_attendance db r with
  | Sql.Failed (Sql.UniqueFailed _) => (db, Rejected "Attendance already recorded")
  | Sql.Failed e => (db, Rejected (Sql.message e))
  | Sql.Done db' => (db', Resolved r)
  end.

(** [SELECT w.* FROM workshops w JOIN attendance a ON w.id = a.workshop_id
    WHERE a.guest_id = ? ORDER BY w.date ASC] *)
Definition getGuestAttendance (db : Db) (guestId : string) : list Workshop.row :=
  Sql.order_by (fun a b => String.leb (Workshop.date a) (Workshop.date b))
    (flat_map
       (fun w =>
          map (fun _ => w)
            (filter (fun a => (Workshop.id w =? Attendance.workshop_id a)%string
                              && (Attendance.guest_id a =? guestId)%string)
               (attendance db)))
       (workshops db)).

(** [SELECT g.* FROM guests g JOIN attendance a ON g.id = a.guest_id
    WHERE a.workshop_id = ? ORDER BY g.name ASC] *)
Definition getWorkshopAttendees (db : Db) (workshopId : string) : list Guest.row :=
  Sql.order_by (fun a b => String.leb (Guest.name a) (Guest.name b))
    (flat_map
       (fun g =>
          map (fun _ => g)
            (filter (fun a => (Guest.id g =? Attendance.guest_id a)%string
                              && (Attendance.workshop_id a =? workshopId)%string)
               (attendance db)))
       (guests db)).

(** [SELECT COUNT( * ) FROM workshops WHERE user_id = ?] *)
Definition totalWorkshops (db : Db) (userId : Z) : nat :=
  length (filter (fun w => Workshop.user_id w =? userId) (workshops db)).

(** [SELECT COUNT( * ) FROM attendance a JOIN workshops w
    ON a.workshop_id = w.id WHERE a.guest_id = ? AND w.user_id = ?] *)
Definition attendedWorkshops (db : Db) (guestId : string) (userId : Z) : nat :=
  length
    (flat_map
       (fun a =>
          filter (fun w => (Attendance.workshop_id a =? Workshop.id w)%string
                           && (Workshop.user_id w =? userId))
            (workshops db))
       (filter (fun a => (Attendance.guest_id a =? guestId)%string) (attendance db))).

Definition calculateGuestAttendancePercentage (db : Db) (guestId : string)
    (userId : Z) : Q :=
  let totalWorkshops := totalWorkshops db userId in
  if (totalWorkshops =? 0)%nat then 0%Q
  else
    let attendedWorkshops := attendedWorkshops db guestId userId in
    ((inject_Z (Z.of_nat attendedWorkshops) / inject_Z (Z.of_nat totalWorkshops))
     * 100)%Q.

Definition calculateWorkshopAttendancePercentage (db : Db) (workshopId : string)
    (userId : Z) : Q :=
  let totalGuests := length (filter (fun g => Guest.user_id g =? userId) (guests db)) in
  if (totalGuests =? 0)%nat then 0%Q
  else
    let attendedGuests :=
      length (filter (fun a => (Attendance.workshop_id a =? workshopId)%string)
                (attendance db)) in
    ((inject_Z (Z.of_nat attendedGuests) / inject_Z (Z.of_nat totalGuests)) * 100)%Q.

Definition addVipAccess (db : Db) (guestId workshopId : string) (uuid : string)
    : Db * promise VipAccess.row :=
  let r := VipAccess.mk uuid guestId workshopId in
  match Sql.insert_vip_access db r with
  | Sql.Failed e => (db, Rejected (Sql.message e))
  | Sql.Done db' => (db', Resolved r)
  end.

Definition removeVipAccess (db : Db) (guestId workshopId : string) : Db :=
  Sql.delete_vip_access db guestId workshopId.

Definition hasVipAccess (db : Db) (guestId workshopId : string) : bool :=
  existsb (fun v => (VipAccess.guest_id v =? guestId)%string
                    && (VipAccess.workshop_id v =? workshopId)%string)
    (vip_access db).

Definition getVipWorkshopCount (db : Db) (workshopId : string) : nat :=
  length (filter (fun v => (VipAccess.workshop_id v =? workshopId)%string)
            (vip_access db)).

(** [SELECT g.* FROM guests g INNER JOIN vip_access va ON va.guest_id = g.id
    WHERE va.workshop_id = ?] *)
Definition getVipAccessList (db : Db) (workshopId : string) : list Guest.row :=
  flat_map
    (fun g =>
       map (fun _ => g)
         (filter (fun v => (VipAccess.guest_id v =? Guest.id g)%string
                           && (VipAccess.workshop_id v =? workshopId)%string)
            (vip_access db)))
    (guests db).

(** [SELECT w.* FROM workshops w INNER JOIN vip_access va
    ON va.workshop_id = w.id WHERE va.guest_id = ? AND w.is_vip = 1] *)
Definition getGuestVipWorkshops (db : Db) (guestId : string) : list Workshop.row :=
  flat_map
    (fun w =>
       map (fun _ => w)
         (filter (fun v => (VipAccess.workshop_id v =? Workshop.id w)%string
                           && (VipAccess.guest_id v =? guestId)%string
                           && (Workshop.is_vip w =? 1))
            (vip_access db)))
    (workshops db).

End Database.

(** ** The Express routes of the server *)

(** The authenticated caller: [req.userId] from the token and
    [req.user.role] from the users table. *)
Record User := {
  userId : Z;
  role : string
}.

(** Response bodies. [CreatedJson] and [UpdatedJson] stand for the echo of
    the stored object, which no property reads. *)
Inductive Body :=
| ErrorJson (error : string)
| MessageJson (message : string)
| WorkshopJson (w : Workshop.obj)
| GuestJson (g : Guest.row)
| AttendanceListJson (l : list Attendance.row)
| AttendanceJson (r : Attendance.row)
| PercentageJson (percentage : Q)
| EligibleJson (eligible : bool) (percentage : Q)
| CertificateJpeg (guestName : string)
| CreatedJson
| UpdatedJson
| NoContent.

Record Response := {
  status : nat;
  body : Body
}.

(** [response.ok] of the fetch API: a 2xx status. *)
Definition ok (r : Response) : bool :=
  ((200 <=? status r) && (status r <=? 299))%nat.

Module Server.

Definition json (status : nat) (b : Body) : Response :=
  {| status := status; body := b |}.

Definition error (status : nat) (msg : string) : Response :=
  json status (ErrorJson msg).

(** The [authorize(roles)] middleware: an admin passes, anyone else needs a
    role in the list. *)
Definition authorize (roles : list string) (user : User) : bool :=
  (role user =? "admin")%string || existsb (String.eqb (role user)) roles.

Definition forbidden : Response :=
  error 403 "Forbidden: Insufficient permissions".

(** [req.user.role === 'scanner' ? null : req.userId] *)
Definition scope (user : User) : option Z :=
  if (role user =? "scanner")%string then None else Some (userId user).

(** GET /api/workshops/:id *)
Definition get_workshop (db : Db) (user : User) (id : string) : Response :=
  if negb (authorize ["admin"; "scanner"] user) then forbidden else
  match Database.getWorkshopById db id (scope user) with
  | None => error 404 "Workshop not found"
  | Some workshop => json 200 (WorkshopJson workshop)
  end.

(** The body of POST /api/workshops. [wb_isVip] is the truthiness of the
    field, which is all the route and createWorkshop test of it;
    [wb_maxCapacity] is the JSON value as sent. *)
Record workshopBody := {
  wb_name : option string;
  wb_description : option string;
  wb_date : option string;
  wb_location : option string;
  wb_isVip : bool;
  wb_maxCapacity : Js.value
}.

(** POST /api/workshops *)
Definition post_workshops (db : Db) (user : User) (b : workshopBody)
    (uuid : string) : Db * Response :=
  if negb (authorize ["admin"] user) then (db, forbidden) else
  if negb (Js.truthy_string (wb_name b))
  then (db, error 400 "Workshop name is required") else
  if wb_isVip b
     && (negb (Js.truthy_value (wb_maxCapacity b))
         || Js.gt_value (wb_maxCapacity b) 31)
  then (db, error 400 "VIP workshops must have a maximum capacity of 31 or less")
  else
    match Database.createWorkshop db
            {| Database.wd_name := wb_name b;
               Database.wd_description := wb_description b;
               Database.wd_date := wb_date b;
               Database.wd_location := wb_location b;
               Database.wd_userId := userId user;
               Database.wd_isVip := wb_isVip b;
               Database.wd_maxCapacity :=
                 if wb_isVip b then wb_maxCapacity b else Js.Null |}
            uuid with
    | (db', Resolved _) => (db', json 201 CreatedJson)
    | (db', Rejected _) => (db', error 500 "Failed to create workshop")
    end.

(** PUT /api/workshops/:id *)
Definition put_workshop (db : Db) (user : User) (workshopId : string)
    (name description date location : option string) : Db * Response :=
  if negb (authorize ["admin"] user) then (db, forbidden) else
  match Database.getWorkshopById db workshopId (Some (userId user)) with
  | None => (db, error 404 "Workshop not found")
  | Some _ =>
      match Database.updateWorkshop db workshopId name description date location with
      | (db', Resolved _) => (db', json 200 UpdatedJson)
      | (db', Rejected _) => (db', error 500 "Failed to update workshop")
      end
  end.

(** DELETE /api/workshops/:id *)
Definition delete_workshop (db : Db) (user : User) (workshopId : string)
    : Db * Response :=
  if negb (authorize ["admin"] user) then (db, forbidden) else
  match Database.getWorkshopById db workshopId (Some (userId user)) with
  | None => (db, error 404 "Workshop not found")
  | Some _ =>
      match Database.deleteWorkshop db workshopId with
      | (db', Resolved _) => (db', json 204 NoContent)
      | (db', Rejected _) => (db', error 500 "Failed to delete workshop")
      end
  end.

(** GET /api/guests/qr/:qrCode *)
Definition get_guest_by_qr (db : Db) (user : User) (qrCode : string) : Response :=
  if negb (authorize ["admin"; "scanner"] user) then forbidden else
  match Database.getGuestByQRCode db qrCode (scope user) with
  | None => error 404 "Guest not found"
  | Some guest => json 200 (GuestJson guest)
  end.

(** POST /api/guests; [isVip === true ? 1 : 0] *)
Definition post_guests (db : Db) (user : User) (name email : option string)
    (isVip : bool) (uuid : string) : Db * Response :=
  if negb (authorize ["admin"] user) then (db, forbidden) else
  if negb (Js.truthy_string name) then (db, error 400 "Guest name is required") else
  match Database.createGuest db
          {| Database.gd_name := name; Database.gd_email := email;
             Database.gd_userId := userId user;
             Database.gd_isVip := if isVip then 1 else 0 |}
          uuid with
  | (db', Resolved _) => (db', json 201 CreatedJson)
  | (db', Rejected _) => (db', error 500 "Failed to create guest")
  end.

(** PUT /api/guests/:id *)
Definition put_guest (db : Db) (user : User) (guestId : string)
    (name email : option string) (isVip : bool) : Db * Response :=
  if negb (authorize ["admin"] user) then (db, forbidden) else
  match Database.getGuestById db guestId (Some (userId user)) with
  | None => (db, error 404 "Guest not found")
  | Some _ =>
      match Database.updateGuest db guestId name email (if isVip then 1 else 0) with
      | (db', Resolved _) => (db', json 200 UpdatedJson)
      | (db', Rejected _) => (db', error 500 "Failed to update guest")
      end
  end.

(** DELETE /api/guests/:id *)
Definition delete_guest (db : Db) (user : User) (guestId : string)
    : Db * Response :=
  if negb (authorize ["admin"] user) then (db, forbidden) else
  match Database.getGuestById db guestId (Some (userId user)) with
  | None => (db, error 404 "Guest not found")
  | Some _ =>
      match Database.deleteGuest db guestId with
      | (db', Resolved _) => (db', json 204 NoContent)
      | (db', Rejected _) => (db', error 500 "Failed to delete guest")
      end
  end.

(** GET /api/attendance *)
Definition get_attendance (db : Db) (user : User) : Response :=
  if negb (authorize ["admin"; "scanner"] user) then forbidden else
  json 200 (AttendanceListJson (Database.getAllAttendance db (scope user))).

Record attendanceBody := {
  ab_guestId : option string;
  ab_workshopId : option string;
  ab_timestamp : option string
}.

(** [workshop.isVip || workshop.is_vip] *)
Definition is_vip_workshop (workshop : Workshop.obj) : bool :=
  Js.truthy_number (Workshop.isVip workshop)
  || Js.truthy_number (Some (Workshop.is_vip (Workshop.columns workshop))).

(** [!guest.isVip && !guest.is_vip] *)
Definition not_vip_guest (guest : Guest.row) : bool :=
  negb (Js.truthy_number (Guest.isVip guest))
  && negb (Js.truthy_number (Some (Guest.is_vip guest))).

(** [workshop.maxCapacity || workshop.max_capacity] is set and
    [attendees.length >= maxCap]. *)
Definition capacity_reached (db : Db) (workshopId : string)
    (workshop : Workshop.obj) : bool :=
  let maxCap :=
    Js.or_number (Workshop.maxCapacity workshop)
      (Workshop.max_capacity (Workshop.columns workshop)) in
  Js.truthy_number maxCap
  && Js.ge_number
       (Z.of_nat (length (Database.getWorkshopAttendees db workshopId))) maxCap.

(** POST /api/attendance; [now] is [new Date().toISOString()]. The
    capacity check is nested in the VIP branch of the source. *)
Definition post_attendance (db : Db) (user : User) (b : attendanceBody)
    (now uuid : string) : Db * Response :=
  if negb (authorize ["admin"; "scanner"] user) then (db, forbidden) else
  match ab_guestId b, ab_workshopId b with
  | Some guestId, Some workshopId =>
    if negb (Js.truthy_string (Some guestId))
       || negb (Js.truthy_string (Some workshopId))
    then (db, error 400 "Guest ID and Workshop ID are required") else
    let userId' := scope user in
    match Database.getGuestById db guestId userId' with
    | None => (db, error 404 "Guest not found")
    | Some guest =>
      match Database.getWorkshopById db workshopId userId' with
      | None => (db, error 404 "Workshop not found")
      | Some workshop =>
        if is_vip_workshop workshop && not_vip_guest guest
        then (db, error 403 "Non-VIP guest cannot attend VIP workshops") else
        if is_vip_workshop workshop && capacity_reached db workshopId workshop
        then (db, error 403 "Workshop has reached maximum capacity") else
        match Database.getAttendanceRecord db guestId workshopId with
        | Some _ => (db, error 409 "Attendance already recorded")
        | None =>
          match Database.createAttendance db guestId workshopId
                  (if Js.truthy_string (ab_timestamp b)
                   then match ab_timestamp b with Some t => t | None => now end
                   else now)
                  (userId user) uuid with
          | (db', Resolved attendanceRecord) =>
              (db', json 201 (AttendanceJson attendanceRecord))
          | (db', Rejected _) => (db', error 500 "Failed to record attendance")
          end
        end
      end
    end
  | _, _ => (db, error 400 "Guest ID and Workshop ID are required")
  end.

(** DELETE /api/attendance/:id. The route awaits [db.get(sql, [id])],
    which is called without a callback and returns the Database object, not
    a row: [record] is always truthy, the 404 branch is never taken, and
    the DELETE runs for every id. *)
Definition delete_attendance (db : Db) (user : User) (id : string)
    : Db * Response :=
  if negb (authorize ["admin"; "scanner"] user) then (db, forbidden) else
  (Sql.delete_attendance db id, json 204 NoContent).

(** GET /api/analytics/guest/:guestId/percentage *)
Definition get_guest_percentage (db : Db) (user : User) (guestId : string)
    : Response :=
  if negb (authorize ["admin"] user) then forbidden else
  match Database.getGuestById db guestId (Some (userId user)) with
  | None => error 404 "Guest not found"
  | Some _ =>
      json 200 (PercentageJson
                  (Database.calculateGuestAttendancePercentage db guestId (userId user)))
  end.

(** GET /api/analytics/guest/:guestId/eligible; 70% attendance is required
    for the attestation. *)
Definition get_guest_eligible (db : Db) (user : User) (guestId : string)
    : Response :=
  if negb (authorize ["admin"] user) then forbidden else
  match Database.getGuestById db guestId (Some (userId user)) with
  | None => error 404 "Guest not found"
  | Some _ =>
      let percentage :=
        Database.calculateGuestAttendancePercentage db guestId (userId user) in
      let eligible := Qle_bool 70 percentage in
      json 200 (EligibleJson eligible percentage)
  end.

(** POST /api/certificates/generate. Rendering the name on the template
    (sharp) is outside the model: once the checks pass the response is the
    image. *)
Definition post_certificates_generate (db : Db) (user : User)
    (guestId guestName : option string) : Response :=
  if negb (authorize ["admin"] user) then forbidden else
  match guestId, guestName with
  | Some guestId', Some guestName' =>
    if negb (Js.truthy_string guestId) || negb (Js.truthy_string guestName)
    then error 400 "Missing guest information" else
    match Database.getGuestById db guestId' (Some (userId user)) with
    | None => error 404 "Guest not found"
    | Some _ =>
      let attendance := Database.getGuestAttendance db guestId' in
      if (length attendance =? 0)%nat
      then error 403 "Guest has not attended any workshops" else
      let percentage :=
        Database.calculateGuestAttendancePercentage db guestId' (userId user) in
      if negb (Qle_bool 1 percentage)
      then error 403 "Guest has not attended any workshops"
      else json 200 (CertificateJpeg guestName')
    end
  | _, _ => error 400 "Missing guest information"
  end.

(** POST /api/workshops/:workshopId/vip-access *)
Definition post_vip_access (db : Db) (user : User) (workshopId : string)
    (guestId : option string) (uuid : string) : Db * Response :=
  if negb (authorize ["admin"] user) then (db, forbidden) else
  match guestId with
  | Some guestId' =>
    if negb (Js.truthy_string (Some workshopId)) || negb (Js.truthy_string guestId)
    then (db, error 400 "Workshop ID and Guest ID are required") else
    match Database.getWorkshopById db workshopId (Some (userId user)) with
    | None => (db, error 404 "Workshop not found")
    | Some workshop =>
      if negb (Js.truthy_number (Some (Workshop.is_vip (Workshop.columns workshop))))
         && negb (Js.truthy_number (Workshop.isVip workshop))
      then (db, error 400 "This is not a VIP workshop") else
      let currentCount := Database.getVipWorkshopCount db workshopId in
      if Js.ge_number (Z.of_nat currentCount)
           (Js.or_number (Workshop.max_capacity (Workshop.columns workshop))
              (Workshop.maxCapacity workshop))
      then (db, error 400 "VIP workshop has reached maximum capacity") else
      match Database.getGuestById db guestId' (Some (userId user)) with
      | None => (db, error 404 "Guest not found")
      | Some _ =>
        match Database.addVipAccess db guestId' workshopId uuid with
        | (db', Resolved _) =>
            (db', json 201 (MessageJson "VIP access granted successfully"))
        | (db', Rejected message) =>
            (db', error 500 ("Failed to grant VIP access: " ++ message))
        end
      end
    end
  | None => (db, error 400 "Workshop ID and Guest ID are required")
  end.

(** DELETE /api/workshops/:workshopId/vip-access/:guestId; this route reads
    [workshop.isVip] only. *)
Definition delete_vip_access (db : Db) (user : User) (workshopId guestId : string)
    : Db * Response :=
  if negb (authorize ["admin"] user) then (db, forbidden) else
  match Database.getWorkshopById db workshopId (Some (userId user)) with
  | None => (db, error 404 "Workshop not found")
  | Some workshop =>
      if negb (Js.truthy_number (Workshop.isVip workshop))
      then (db, error 400 "This is not a VIP workshop")
      else (Database.removeVipAccess db guestId workshopId,
            json 200 (MessageJson "VIP access removed successfully"))
  end.

End Server.

(** ** The scanning client: apiService, dataUtils and QRScanner.onScanSuccess *)

Module Client.

(** An awaited call: the value, or the message of the Error thrown. *)
Inductive awaited (A : Type) :=
| Returned (a : A)
| Thrown (message : string).
Arguments Returned {A} a.
Arguments Thrown {A} message.

(** The guest object of apiService.getGuestByQRCode:
    [{...guest, isVip: guest.isVip || guest.is_vip === 1 || guest.is_vip === true}] *)
Record Guest := {
  guest : Guest.row;
  isVip : bool
}.

(** The AttendanceRecord fetchAttendance builds: [workshop_id] and
    [guest_id] are not copied, so they read as undefined. *)
Record AttendanceRecord := {
  id : string;
  guestId : string;
  workshopId : string;
  timestamp : string;
  workshop_id : option string;
  guest_id : option string
}.

Record ScanResult := {
  success : bool;
  message : string
}.

(** dataUtils.getGuestByQRCode: a failed fetch is caught and gives
    undefined. The text goes into the path of the URL as it is; it is taken
    to hold none of the characters a URL gives a meaning to (?, #, / and
    %), as is the case for the tokens createGuest makes from uuids. *)
Definition getGuestByQRCode (db : Db) (user : User) (qrCode : string)
    : option Guest :=
  let response := Server.get_guest_by_qr db user qrCode in
  if negb (ok response) then None else
  match body response with
  | GuestJson g =>
      Some {| guest := g;
              isVip := Js.truthy_number (Guest.isVip g) || (Guest.is_vip g =? 1) |}
  | _ => None
  end.

Definition getWorkshopById (db : Db) (user : User) (id : string)
    : awaited Workshop.obj :=
  let response := Server.get_workshop db user id in
  if negb (ok response) then Thrown "Failed to fetch workshop" else
  match body response with
  | WorkshopJson w => Returned w
  | _ => Thrown "Failed to fetch workshop"
  end.

Definition getAttendance (db : Db) (user : User) : awaited (list AttendanceRecord) :=
  let response := Server.get_attendance db user in
  if negb (ok response) then Thrown "Failed to fetch attendance records" else
  match body response with
  | AttendanceListJson rawData =>
      Returned
        (map (fun record =>
                {| id := Attendance.id record;
                   guestId := Attendance.guest_id record;
                   workshopId := Attendance.workshop_id record;
                   timestamp := Attendance.timestamp record;
                   workshop_id := None;
                   guest_id := None |}) rawData)
  | _ => Thrown "Failed to fetch attendance records"
  end.

(** apiService.recordAttendance posts its own clock reading as timestamp. *)
Definition recordAttendance (db : Db) (user : User) (guestId workshopId : string)
    (now uuid : string) : Db * awaited Attendance.row :=
  let (db', response) :=
    Server.post_attendance db user
      {| Server.ab_guestId := Some guestId;
         Server.ab_workshopId := Some workshopId;
         Server.ab_timestamp := Some now |} now uuid in
  if negb (ok response) then
    match body response with
    | ErrorJson e =>
        if (e =? "Non-VIP guest cannot attend VIP workshops")%string
        then (db', Thrown "Non-VIP guest cannot attend VIP workshops")
        else (db', Thrown "Failed to record attendance")
    | _ => (db', Thrown "Failed to record attendance")
    end
  else
    match body response with
    | AttendanceJson r => (db', Returned r)
    | _ => (db', Thrown "Failed to record attendance")
    end.

Definition failure (msg : string) : ScanResult :=
  {| success := false; message := msg |}.

(** QRScanner.onScanSuccess for the scanner mounted on [workshopId], while
    the component is mounted; the result is the value given to
    setScanResult. The test [!workshop] is on an object and never holds. *)
Definition onScanSuccess (db : Db) (user : User) (workshopId decodedText : string)
    (now uuid : string) : Db * ScanResult :=
  if negb (String.prefix "guest-" decodedText)
  then (db, failure "Invalid QR code format") else
  match getGuestByQRCode db user decodedText with
  | None => (db, failure "Guest not found")
  | Some guest' =>
    match getWorkshopById db user workshopId with
    | Thrown _ => (db, failure "Error processing QR code")
    | Returned workshop =>
      match getAttendance db user with
      | Thrown _ => (db, failure "Error processing QR code")
      | Returned attendance =>
        if Js.truthy_number (Workshop.isVip workshop) && negb (isVip guest')
        then (db, failure "This is a VIP workshop. Guest does not have VIP access.")
        else
        if Js.truthy_number (Workshop.maxCapacity workshop)
           && Js.ge_number
                (Z.of_nat
                   (length
                      (filter
                         (fun record =>
                            match workshop_id record with
                            | Some w => (w =? workshopId)%string
                            | None => false
                            end) attendance)))
                (Workshop.maxCapacity workshop)
        then (db, failure "Workshop has reached maximum capacity") else
        match find (fun record =>
                      (guestId record =? Guest.id (guest guest'))%string
                      && (Client.workshopId record =? workshopId)%string)
                attendance with
        | Some _ =>
            (db, {| success := true;
                    message := Guest.name (guest guest')
                               ++ " already checked in to this workshop" |})
        | None =>
          match recordAttendance db user (Guest.id (guest guest')) workshopId
                  now uuid with
          | (db', Returned _) =>
              (db', {| success := true;
                       message := Guest.name (guest guest')
                                  ++ " checked in successfully" |})
          | (db', Thrown m) =>
              if (m =? "Non-VIP guest cannot attend VIP workshops")%string
              then (db', failure "This guest does not have VIP access for this workshop")
              else (db', failure "Error processing QR code")
          end
        end
      end
    end
  end.

End Client.

(** ** The API as a transition system on the store *)

Inductive Request :=
| PostWorkshops (user : User) (b : Server.workshopBody) (uuid : string)
| PutWorkshop (user : User) (id : string) (name description date location : option string)
| DeleteWorkshop (user : User) (id : string)
| PostGuests (user : User) (name email : option string) (isVip : bool) (uuid : string)
| PutGuest (user : User) (id : string) (name email : option string) (isVip : bool)
| DeleteGuest (user : User) (id : string)
| PostAttendance (user : User) (b : Server.attendanceBody) (now uuid : string)
| DeleteAttendance (user : User) (id : string)
| PostVipAccess (user : User) (workshopId : string) (guestId : option string) (uuid : string)
| DeleteVipAccess (user : User) (workshopId guestId : string).

Definition handle (db : Db) (r : Request) : Db * Response :=
  match r with
  | PostWorkshops user b uuid => Server.post_workshops db user b uuid
  | PutWorkshop user id name description date location =>
      Server.put_workshop db user id name description date location
  | DeleteWorkshop user id => Server.delete_workshop db user id
  | PostGuests user name email isVip uuid =>
      Server.post_guests db user name email isVip uuid
  | PutGuest user id name email isVip => Server.put_guest db user id name email isVip
  | DeleteGuest user id => Server.delete_guest db user id
  | PostAttendance user b now uuid => Server.post_attendance db user b now uuid
  | DeleteAttendance user id => Server.delete_attendance db user id
  | PostVipAccess user workshopId guestId uuid =>
      Server.post_vip_access db user workshopId guestId uuid
  | DeleteVipAccess user workshopId guestId =>
      Server.delete_vip_access db user workshopId guestId
  end.

(** The store after a sequence of requests. *)
Definition run (db : Db) (requests : list Request) : Db :=
  fold_left (fun db r => fst (handle db r)) requests db.

(** The responses of a sequence of requests, in order. *)
Fixpoint responses (db : Db) (requests : list Request) : list Response :=
  match requests with
  | [] => []
  | r :: rest => snd (handle db r) :: responses (fst (handle db r)) rest
  end.

(** A store some sequence of requests produces from the migrated, empty
    database. *)
Definition reachable (db : Db) : Prop :=
  exists fk requests, db = run (empty_db fk) requests.

(** ** Vocabulary of the properties *)

(** The body of a check-in request for a guest and a workshop. *)
Definition checkin (guestId workshopId : string) (timestamp : option string)
    : Server.attendanceBody :=
  {| Server.ab_guestId := Some guestId;
     Server.ab_workshopId := Some workshopId;
     Server.ab_timestamp := timestamp |}.

(** The attendance rows of a (guest, workshop) pair. *)
Definition rows_of (db : Db) (guestId workshopId : string) : list Attendance.row :=
  filter (fun a => (Attendance.guest_id a =? guestId)%string
                   && (Attendance.workshop_id a =? workshopId)%string)
    (attendance db).

(** UNIQUE(workshop_id, guest_id) on attendance, as a property of a store. *)
Definition attendance_unique (db : Db) : Prop :=
  NoDup (map (fun a => (Attendance.workshop_id a, Attendance.guest_id a))
           (attendance db)).

(** The guest has an attendance row for every workshop of the owner. *)
Definition attended_all (db : Db) (guestId : string) (userId : Z) : Prop :=
  forall w, In w (workshops db) -> Workshop.user_id w = userId ->
            rows_of db guestId (Workshop.id w) <> [].

(** A workshop row as the creation route writes it: is_vip is 0 or 1, and
    a row that is not VIP has no capacity. *)
Definition capacity_only_on_vip (w : Workshop.row) : Prop :=
  (Workshop.is_vip w = 0 /\ Workshop.max_capacity w = None)
  \/ Workshop.is_vip w = 1.

(** ** Example requests *)

Module Example.

Definition admin : User := {| userId := 1; role := "admin" |}.

Definition scanner : User := {| userId := 2; role := "scanner" |}.

Definition workshop (name : string) (isVip : bool) (maxCapacity : option Z)
    : Server.workshopBody :=
  {| Server.wb_name := Some name;
     Server.wb_description := None;
     Server.wb_date := Some "2025-05-01";
     Server.wb_location := Some "Hall";
     Server.wb_isVip := isVip;
     Server.wb_maxCapacity := match maxCapacity with
                              | Some n => Js.Number n
                              | None => Js.Null
                              end |}.


(** A VIP workshop B with one place, a guest X without the VIP flag: a
    check-in, the grant of VIP access to X for B, a second check-in. *)
Definition granted_then_scanned : list Request :=
  [ PostWorkshops admin (workshop "B" true (Some 1)) "wB";
    PostGuests admin (Some "X") (Some "x@example.org") false "gX";
    PostAttendance scanner (checkin "gX" "wB" None) "09:00" "a1";
    PostVipAccess admin "wB" (Some "gX") "v1";
    PostAttendance scanner (checkin "gX" "wB" None) "09:01" "a2" ].

(** A VIP guest X with a grant for the VIP workshop B, checked in to it. *)
Definition granted_and_checked_in : list Request :=
  [ PostWorkshops admin (workshop "B" true (Some 5)) "wB";
    PostGuests admin (Some "X") (Some "x@example.org") true "gX";
    PostVipAccess admin "wB" (Some "gX") "v1";
    PostAttendance scanner (checkin "gX" "wB" None) "09:00" "a1" ].

(** The same grant requested twice. *)
Definition granted_twice : list Request :=
  [ PostWorkshops admin (workshop "B" true (Some 5)) "wB";
    PostGuests admin (Some "X") (Some "x@example.org") true "gX";
    PostVipAccess admin "wB" (Some "gX") "v1";
    PostVipAccess admin "wB" (Some "gX") "v2" ].

(** 101 workshops of one owner, and a guest who attended the first. *)
Definition one_of_101 : list Request :=
  map (fun n => PostWorkshops admin (workshop "W" false None)
                  (String (Ascii.ascii_of_nat (32 + n)) ""))
    (seq 0 101)
  ++ [ PostGuests admin (Some "X") (Some "x@example.org") false "gX";
       PostAttendance scanner (checkin "gX" " " None) "09:00" "a1" ].

(** Ten workshops of one owner, and a guest who attended [n] of them. *)
Definition attended_of_ten (n : nat) : list Request :=
  map (fun i => PostWorkshops admin (workshop "W" false None)
                  (String (Ascii.ascii_of_nat (48 + i)) ""))
    (seq 0 10)
  ++ [ PostGuests admin (Some "X") (Some "x@example.org") false "gX" ]
  ++ map (fun i => PostAttendance scanner
                     (checkin "gX" (String (Ascii.ascii_of_nat (48 + i)) "") None)
                     "09:00" (String (Ascii.ascii_of_nat (97 + i)) ""))
       (seq 0 n).

(** The store with the ordinary workshop A and the guest X, nobody
    checked in yet. *)
Definition workshop_and_guest : list Request :=
  [ PostWorkshops admin (workshop "A" false None) "wA";
    PostGuests admin (Some "X") (Some "x@example.org") false "gX" ].

(** A guest of an owner who has no workshop. *)
Definition guest_only : list Request :=
  [ PostGuests admin (Some "X") (Some "x@example.org") false "gX" ].


(** B has one place; Y takes it, Y is deleted, and Z is scanned. *)
Definition place_taken_then_guest_deleted : list Request :=
  [ PostWorkshops admin (workshop "B" true (Some 1)) "wB";
    PostGuests admin (Some "Y") (Some "y@example.org") true "gY";
    PostGuests admin (Some "Z") (Some "z@example.org") true "gZ";
    PostAttendance scanner (checkin "gY" "wB" None) "09:00" "a1";
    DeleteGuest admin "gY";
    PostAttendance scanner (checkin "gZ" "wB" None) "09:01" "a2" ].

(** The row POST /api/guests stores for X. *)
Definition guest_X (is_vip : Z) : Guest.row :=
  Guest.mk "gX" "X" "x@example.org" "guest-gX" 1 is_vip.

End Example.

(** ** The effect of a route on one table *)

(** What the route can answer: a rejection that leaves the store alone, or
    201 with exactly the new row appended. *)
Inductive post_attendance_result (db : Db) (user : User)
    (b : Server.attendanceBody) : Db * Response -> Prop :=
| Rejected_request (s : nat) (m : string) :
    s <> 201%nat -> (s < 200 \/ 299 < s)%nat ->
    post_attendance_result db user b (db, Server.error s m)
| Recorded (guestId workshopId : string) (r : Attendance.row) :
    Server.ab_guestId b = Some guestId ->
    Server.ab_workshopId b = Some workshopId ->
    Attendance.guest_id r = guestId ->
    Attendance.workshop_id r = workshopId ->
    Database.getAttendanceRecord db guestId workshopId = None ->
    post_attendance_result db user b
      (set_attendance db (attendance db ++ [r]), Server.json 201 (AttendanceJson r)).

(** What a route can do to the workshops. *)
Inductive workshops_step (db : Db) : list Workshop.row -> Prop :=
| Workshops_kept : workshops_step db (workshops db)
| Workshop_created (row : Workshop.row) :
    capacity_only_on_vip row ->
    workshops_step db (workshops db ++ [row])
| Workshop_updated (id n d l : string) (description : option string) :
    workshops_step db
      (map (fun w =>
              if (Workshop.id w =? id)%string
              then Workshop.mk (Workshop.id w) n description d l
                     (Workshop.user_id w) (Workshop.is_vip w)
                     (Workshop.max_capacity w)
              else w) (workshops db))
| Workshops_deleted (id : string) :
    workshops_step db
      (filter (fun w => negb (Workshop.id w =? id)%string) (workshops db)).

(** What a route can do to the attendance rows. *)
Inductive attendance_step (db : Db) : list Attendance.row -> Prop :=
| Attendance_kept : attendance_step db (attendance db)
| Attendance_recorded (r : Attendance.row) :
    rows_of db (Attendance.guest_id r) (Attendance.workshop_id r) = [] ->
    attendance_step db (attendance db ++ [r])
| Attendance_deleted (f : Attendance.row -> bool) :
    attendance_step db (filter f (attendance db)).

(** An answer that is visibly not 201. *)
Ltac not_201 :=
  let H := fresh in intros H; cbn in H; discriminate H.

(** ** dataUtils.ts, AuthContext and the users table *)

Module DataUtils.

(** [`guest-${guestId}`] *)
Definition generateQRCode (guestId : string) : string := "guest-" ++ guestId.

End DataUtils.

Module AuthContext.

(** The user object the provider keeps after a login or a profile fetch:
    [role: data.user.role || 'scanner']. [None] is no user (logged out). *)
Record User := {
  username : string;
  role : string
}.

Definition of_profile (username : string) (role : option string) : User :=
  {| username := username;
     role := if Js.truthy_string role
             then match role with Some r => r | None => "scanner" end
             else "scanner" |}.

(** hasRole: nobody without a user, everything for an admin, otherwise the
    role has to be in the list. *)
Definition hasRole (user : option User) (roles : list string) : bool :=
  match user with
  | None => false
  | Some u =>
      if (role u =? "admin")%string then true
      else existsb (String.eqb (role u)) roles
  end.

End AuthContext.

Module UserDb.

Record loginData := {
  timestamp : string;
  ip : string;
  userAgent : string
}.

(** A row of users; [login_history] is the array its JSON text holds. *)
Record row := mk {
  id : Z;
  username : string;
  password : string;
  login_history : list loginData;
  role : string
}.

(** [history.slice(-n)]: the last [n] elements, all of them when there are
    fewer. *)
Definition slice_last {A : Type} (n : nat) (history : list A) : list A :=
  skipn (length history - n) history.

(** userDb.updateLoginHistory: push the login and keep the latest 10. A
    missing row makes [row.login_history] throw, which rejects. *)
Definition updateLoginHistory (users : list row) (userId : Z) (login : loginData)
    : list row * promise bool :=
  match find (fun u => id u =? userId) users with
  | None => (users, Rejected "Cannot read properties of undefined")
  | Some row =>
      let history := (login_history row ++ [login])%list in
      let updatedHistory := slice_last 10 history in
      (map (fun u =>
              if id u =? userId
              then mk (id u) (username u) (password u) updatedHistory (role u)
              else u) users,
       Resolved true)
  end.

(** runRoleMigration: [UPDATE users SET role = 'admin' WHERE username =
    'admin'], then [UPDATE users SET role = 'scanner' WHERE username !=
    'admin']. *)
Definition runRoleMigration (users : list row) : list row :=
  map (fun u =>
         if negb (username u =? "admin")%string
         then mk (id u) (username u) (password u) (login_history u) "scanner"
         else u)
    (map (fun u =>
            if (username u =? "admin")%string
            then mk (id u) (username u) (password u) (login_history u) "admin"
            else u) users).

End UserDb.

(** The caller [getUserFromJWT] puts on the request for a users row. *)
Definition caller (u : UserDb.row) : User :=
  {| userId := UserDb.id u; role := UserDb.role u |}.

(** ** The routes as single statements *)

(** The caller of a request. *)
Definition requester (r : Request) : User :=
  match r with
  | PostWorkshops user _ _ => user
  | PutWorkshop user _ _ _ _ _ => user
  | DeleteWorkshop user _ => user
  | PostGuests user _ _ _ _ => user
  | PutGuest user _ _ _ _ => user
  | DeleteGuest user _ => user
  | PostAttendance user _ _ _ => user
  | DeleteAttendance user _ => user
  | PostVipAccess user _ _ _ => user
  | DeleteVipAccess user _ _ => user
  end.

(** The writing statement a route runs, if any, with the arguments the
    routes give it: the token of a new guest is generated from its id. *)
Inductive statement (db : Db) : Db -> Prop :=
| No_write : statement db db
| Workshop_inserted (id : string) (n desc d l : option string) (u v : Z)
    (c : option Z) (db' : Db) :
    Sql.insert_workshop db id n desc d l u v c = Sql.Done db' ->
    statement db db'
| Workshop_updated_by (id : string) (n desc d l : option string) (k : nat)
    (db' : Db) :
    Sql.update_workshop db id n desc d l = Sql.Done (db', k) ->
    statement db db'
| Workshop_deleted (id : string) (k : nat) (db' : Db) :
    Sql.delete_workshop db id = Sql.Done (db', k) ->
    statement db db'
| Guest_inserted (id : string) (n : option string) (e : string) (u v : Z)
    (db' : Db) :
    Sql.insert_guest db id n e (DataUtils.generateQRCode id) u v = Sql.Done db' ->
    statement db db'
| Guest_updated (id : string) (n e : option string) (v : Z) (k : nat) (db' : Db) :
    Sql.update_guest db id n e v = Sql.Done (db', k) ->
    statement db db'
| Guest_deleted (id : string) (k : nat) (db' : Db) :
    Sql.delete_guest db id = Sql.Done (db', k) ->
    statement db db'
| Attendance_inserted (r : Attendance.row) (db' : Db) :
    Sql.insert_attendance db r = Sql.Done db' ->
    statement db db'
| Attendance_deleted_by (id : string) :
    statement db (Sql.delete_attendance db id)
| Vip_access_inserted (r : VipAccess.row) (db' : Db) :
    Sql.insert_vip_access db r = Sql.Done db' ->
    statement db db'.

(** The PRIMARY KEY and UNIQUE constraints of the schema, as a property of
    a store. *)
Definition store_keys_unique (db : Db) : Prop :=
  NoDup (map Workshop.id (workshops db))
  /\ NoDup (map Guest.id (guests db))
  /\ NoDup (map Guest.email (guests db))
  /\ NoDup (map Guest.qr_code (guests db))
  /\ NoDup (map Attendance.id (attendance db))
  /\ attendance_unique db
  /\ NoDup (map VipAccess.id (vip_access db))
  /\ NoDup (map (fun v => (VipAccess.guest_id v, VipAccess.workshop_id v))
             (vip_access db)).

(** Every guest's token is the one generated from its id. *)
Definition tokens_generated (db : Db) : Prop :=
  Forall (fun g => Guest.qr_code g = DataUtils.generateQRCode (Guest.id g))
    (guests db).

(** ** More example data *)

(** A second admin, who owns nothing. *)
Definition other_admin : User := {| userId := 7; role := "admin" |}.

(** The row POST /api/workshops stores for the ordinary workshop A. *)
Definition workshop_A : Workshop.row :=
  Workshop.mk "wA" "A" None "2025-05-01" "Hall" 1 0 None.

(** A VIP workshop with the capacity -5, and a VIP guest. *)
Definition negative_capacity : list Request :=
  [ PostWorkshops Example.admin (Example.workshop "N" true (Some (-5))) "wN";
    PostGuests Example.admin (Some "V") (Some "v@example.org") true "gV" ].

(** The REFERENCES clauses of attendance and vip_access, as a property of
    a store: every row names a stored workshop and a stored guest. *)
Definition references_resolve (db : Db) : Prop :=
  (forall a, In a (attendance db) ->
             Sql.has_workshop db (Attendance.workshop_id a) = true
             /\ Sql.has_guest db (Attendance.guest_id a) = true)
  /\ (forall v, In v (vip_access db) ->
                Sql.has_guest db (VipAccess.guest_id v) = true
                /\ Sql.has_workshop db (VipAccess.workshop_id v) = true).

(** Modelled from the spec: totalSessionsForOwner, the count of the
    sessions that belong to the owner. *)
Definition totalSessionsForOwner (db : Db) (owner : Z) : nat :=
  length (filter (fun w => Workshop.user_id w =? owner) (workshops db)).

(** Modelled from the spec: attendedCount, the count of the owner's
    sessions that the guest attended, that is, for which the guest has an
    Attendance row. *)
Definition attendedCount (db : Db) (guestId : string) (owner : Z) : nat :=
  length
    (filter
       (fun w => (Workshop.user_id w =? owner)
                 && existsb
                      (fun a => (Attendance.guest_id a =? guestId)%string
                                && (Attendance.workshop_id a =? Workshop.id w)%string)
                      (attendance db))
       (workshops db)).


(** * Properties *)

(** ** Lists and ORDER BY *)

Lemma insert_by_length {A : Type} (le : A -> A -> bool) (x : A) (l : list A) :
  length (Sql.insert_by le x l) = S (length l).
Proof.
  induction l as [|y l IH]; simpl; [reflexivity|].
  destruct (le x y); simpl; [reflexivity | now rewrite IH].
Qed.

Lemma order_by_length {A : Type} (le : A -> A -> bool) (l : list A) :
  length (Sql.order_by le l) = length l.
Proof.
  induction l as [|x l IH]; simpl; [reflexivity|].
  unfold Sql.order_by in *. simpl. now rewrite insert_by_length, IH.
Qed.

Lemma insert_by_In {A : Type} (le : A -> A -> bool) (x y : A) (l : list A) :
  In y (Sql.insert_by le x l) <-> y = x \/ In y l.
Proof.
  induction l as [|z l IH]; simpl.
  - intuition congruence.
  - destruct (le x z); simpl; [intuition congruence|].
    rewrite IH. intuition congruence.
Qed.

Lemma order_by_In {A : Type} (le : A -> A -> bool) (y : A) (l : list A) :
  In y (Sql.order_by le l) <-> In y l.
Proof.
  induction l as [|x l IH]; simpl; [reflexivity|].
  unfold Sql.order_by in *. simpl. rewrite insert_by_In, IH.
  intuition congruence.
Qed.

Lemma find_none_filter {A : Type} (f : A -> bool) (l : list A) :
  find f l = None <-> filter f l = [].
Proof.
  induction l as [|x l IH]; simpl; [tauto|].
  destruct (f x); [split; discriminate | exact IH].
Qed.

Lemma find_existsb {A : Type} (f : A -> bool) (l : list A) :
  existsb f l = match find f l with Some _ => true | None => false end.
Proof.
  induction l as [|x l IH]; simpl; [reflexivity|].
  destruct (f x); [reflexivity | exact IH].
Qed.

Lemma filter_app_singleton {A : Type} (f : A -> bool) (l : list A) (x : A) :
  filter f (l ++ [x]) = (filter f l ++ (if f x then [x] else []))%list.
Proof. rewrite filter_app. reflexivity. Qed.

(** ** Statuses *)

Lemma error_not_ok (s : nat) (m : string) :
  (s < 200 \/ 299 < s)%nat -> ok (Server.error s m) = false.
Proof.
  intros H. unfold ok, Server.error, Server.json. simpl status.
  destruct H as [H|H].
  - apply andb_false_iff. left. apply Nat.leb_gt. exact H.
  - apply andb_false_iff. right. apply Nat.leb_gt. exact H.
Qed.

(** ** POST /api/attendance, case by case *)

Lemma createAttendance_cases (db : Db) (g w t : string) (u : Z) (uuid : string) :
  (exists m, Database.createAttendance db g w t u uuid = (db, Rejected m))
  \/ (Database.getAttendanceRecord db g w = None
      /\ Database.createAttendance db g w t u uuid
         = (set_attendance db (attendance db ++ [Attendance.mk uuid w g t u]),
            Resolved (Attendance.mk uuid w g t u))).
Proof.
  unfold Database.createAttendance, Sql.insert_attendance. simpl.
  destruct (existsb _ (attendance db)) eqn:Hid; [left; eauto|].
  destruct (existsb (fun a => (Attendance.workshop_id a =? w)%string
                              && (Attendance.guest_id a =? g)%string)
              (attendance db)) eqn:Hpair; [left; eauto|].
  destruct (foreign_keys db && _); [left; eauto|].
  right. split; [|reflexivity].
  unfold Database.getAttendanceRecord.
  rewrite find_existsb in Hpair.
  destruct (find _ (attendance db)) as [a|] eqn:Hf; [discriminate|].
  apply find_none_filter. apply find_none_filter in Hf.
  rewrite <- Hf. apply filter_ext. intros a. apply andb_comm.
Qed.

Lemma post_attendance_cases (db : Db) (user : User) (b : Server.attendanceBody)
    (now uuid : string) :
  post_attendance_result db user b (Server.post_attendance db user b now uuid).
Proof.
  unfold Server.post_attendance, Server.forbidden.
  destruct (negb (Server.authorize _ user)); [constructor; lia|].
  destruct (Server.ab_guestId b) as [g|] eqn:Hg; [|constructor; lia].
  destruct (Server.ab_workshopId b) as [w|] eqn:Hw; [|constructor; lia].
  destruct (negb _ || negb _); [constructor; lia|].
  destruct (Database.getGuestById db g _) as [guest|]; [|constructor; lia].
  destruct (Database.getWorkshopById db w _) as [workshop|]; [|constructor; lia].
  destruct (_ && Server.not_vip_guest _); [constructor; lia|].
  destruct (_ && Server.capacity_reached _ _ _); [constructor; lia|].
  destruct (Database.getAttendanceRecord db g w) eqn:Hrec; [constructor; lia|].
  match goal with
  | |- context [Database.createAttendance db g w ?t ?u uuid] =>
      destruct (createAttendance_cases db g w t u uuid) as [[m Hc]|[_ Hc]];
      rewrite Hc
  end.
  - constructor; lia.
  - eapply Recorded; eauto.
Qed.

(** The route once the caller is authorized and both ids resolve. *)
Lemma post_attendance_resolved (db : Db) (user : User) (g w : string)
    (ts : option string) (now uuid : string) (guest : Guest.row)
    (workshop : Workshop.obj) :
  Server.authorize ["admin"; "scanner"] user = true ->
  g <> "" -> w <> "" ->
  Database.getGuestById db g (Server.scope user) = Some guest ->
  Database.getWorkshopById db w (Server.scope user) = Some workshop ->
  Server.post_attendance db user (checkin g w ts) now uuid =
  if Server.is_vip_workshop workshop && Server.not_vip_guest guest
  then (db, Server.error 403 "Non-VIP guest cannot attend VIP workshops")
  else if Server.is_vip_workshop workshop && Server.capacity_reached db w workshop
  then (db, Server.error 403 "Workshop has reached maximum capacity")
  else match Database.getAttendanceRecord db g w with
       | Some _ => (db, Server.error 409 "Attendance already recorded")
       | None =>
           match Database.createAttendance db g w
                   (if Js.truthy_string ts
                    then match ts with Some t => t | None => now end
                    else now) (userId user) uuid with
           | (db', Resolved r) => (db', Server.json 201 (AttendanceJson r))
           | (db', Rejected _) => (db', Server.error 500 "Failed to record attendance")
           end
       end.
Proof.
  intros Hauth Hg Hw Hguest Hworkshop.
  unfold Server.post_attendance, checkin. simpl Server.ab_guestId.
  simpl Server.ab_workshopId. simpl Server.ab_timestamp.
  rewrite Hauth, Hguest, Hworkshop.
  apply String.eqb_neq in Hg, Hw.
  unfold Js.truthy_string. rewrite Hg, Hw. reflexivity.
Qed.

(** A 201 answer tells how the request went through the route. *)
Lemma post_attendance_accepted (db : Db) (user : User) (g w : string)
    (ts : option string) (now uuid : string) :
  status (snd (Server.post_attendance db user (checkin g w ts) now uuid)) = 201%nat ->
  Server.authorize ["admin"; "scanner"] user = true
  /\ g <> "" /\ w <> ""
  /\ exists guest workshop r,
       Database.getGuestById db g (Server.scope user) = Some guest
       /\ Database.getWorkshopById db w (Server.scope user) = Some workshop
       /\ Server.is_vip_workshop workshop && Server.not_vip_guest guest = false
       /\ Server.is_vip_workshop workshop && Server.capacity_reached db w workshop = false
       /\ Database.getAttendanceRecord db g w = None
       /\ Attendance.guest_id r = g /\ Attendance.workshop_id r = w
       /\ Server.post_attendance db user (checkin g w ts) now uuid
          = (set_attendance db (attendance db ++ [r]),
             Server.json 201 (AttendanceJson r)).
Proof.
  unfold Server.post_attendance, checkin. simpl Server.ab_guestId.
  simpl Server.ab_workshopId. simpl Server.ab_timestamp.
  destruct (Server.authorize _ user) eqn:Hauth; [|not_201]. simpl negb.
  cbv iota.
  destruct (String.eqb_spec g "") as [->|Hg]; [not_201|].
  destruct (String.eqb_spec w "") as [->|Hw]; [not_201|].
  simpl negb. simpl orb. cbv iota.
  destruct (Database.getGuestById db g _) as [guest|] eqn:Hguest; [|not_201].
  destruct (Database.getWorkshopById db w _) as [workshop|] eqn:Hworkshop;
    [|not_201].
  destruct (_ && Server.not_vip_guest _) eqn:Hvip; [not_201|].
  destruct (_ && Server.capacity_reached _ _ _) eqn:Hcap; [not_201|].
  destruct (Database.getAttendanceRecord db g w) eqn:Hrec; [not_201|].
  match goal with
  | |- context [Database.createAttendance db g w ?t ?u uuid] =>
      destruct (createAttendance_cases db g w t u uuid) as [[m Hc]|[_ Hc]];
      rewrite Hc
  end; [not_201|].
  intros _. repeat split; auto.
  eexists guest, workshop, _. repeat split; eauto.
Qed.


(** ** Lookups *)

Lemma getWorkshopById_some (db : Db) (id : string) (u : option Z)
    (workshop : Workshop.obj) :
  Database.getWorkshopById db id u = Some workshop ->
  exists r, workshop = Workshop.select_star r /\ In r (workshops db)
            /\ Workshop.id r = id /\ Database.owned_by u (Workshop.user_id r) = true.
Proof.
  unfold Database.getWorkshopById. intros H.
  destruct (find _ (workshops db)) as [r|] eqn:Hf; [|discriminate].
  injection H as <-. apply find_some in Hf. destruct Hf as [Hin Hp].
  apply andb_true_iff in Hp. destruct Hp as [Hid Hown].
  apply String.eqb_eq in Hid. eauto.
Qed.

Lemma getGuestById_some (db : Db) (id : string) (u : option Z) (g : Guest.row) :
  Database.getGuestById db id u = Some g ->
  In g (guests db) /\ Guest.id g = id
  /\ Database.owned_by u (Guest.user_id g) = true.
Proof.
  unfold Database.getGuestById. intros H. apply find_some in H.
  destruct H as [Hin Hp]. apply andb_true_iff in Hp. destruct Hp as [Hid Hown].
  apply String.eqb_eq in Hid. auto.
Qed.

Lemma getGuestByQRCode_some (db : Db) (qr : string) (u : option Z) (g : Guest.row) :
  Database.getGuestByQRCode db qr u = Some g ->
  In g (guests db) /\ Guest.qr_code g = qr
  /\ Database.owned_by u (Guest.user_id g) = true.
Proof.
  unfold Database.getGuestByQRCode. intros H. apply find_some in H.
  destruct H as [Hin Hp]. apply andb_true_iff in Hp. destruct Hp as [Hid Hown].
  apply String.eqb_eq in Hid. auto.
Qed.

Lemma find_some_of_In {A : Type} (f : A -> bool) (l : list A) (x : A) :
  In x l -> f x = true -> find f l <> None.
Proof.
  intros Hin Hfx Hnone. rewrite (find_none f l Hnone x Hin) in Hfx. discriminate.
Qed.

Lemma rows_of_nonempty (db : Db) (g w : string) :
  rows_of db g w <> [] <-> Database.getAttendanceRecord db g w <> None.
Proof.
  unfold rows_of, Database.getAttendanceRecord.
  rewrite find_none_filter. tauto.
Qed.



(** ** Recording a check-in *)

(** C9. Whatever a call of POST /api/attendance answers, the workshops,
    guests and VIP grants (and the connection setting) are as before; the
    call appends exactly one attendance row when it answers 201 and leaves
    the whole store unchanged on every other answer. *)
Theorem checkin_touches_only_attendance :
  forall (db : Db) (user : User) (b : Server.attendanceBody) (now uuid : string),
    let db' := fst (Server.post_attendance db user b now uuid) in
    let response := snd (Server.post_attendance db user b now uuid) in
    workshops db' = workshops db
    /\ guests db' = guests db
    /\ vip_access db' = vip_access db
    /\ foreign_keys db' = foreign_keys db
    /\ ((status response = 201%nat
         /\ exists r, attendance db' = (attendance db ++ [r])%list)
        \/ (status response <> 201%nat /\ db' = db)).
Proof.
  intros db user b now uuid.
  destruct (post_attendance_cases db user b now uuid)
    as [s m Hs _ | g w r _ _ _ _ _]; cbn.
  - repeat split; auto.
  - repeat split; auto. left. split; [reflexivity | now exists r].
Qed.




(** ** VIP workshops and grants *)

(** Granting touches the grants only. *)
Lemma post_vip_access_frame (db : Db) (user : User) (w : string)
    (g : option string) (uuid : string) :
  workshops (fst (Server.post_vip_access db user w g uuid)) = workshops db
  /\ guests (fst (Server.post_vip_access db user w g uuid)) = guests db
  /\ attendance (fst (Server.post_vip_access db user w g uuid)) = attendance db
  /\ foreign_keys (fst (Server.post_vip_access db user w g uuid)) = foreign_keys db.
Proof.
  unfold Server.post_vip_access.
  destruct (negb _); [auto|].
  destruct g as [g|]; [|auto].
  destruct (negb _ || negb _); [auto|].
  destruct (Database.getWorkshopById db w _); [|auto].
  destruct (negb _ && negb _); [auto|].
  destruct (Js.ge_number _ _); [auto|].
  destruct (Database.getGuestById db g _); [|auto].
  unfold Database.addVipAccess.
  destruct (Sql.insert_vip_access db _) as [db'|e] eqn:Hins; [|auto].
  unfold Sql.insert_vip_access in Hins.
  destruct (existsb _ _); [discriminate|].
  destruct (existsb _ _); [discriminate|].
  destruct (foreign_keys db && _); [discriminate|].
  injection Hins as <-. auto.
Qed.

(** The check-in route does not read the grants. *)
Lemma post_attendance_reads (db db' : Db) (user : User)
    (b : Server.attendanceBody) (now uuid : string) :
  workshops db' = workshops db -> guests db' = guests db ->
  attendance db' = attendance db -> foreign_keys db' = foreign_keys db ->
  snd (Server.post_attendance db' user b now uuid)
  = snd (Server.post_attendance db user b now uuid)
  /\ (fst (Server.post_attendance db user b now uuid) = db ->
      fst (Server.post_attendance db' user b now uuid) = db').
Proof.
  intros Hw Hg Ha Hf.
  unfold Server.post_attendance.
  destruct (negb _); [auto|].
  destruct (Server.ab_guestId b) as [g|]; [|auto].
  destruct (Server.ab_workshopId b) as [w|]; [|auto].
  destruct (negb _ || negb _); [auto|].
  unfold Database.getGuestById, Database.getWorkshopById. rewrite Hw, Hg.
  destruct (find _ (guests db)) as [guest|]; [|auto].
  destruct (option_map _ _) as [workshop|]; [|auto].
  unfold Server.capacity_reached, Database.getWorkshopAttendees. rewrite Hg, Ha.
  destruct (_ && Server.not_vip_guest _); [auto|].
  destruct (_ && (Js.truthy_number _ && _)); [auto|].
  unfold Database.getAttendanceRecord. rewrite Ha.
  destruct (find _ (attendance db)); [auto|].
  unfold Database.createAttendance, Sql.insert_attendance, Sql.has_workshop,
    Sql.has_guest. rewrite Ha, Hw, Hg, Hf.
  destruct (existsb _ (attendance db)); [auto|].
  destruct (existsb _ (attendance db)); [auto|].
  destruct (foreign_keys db && _) eqn:Hfk; [auto|].
  split; [reflexivity|].
  - cbn [fst]. intros Habs. exfalso.
    apply (f_equal (fun d => length (attendance d))) in Habs.
    cbn [attendance set_attendance] in Habs. rewrite length_app in Habs.
    simpl in Habs. lia.
Qed.

(** C2, as the code has it. A guest without the VIP flag is refused at a
    VIP workshop with 403 'Non-VIP guest cannot attend VIP workshops' and
    nothing is written; the answer is the same after any request to grant
    VIP access, the grant of this guest for this workshop included. *)
Theorem vip_checkin_reads_guest_flag_not_grants :
  forall (db : Db) (user : User) (g w : string) (ts : option string)
         (now uuid : string) (guest : Guest.row) (workshop : Workshop.obj),
    Server.authorize ["admin"; "scanner"] user = true ->
    g <> "" -> w <> "" ->
    Database.getGuestById db g (Server.scope user) = Some guest ->
    Database.getWorkshopById db w (Server.scope user) = Some workshop ->
    Workshop.is_vip (Workshop.columns workshop) <> 0 ->
    Guest.is_vip guest = 0 ->
    Server.post_attendance db user (checkin g w ts) now uuid
    = (db, Server.error 403 "Non-VIP guest cannot attend VIP workshops")
    /\ forall (admin : User) (w' : string) (g' : option string) (uuid' : string),
         let granted := fst (Server.post_vip_access db admin w' g' uuid') in
         Server.post_attendance granted user (checkin g w ts) now uuid
         = (granted, Server.error 403 "Non-VIP guest cannot attend VIP workshops").
Proof.
  intros db user g w ts now uuid guest workshop Hauth Hg Hw Hguest Hworkshop
    Hvip Hflag.
  assert (Hdenied : Server.post_attendance db user (checkin g w ts) now uuid
                    = (db, Server.error 403 "Non-VIP guest cannot attend VIP workshops")).
  { rewrite (post_attendance_resolved _ _ _ _ _ _ _ _ _ Hauth Hg Hw Hguest Hworkshop).
    unfold Server.is_vip_workshop, Server.not_vip_guest, Js.truthy_number.
    rewrite Hflag. apply Z.eqb_neq in Hvip. rewrite Hvip.
    rewrite orb_true_r. reflexivity. }
  split; [exact Hdenied|].
  intros admin w' g' uuid' granted.
  destruct (post_vip_access_frame db admin w' g' uuid') as [Hws [Hgs [Has Hfk]]].
  destruct (post_attendance_reads db granted user (checkin g w ts) now uuid
              Hws Hgs Has Hfk) as [Hsnd Hfst].
  rewrite Hdenied in Hsnd, Hfst. cbn [fst snd] in Hsnd, Hfst.
  rewrite (surjective_pairing (Server.post_attendance granted user _ now uuid)).
  rewrite Hsnd, (Hfst eq_refl). reflexivity.
Qed.

(** Witness: the guest X without the VIP flag at the VIP workshop B,
    before and after the grant. *)
Lemma plain_guest_refused_before_and_after_grant :
  let db := run (empty_db false) (firstn 2 Example.granted_then_scanned) in
  let granted := fst (Server.post_vip_access db Example.admin "wB" (Some "gX") "v1") in
  Server.post_attendance db Example.scanner (checkin "gX" "wB" None) "09:00" "a1"
  = (db, Server.error 403 "Non-VIP guest cannot attend VIP workshops")
  /\ Database.hasVipAccess granted "gX" "wB" = true
  /\ Server.post_attendance granted Example.scanner (checkin "gX" "wB" None) "09:00" "a1"
     = (granted, Server.error 403 "Non-VIP guest cannot attend VIP workshops").
Proof.
  destruct (vip_checkin_reads_guest_flag_not_grants
              (run (empty_db false) (firstn 2 Example.granted_then_scanned))
              Example.scanner "gX" "wB" None "09:00" "a1" (Example.guest_X 0)
              (Workshop.select_star
                 (Workshop.mk "wB" "B" None "2025-05-01" "Hall" 1 1 (Some 1))))
    as [H1 H2];
    [reflexivity | discriminate | discriminate | reflexivity | reflexivity
    | discriminate | reflexivity |].
  split; [exact H1|]. split; [reflexivity|].
  exact (H2 Example.admin "wB" (Some "gX") "v1").
Defined.

(** Counterexample to C2 as stated: X is refused, is granted VIP access for
    B (201), and is refused again with the same answer. *)
Lemma granted_guest_is_still_refused :
  responses (empty_db false) Example.granted_then_scanned
  = [ Server.json 201 CreatedJson;
      Server.json 201 CreatedJson;
      Server.error 403 "Non-VIP guest cannot attend VIP workshops";
      Server.json 201 (MessageJson "VIP access granted successfully");
      Server.error 403 "Non-VIP guest cannot attend VIP workshops" ]
  /\ Database.hasVipAccess (run (empty_db false) Example.granted_then_scanned)
       "gX" "wB" = true
  /\ attendance (run (empty_db false) Example.granted_then_scanned) = [].
Proof. repeat split. Qed.




(** ** Deleting a guest or a workshop *)

(** The DELETE routes never remove a grant. *)
Lemma delete_guest_keeps_grants (db : Db) (user : User) (id : string) :
  vip_access (fst (Server.delete_guest db user id)) = vip_access db.
Proof.
  unfold Server.delete_guest.
  destruct (negb _); [reflexivity|].
  destruct (Database.getGuestById db id _); [|reflexivity].
  unfold Database.deleteGuest, Sql.delete_guest.
  destruct (Sql.has_guest db id); [|reflexivity].
  destruct (foreign_keys db).
  - destruct (existsb _ (vip_access db)); [reflexivity|].
    destruct (_ =? 0)%nat; reflexivity.
  - destruct (_ =? 0)%nat; reflexivity.
Qed.

Lemma delete_workshop_keeps_grants (db : Db) (user : User) (id : string) :
  vip_access (fst (Server.delete_workshop db user id)) = vip_access db.
Proof.
  unfold Server.delete_workshop.
  destruct (negb _); [reflexivity|].
  destruct (Database.getWorkshopById db id _); [|reflexivity].
  unfold Database.deleteWorkshop, Sql.delete_workshop.
  destruct (Sql.has_workshop db id); [|reflexivity].
  destruct (foreign_keys db).
  - destruct (existsb _ (vip_access db)); [reflexivity|].
    destruct (_ =? 0)%nat; reflexivity.
  - destruct (_ =? 0)%nat; reflexivity.
Qed.

(** C3 at a failing input. The VIP guest X holds a grant for the VIP
    workshop B and is checked in to it. DELETE /api/guests/gX leaves the
    grant stored: on a connection that enforces foreign keys the statement
    fails on the reference from vip_access, which has no ON DELETE action,
    and nothing is deleted (500); on a connection that does not, the guest
    row goes and the grant and the attendance row keep naming it.
    DELETE /api/workshops/wB behaves the same way. *)
Theorem deleting_a_granted_guest_keeps_the_grant :
  forall fk : bool,
    let db := run (empty_db fk) Example.granted_and_checked_in in
    vip_access db = [ VipAccess.mk "v1" "gX" "wB" ]
    /\ attendance db = [ Attendance.mk "a1" "wB" "gX" "09:00" 2 ]
    /\ vip_access (fst (Server.delete_guest db Example.admin "gX")) = vip_access db
    /\ vip_access (fst (Server.delete_workshop db Example.admin "wB")) = vip_access db
    /\ (if fk
        then Server.delete_guest db Example.admin "gX"
             = (db, Server.error 500 "Failed to delete guest")
             /\ Server.delete_workshop db Example.admin "wB"
                = (db, Server.error 500 "Failed to delete workshop")
        else Server.delete_guest db Example.admin "gX"
             = (set_guests db [], Server.json 204 NoContent)
             /\ Server.delete_workshop db Example.admin "wB"
                = (set_workshops db [], Server.json 204 NoContent)).
Proof. intros [|]; repeat split. Qed.

(** ** Percentage, eligibility, certificate *)

(** C6. For a guest of the caller, GET /api/analytics/guest/:id/eligible
    answers with the attendance percentage and with [eligible] true exactly
    when that percentage is at least 70; 70 itself is eligible. *)
Theorem eligible_iff_percentage_at_least_70 :
  forall (db : Db) (user : User) (guestId : string) (guest : Guest.row),
    Server.authorize ["admin"] user = true ->
    Database.getGuestById db guestId (Some (userId user)) = Some guest ->
    exists eligible : bool,
      Server.get_guest_eligible db user guestId
      = Server.json 200
          (EligibleJson eligible
             (Database.calculateGuestAttendancePercentage db guestId (userId user)))
      /\ (eligible = true
          <-> (70 <= Database.calculateGuestAttendancePercentage db guestId (userId user))%Q)
      /\ ((Database.calculateGuestAttendancePercentage db guestId (userId user) == 70)%Q
          -> eligible = true).
Proof.
  intros db user guestId guest Hauth Hguest.
  unfold Server.get_guest_eligible. rewrite Hauth, Hguest. cbn [negb].
  eexists. split; [reflexivity|]. split.
  - apply Qle_bool_iff.
  - intros Heq. apply Qle_bool_iff. rewrite Heq. apply Qle_refl.
Qed.

(** Witness: seven workshops attended out of ten is 70%, and eligible. *)
Lemma seven_of_ten_is_eligible :
  (Database.calculateGuestAttendancePercentage
     (run (empty_db false) (Example.attended_of_ten 7)) "gX" 1 == 70)%Q
  /\ exists percentage,
       Server.get_guest_eligible (run (empty_db false) (Example.attended_of_ten 7))
         Example.admin "gX"
       = Server.json 200 (EligibleJson true percentage).
Proof.
  split; [reflexivity|].
  destruct (eligible_iff_percentage_at_least_70
              (run (empty_db false) (Example.attended_of_ten 7))
              Example.admin "gX" (Example.guest_X 0) eq_refl eq_refl)
    as [eligible [Hresponse [_ Hboundary]]].
  assert (H70 : (Database.calculateGuestAttendancePercentage
                   (run (empty_db false) (Example.attended_of_ten 7)) "gX"
                   (userId Example.admin) == 70)%Q) by reflexivity.
  rewrite (Hboundary H70) in Hresponse.
  eexists. exact Hresponse.
Defined.

(** C8 at a failing input. The owner has 101 workshops and the guest X has
    one attendance row, for one of them. The route finds that row, then
    compares the percentage, 100/101, with 1 and answers 403 'Guest has not
    attended any workshops'. *)
Theorem certificate_refused_with_one_row_of_101 :
  forall fk : bool,
    let db := run (empty_db fk) Example.one_of_101 in
    attendance db = [ Attendance.mk "a1" " " "gX" "09:00" 2 ]
    /\ length (Database.getGuestAttendance db "gX") = 1%nat
    /\ (Database.calculateGuestAttendancePercentage db "gX" 1 == 100 # 101)%Q
    /\ Server.post_certificates_generate db Example.admin (Some "gX") (Some "X")
       = Server.error 403 "Guest has not attended any workshops".
Proof. intros [|]; repeat split. Qed.

(** ** What each route does to the workshops and to the attendance rows *)

Lemma post_workshops_step (db : Db) (user : User) (b : Server.workshopBody)
    (uuid : string) :
  workshops_step db (workshops (fst (Server.post_workshops db user b uuid))).
Proof.
  unfold Server.post_workshops.
  destruct (negb (Server.authorize _ _)); [constructor|].
  destruct (negb (Js.truthy_string _)); [constructor|].
  destruct (Server.wb_isVip b) eqn:Hvip.
  - cbn [andb].
    destruct (negb (Js.truthy_value (Server.wb_maxCapacity b))
              || Js.gt_value (Server.wb_maxCapacity b) 31) eqn:Hguard;
      [constructor|].
    unfold Database.createWorkshop, Sql.insert_workshop.
    cbn [Database.wd_name Database.wd_description Database.wd_date
         Database.wd_location Database.wd_userId Database.wd_isVip
         Database.wd_maxCapacity].
    destruct (Server.wb_name b); [|constructor].
    destruct (Server.wb_date b); [|constructor].
    destruct (Server.wb_location b); [|constructor].
    destruct (Sql.has_workshop db uuid); [constructor|].
    cbn [fst workshops set_workshops]. apply Workshop_created.
    right. reflexivity.
  - cbn [andb].
    unfold Database.createWorkshop, Sql.insert_workshop.
    cbn [Database.wd_name Database.wd_description Database.wd_date
         Database.wd_location Database.wd_userId Database.wd_isVip
         Database.wd_maxCapacity].
    destruct (Server.wb_name b); [|constructor].
    destruct (Server.wb_date b); [|constructor].
    destruct (Server.wb_location b); [|constructor].
    destruct (Sql.has_workshop db uuid); [constructor|].
    cbn [fst workshops set_workshops]. apply Workshop_created.
    left. cbn. auto.
Qed.

Lemma put_workshop_step (db : Db) (user : User) (id : string)
    (name description date location : option string) :
  workshops_step db
    (workshops (fst (Server.put_workshop db user id name description date location))).
Proof.
  unfold Server.put_workshop.
  destruct (negb (Server.authorize _ _)); [constructor|].
  destruct (Database.getWorkshopById db id _); [|constructor].
  unfold Database.updateWorkshop, Sql.update_workshop.
  destruct (Sql.has_workshop db id); [|constructor].
  destruct name; [|constructor].
  destruct date; [|constructor].
  destruct location; [|constructor].
  destruct (_ =? 0)%nat; cbn [fst workshops set_workshops]; constructor.
Qed.

Lemma delete_workshop_step (db : Db) (user : User) (id : string) :
  workshops_step db (workshops (fst (Server.delete_workshop db user id))).
Proof.
  unfold Server.delete_workshop.
  destruct (negb (Server.authorize _ _)); [constructor|].
  destruct (Database.getWorkshopById db id _); [|constructor].
  unfold Database.deleteWorkshop, Sql.delete_workshop.
  destruct (Sql.has_workshop db id); [|constructor].
  destruct (foreign_keys db).
  - destruct (existsb _ (vip_access db)); [constructor|].
    destruct (_ =? 0)%nat; cbn [fst workshops set_workshops set_attendance];
      constructor.
  - destruct (_ =? 0)%nat; cbn [fst workshops set_workshops]; constructor.
Qed.

Lemma post_guests_frame (db : Db) (user : User)
    (name email : option string) (isVip : bool) (uuid : string) :
  workshops (fst (Server.post_guests db user name email isVip uuid)) = workshops db
  /\ attendance (fst (Server.post_guests db user name email isVip uuid))
     = attendance db.
Proof.
  unfold Server.post_guests.
  destruct (negb (Server.authorize _ _)); [split; reflexivity|].
  destruct (negb (Js.truthy_string _)); [split; reflexivity|].
  unfold Database.createGuest.
  destruct (Sql.insert_guest _ _ _ _ _ _ _) as [db'|e] eqn:Hins.
  - cbn [fst]. unfold Sql.insert_guest in Hins.
    destruct (Database.gd_name _); [|discriminate].
    destruct (Sql.has_guest db uuid); [discriminate|].
    destruct (existsb _ (guests db)); [discriminate|].
    destruct (existsb _ (guests db)); [discriminate|].
    injection Hins as <-. split; reflexivity.
  - destruct (Sql.unique_failed_on e _); split; reflexivity.
Qed.

Lemma put_guest_frame (db : Db) (user : User) (id : string)
    (name email : option string) (isVip : bool) :
  workshops (fst (Server.put_guest db user id name email isVip)) = workshops db
  /\ attendance (fst (Server.put_guest db user id name email isVip)) = attendance db.
Proof.
  unfold Server.put_guest.
  destruct (negb (Server.authorize _ _)); [split; reflexivity|].
  destruct (Database.getGuestById db id _); [|split; reflexivity].
  unfold Database.updateGuest.
  destruct (Sql.update_guest _ _ _ _ _) as [[db' changes]|e] eqn:Hupd.
  - unfold Sql.update_guest in Hupd.
    destruct (Sql.has_guest db id).
    + destruct name; [|discriminate]. destruct email; [|discriminate].
      destruct (existsb _ (guests db)); [discriminate|].
      injection Hupd as <- <-. destruct (_ =? 0)%nat; split; reflexivity.
    + injection Hupd as <- <-. split; reflexivity.
  - destruct (Sql.unique_failed_on e _); split; reflexivity.
Qed.

Lemma delete_guest_keeps_workshops (db : Db) (user : User) (id : string) :
  workshops (fst (Server.delete_guest db user id)) = workshops db.
Proof.
  unfold Server.delete_guest.
  destruct (negb (Server.authorize _ _)); [reflexivity|].
  destruct (Database.getGuestById db id _); [|reflexivity].
  unfold Database.deleteGuest, Sql.delete_guest.
  destruct (Sql.has_guest db id); [|reflexivity].
  destruct (foreign_keys db).
  - destruct (existsb _ (vip_access db)); [reflexivity|].
    destruct (_ =? 0)%nat; reflexivity.
  - destruct (_ =? 0)%nat; reflexivity.
Qed.

Lemma delete_attendance_keeps_workshops (db : Db) (user : User) (id : string) :
  workshops (fst (Server.delete_attendance db user id)) = workshops db.
Proof.
  unfold Server.delete_attendance.
  destruct (negb (Server.authorize _ _)); reflexivity.
Qed.

Lemma delete_vip_access_frame (db : Db) (user : User) (w g : string) :
  workshops (fst (Server.delete_vip_access db user w g)) = workshops db
  /\ attendance (fst (Server.delete_vip_access db user w g)) = attendance db.
Proof.
  unfold Server.delete_vip_access.
  destruct (negb (Server.authorize _ _)); [split; reflexivity|].
  destruct (Database.getWorkshopById db w _); [|split; reflexivity].
  destruct (negb _); split; reflexivity.
Qed.

Lemma post_attendance_keeps_workshops (db : Db) (user : User)
    (b : Server.attendanceBody) (now uuid : string) :
  workshops (fst (Server.post_attendance db user b now uuid)) = workshops db.
Proof.
  destruct (post_attendance_cases db user b now uuid); reflexivity.
Qed.

Lemma handle_workshops_step (db : Db) (r : Request) :
  workshops_step db (workshops (fst (handle db r))).
Proof.
  destruct r; cbn [handle].
  - apply post_workshops_step.
  - apply put_workshop_step.
  - apply delete_workshop_step.
  - rewrite (proj1 (post_guests_frame _ _ _ _ _ _)). constructor.
  - rewrite (proj1 (put_guest_frame _ _ _ _ _ _)). constructor.
  - rewrite delete_guest_keeps_workshops. constructor.
  - rewrite post_attendance_keeps_workshops. constructor.
  - rewrite delete_attendance_keeps_workshops. constructor.
  - rewrite (proj1 (post_vip_access_frame _ _ _ _ _)). constructor.
  - rewrite (proj1 (delete_vip_access_frame _ _ _ _)). constructor.
Qed.

Lemma workshops_step_invariant (db : Db) (l : list Workshop.row) :
  workshops_step db l ->
  Forall capacity_only_on_vip (workshops db) ->
  Forall capacity_only_on_vip l.
Proof.
  intros Hstep Hinv. destruct Hstep.
  - exact Hinv.
  - apply Forall_app. split; [exact Hinv | now constructor].
  - apply Forall_map. revert Hinv. apply Forall_impl. intros w Hw.
    destruct (Workshop.id w =? id)%string; exact Hw.
  - apply Forall_forall. intros w Hin. apply filter_In in Hin.
    rewrite Forall_forall in Hinv. now apply Hinv.
Qed.

Lemma run_invariant (P : Db -> Prop) :
  (forall db r, P db -> P (fst (handle db r))) ->
  forall requests db, P db -> P (run db requests).
Proof.
  intros Hstep requests. induction requests as [|r rest IH]; intros db Hdb.
  - exact Hdb.
  - cbn [run fold_left]. apply IH. now apply Hstep.
Qed.

Lemma reachable_capacity_only_on_vip (fk : bool) (requests : list Request) :
  Forall capacity_only_on_vip (workshops (run (empty_db fk) requests)).
Proof.
  apply (run_invariant (fun db => Forall capacity_only_on_vip (workshops db))).
  - intros db r. apply workshops_step_invariant, handle_workshops_step.
  - constructor.
Qed.

Lemma post_workshops_keeps_attendance (db : Db) (user : User)
    (b : Server.workshopBody) (uuid : string) :
  attendance (fst (Server.post_workshops db user b uuid)) = attendance db.
Proof.
  unfold Server.post_workshops.
  destruct (negb (Server.authorize _ _)); [reflexivity|].
  destruct (negb (Js.truthy_string _)); [reflexivity|].
  destruct (_ && _); [reflexivity|].
  unfold Database.createWorkshop.
  destruct (Sql.insert_workshop _ _ _ _ _ _ _ _ _) as [db'|e] eqn:Hins;
    [|reflexivity].
  unfold Sql.insert_workshop in Hins.
  destruct (Database.wd_name _); [|discriminate].
  destruct (Database.wd_date _); [|discriminate].
  destruct (Database.wd_location _); [|discriminate].
  destruct (Sql.has_workshop db uuid); [discriminate|].
  injection Hins as <-. reflexivity.
Qed.

Lemma put_workshop_keeps_attendance (db : Db) (user : User) (id : string)
    (name description date location : option string) :
  attendance (fst (Server.put_workshop db user id name description date location))
  = attendance db.
Proof.
  unfold Server.put_workshop.
  destruct (negb (Server.authorize _ _)); [reflexivity|].
  destruct (Database.getWorkshopById db id _); [|reflexivity].
  unfold Database.updateWorkshop, Sql.update_workshop.
  destruct (Sql.has_workshop db id); [|reflexivity].
  destruct name; [|reflexivity].
  destruct date; [|reflexivity].
  destruct location; [|reflexivity].
  destruct (_ =? 0)%nat; reflexivity.
Qed.

Lemma handle_attendance_step (db : Db) (r : Request) :
  attendance_step db (attendance (fst (handle db r))).
Proof.
  destruct r; cbn [handle].
  - rewrite post_workshops_keeps_attendance. constructor.
  - rewrite put_workshop_keeps_attendance. constructor.
  - unfold Server.delete_workshop.
    destruct (negb (Server.authorize _ _)); [constructor|].
    destruct (Database.getWorkshopById db id _); [|constructor].
    unfold Database.deleteWorkshop, Sql.delete_workshop.
    destruct (Sql.has_workshop db id); [|constructor].
    destruct (foreign_keys db).
    + destruct (existsb _ (vip_access db)); [constructor|].
      destruct (_ =? 0)%nat; cbn [fst attendance set_attendance]; constructor.
    + destruct (_ =? 0)%nat; cbn [fst attendance set_workshops set_guests];
        constructor.
  - rewrite (proj2 (post_guests_frame _ _ _ _ _ _)). constructor.
  - rewrite (proj2 (put_guest_frame _ _ _ _ _ _)). constructor.
  - unfold Server.delete_guest.
    destruct (negb (Server.authorize _ _)); [constructor|].
    destruct (Database.getGuestById db id _); [|constructor].
    unfold Database.deleteGuest, Sql.delete_guest.
    destruct (Sql.has_guest db id); [|constructor].
    destruct (foreign_keys db).
    + destruct (existsb _ (vip_access db)); [constructor|].
      destruct (_ =? 0)%nat; cbn [fst attendance set_attendance]; constructor.
    + destruct (_ =? 0)%nat; cbn [fst attendance set_workshops set_guests];
        constructor.
  - destruct (post_attendance_cases db user b now uuid)
      as [s m _ _ | g w r _ _ Hg Hw Hnone]; cbn [fst attendance set_attendance].
    + constructor.
    + apply Attendance_recorded. rewrite Hg, Hw.
      now apply find_none_filter.
  - unfold Server.delete_attendance.
    destruct (negb (Server.authorize _ _)); [constructor|].
    cbn [fst]. unfold Sql.delete_attendance. cbn [attendance set_attendance].
    constructor.
  - destruct (post_vip_access_frame db user workshopId guestId uuid)
      as [_ [_ [H _]]].
    rewrite H. constructor.
  - rewrite (proj2 (delete_vip_access_frame _ _ _ _)). constructor.
Qed.

Lemma NoDup_map_filter {A B : Type} (key : A -> B) (f : A -> bool) (l : list A) :
  NoDup (map key l) -> NoDup (map key (filter f l)).
Proof.
  induction l as [|x l IH]; intros Hnd; [constructor|].
  cbn [map] in Hnd. inversion Hnd as [|? ? Hnotin Hrest]; subst.
  cbn [filter]. destruct (f x); [|now apply IH].
  cbn [map]. constructor; [|now apply IH].
  intros Hin. apply Hnotin. apply in_map_iff in Hin.
  destruct Hin as [y [Hy Hin]]. apply filter_In in Hin.
  apply in_map_iff. exists y. tauto.
Qed.

Lemma attendance_step_unique (db : Db) (l : list Attendance.row) :
  attendance_step db l ->
  attendance_unique db ->
  NoDup (map (fun a => (Attendance.workshop_id a, Attendance.guest_id a)) l).
Proof.
  unfold attendance_unique. intros Hstep Hinv. destruct Hstep as [|r Hnone|f].
  - exact Hinv.
  - rewrite map_app. apply NoDup_app; [exact Hinv| |].
    + cbn [map]. constructor; [intros []|constructor].
    + intros k Hin [Hk|[]]. subst k. apply in_map_iff in Hin.
      destruct Hin as [a [Hkey Hin]]. injection Hkey as Hw Hg.
      assert (Hfil : In a (rows_of db (Attendance.guest_id r)
                             (Attendance.workshop_id r))).
      { apply filter_In. split; [exact Hin|].
        rewrite Hw, Hg, !String.eqb_refl. reflexivity. }
      rewrite Hnone in Hfil. exact Hfil.
  - now apply NoDup_map_filter.
Qed.

(** The UNIQUE(workshop_id, guest_id) constraint holds in every store the
    routes produce. *)
Lemma reachable_attendance_unique (fk : bool) (requests : list Request) :
  attendance_unique (run (empty_db fk) requests).
Proof.
  apply (run_invariant attendance_unique).
  - intros db r Hinv. unfold attendance_unique.
    exact (attendance_step_unique db _ (handle_attendance_step db r) Hinv).
  - constructor.
Qed.

(** ** The attendance percentage *)

Lemma rows_of_at_most_one (db : Db) (g w : string) :
  attendance_unique db -> (length (rows_of db g w) <= 1)%nat.
Proof.
  unfold attendance_unique, rows_of.
  induction (attendance db) as [|a l IH]; intros Hnd; [cbn; lia|].
  cbn [map] in Hnd. inversion Hnd as [|? ? Hnotin Hrest]; subst.
  cbn [filter].
  destruct ((Attendance.guest_id a =? g)%string
            && (Attendance.workshop_id a =? w)%string) eqn:Ha; [|now apply IH].
  apply andb_true_iff in Ha. destruct Ha as [Hg Hw].
  apply String.eqb_eq in Hg, Hw.
  destruct (filter _ l) as [|a' l'] eqn:Hfil; [cbn; lia|].
  exfalso. apply Hnotin.
  assert (Hin : In a' (filter
                         (fun a => (Attendance.guest_id a =? g)%string
                                   && (Attendance.workshop_id a =? w)%string) l))
    by (rewrite Hfil; now left).
  apply filter_In in Hin. destruct Hin as [Hin Hp].
  apply andb_true_iff in Hp. destruct Hp as [Hg' Hw'].
  apply String.eqb_eq in Hg', Hw'.
  apply in_map_iff. exists a'. split; [congruence | exact Hin].
Qed.

(** Counting the pairs of a join row by row or column by column. *)
Lemma join_count_cons {A B : Type} (p : A -> B -> bool) (a : A) (la : list A)
    (lb : list B) :
  length (flat_map (fun b => filter (fun a => p a b) (a :: la)) lb)
  = (length (filter (p a) lb)
     + length (flat_map (fun b => filter (fun a => p a b) la) lb))%nat.
Proof.
  induction lb as [|b lb IH]; [reflexivity|].
  cbn [flat_map]. rewrite !length_app, IH. cbn [filter].
  destruct (p a b); cbn [length]; lia.
Qed.

Lemma join_count_swap {A B : Type} (p : A -> B -> bool) (la : list A)
    (lb : list B) :
  length (flat_map (fun a => filter (p a) lb) la)
  = length (flat_map (fun b => filter (fun a => p a b) la) lb).
Proof.
  induction la as [|a la IH].
  - cbn [flat_map]. induction lb as [|b lb IHb]; [reflexivity | exact IHb].
  - cbn [flat_map]. rewrite length_app, IH, join_count_cons. reflexivity.
Qed.

Lemma attended_equals_total (db : Db) (g : string) (u : Z) :
  attendance_unique db -> attended_all db g u ->
  Database.attendedWorkshops db g u = Database.totalWorkshops db u.
Proof.
  intros Huniq Hall.
  unfold Database.attendedWorkshops, Database.totalWorkshops.
  rewrite (join_count_swap
             (fun a w => (Attendance.workshop_id a =? Workshop.id w)%string
                         && (Workshop.user_id w =? u))).
  unfold attended_all in Hall.
  induction (workshops db) as [|w ws IH]; [reflexivity|].
  cbn [flat_map filter]. rewrite length_app, IH
    by (intros w' Hin; apply Hall; now right).
  specialize (Hall w (or_introl eq_refl)).
  destruct (Workshop.user_id w =? u) eqn:Hu.
  - apply Z.eqb_eq in Hu. specialize (Hall Hu).
    assert (Hrows : filter
                      (fun a => (Attendance.workshop_id a =? Workshop.id w)%string
                                && true)
                      (filter (fun a => (Attendance.guest_id a =? g)%string)
                         (attendance db))
                    = rows_of db g (Workshop.id w)).
    { unfold rows_of. clear. induction (attendance db) as [|a l IHl]; [reflexivity|].
      cbn [filter]. destruct (Attendance.guest_id a =? g)%string; cbn [filter andb].
      - rewrite andb_true_r.
        destruct (Attendance.workshop_id a =? Workshop.id w)%string;
          [now rewrite IHl | exact IHl].
      - exact IHl. }
    rewrite Hrows.
    pose proof (rows_of_at_most_one db g (Workshop.id w) Huniq) as Hle.
    destruct (rows_of db g (Workshop.id w)) as [|r [|r' rs]];
      [contradiction | reflexivity | cbn in Hle; lia].
  - assert (Hnone : filter
                      (fun a => (Attendance.workshop_id a =? Workshop.id w)%string
                                && false)
                      (filter (fun a => (Attendance.guest_id a =? g)%string)
                         (attendance db)) = []).
    { clear. induction (filter _ (attendance db)) as [|a l IHl]; [reflexivity|].
      cbn [filter]. now rewrite andb_false_r. }
    rewrite Hnone. reflexivity.
Qed.

Lemma joined_rows (db : Db) (g : string) (w : Workshop.row) (owned : bool) :
  filter (fun a => (Attendance.workshop_id a =? Workshop.id w)%string && owned)
    (filter (fun a => (Attendance.guest_id a =? g)%string) (attendance db))
  = if owned then rows_of db g (Workshop.id w) else [].
Proof.
  unfold rows_of. induction (attendance db) as [|a l IH]; [now destruct owned|].
  cbn [filter]. destruct (Attendance.guest_id a =? g)%string; cbn [filter andb].
  - destruct owned.
    + rewrite andb_true_r.
      destruct (Attendance.workshop_id a =? Workshop.id w)%string;
        [now rewrite IH | exact IH].
    + rewrite andb_false_r. exact IH.
  - exact IH.
Qed.

Lemma existsb_filter {A : Type} (f : A -> bool) (l : list A) :
  existsb f l = match filter f l with [] => false | _ :: _ => true end.
Proof.
  induction l as [|x l IH]; [reflexivity|].
  cbn [existsb filter]. destruct (f x); [reflexivity | exact IH].
Qed.

(** The COUNT of the join is the count of the owner's workshops the guest
    has a row for, because a guest has at most one row for a workshop. *)
Lemma attendedWorkshops_counts_sessions (db : Db) (g : string) (u : Z) :
  attendance_unique db ->
  Database.attendedWorkshops db g u = attendedCount db g u.
Proof.
  intros Huniq. unfold Database.attendedWorkshops, attendedCount.
  rewrite (join_count_swap
             (fun a w => (Attendance.workshop_id a =? Workshop.id w)%string
                         && (Workshop.user_id w =? u))).
  induction (workshops db) as [|w ws IH]; [reflexivity|].
  cbn [flat_map filter]. rewrite length_app, joined_rows, IH.
  pose proof (rows_of_at_most_one db g (Workshop.id w) Huniq) as Hle.
  rewrite existsb_filter. fold (rows_of db g (Workshop.id w)).
  destruct (Workshop.user_id w =? u); cbn [andb]; [|reflexivity].
  destruct (rows_of db g (Workshop.id w)) as [|r [|r' rs]];
    [reflexivity | reflexivity | cbn in Hle; lia].
Qed.

(** C7. The percentage of a guest is 0 when the owner has no session, and
    otherwise attendedCount divided by totalSessionsForOwner, times 100,
    where attendedCount is the number of the owner's sessions the guest
    has a row for; it is 100 when the guest has a row for every session of
    the owner. *)
Theorem guest_percentage_is_attended_over_total :
  forall (db : Db) (guestId : string) (userId : Z),
    attendance_unique db ->
    (totalSessionsForOwner db userId = 0%nat ->
     Database.calculateGuestAttendancePercentage db guestId userId = 0%Q)
    /\ (totalSessionsForOwner db userId <> 0%nat ->
        (Database.calculateGuestAttendancePercentage db guestId userId
         == inject_Z (Z.of_nat (attendedCount db guestId userId))
            / inject_Z (Z.of_nat (totalSessionsForOwner db userId)) * 100)%Q)
    /\ (totalSessionsForOwner db userId <> 0%nat ->
        attended_all db guestId userId ->
        (Database.calculateGuestAttendancePercentage db guestId userId == 100)%Q).
Proof.
  intros db g u Huniq. unfold Database.calculateGuestAttendancePercentage.
  change (totalSessionsForOwner db u) with (Database.totalWorkshops db u).
  repeat split.
  - intros ->. reflexivity.
  - intros Htotal. apply Nat.eqb_neq in Htotal. rewrite Htotal.
    rewrite (attendedWorkshops_counts_sessions db g u Huniq). reflexivity.
  - intros Htotal Hall. rewrite (attended_equals_total db g u Huniq Hall).
    pose proof Htotal as Hneq. apply Nat.eqb_neq in Htotal. rewrite Htotal.
    field. intros H. unfold Qeq in H. cbn in H. lia.
Qed.

(** Witness: no session gives 0; ten sessions give 30 when three of them
    are attended and 100 when all are. *)
Lemma percentage_of_none_and_of_all :
  Database.calculateGuestAttendancePercentage
    (run (empty_db false) Example.guest_only) "gX" 1 = 0%Q
  /\ (Database.calculateGuestAttendancePercentage
        (run (empty_db false) (Example.attended_of_ten 3)) "gX" 1
      == inject_Z (Z.of_nat 3) / inject_Z (Z.of_nat 10) * 100)%Q
  /\ (Database.calculateGuestAttendancePercentage
        (run (empty_db false) (Example.attended_of_ten 10)) "gX" 1 == 100)%Q.
Proof.
  split; [|split].
  - apply (proj1 (guest_percentage_is_attended_over_total
                    (run (empty_db false) Example.guest_only) "gX" 1
                    (reachable_attendance_unique false Example.guest_only))).
    reflexivity.
  - apply (proj1 (proj2 (guest_percentage_is_attended_over_total
                           (run (empty_db false) (Example.attended_of_ten 3)) "gX" 1
                           (reachable_attendance_unique false
                              (Example.attended_of_ten 3))))).
    vm_compute. discriminate.
  - apply (proj2 (proj2 (guest_percentage_is_attended_over_total
                           (run (empty_db false) (Example.attended_of_ten 10)) "gX" 1
                           (reachable_attendance_unique false
                              (Example.attended_of_ten 10))))).
    + vm_compute. discriminate.
    + intros w Hin Hu. vm_compute in Hin.
      repeat (destruct Hin as [<-|Hin]; [vm_compute; discriminate|]).
      destruct Hin.
Defined.

(** ** Capacity *)

(** In a store the routes produced, a workshop with a capacity other than
    0 is a VIP workshop, and the check-in route's capacity test fires for
    it once that many attendees are recorded. *)
Lemma limited_workshop_is_checked (fk : bool) (requests : list Request)
    (w : string) (u : option Z) (workshop : Workshop.obj) (k : Z) :
  let db := run (empty_db fk) requests in
  Database.getWorkshopById db w u = Some workshop ->
  Workshop.max_capacity (Workshop.columns workshop) = Some k ->
  k <> 0 ->
  k <= Z.of_nat (length (Database.getWorkshopAttendees db w)) ->
  Server.is_vip_workshop workshop = true
  /\ Server.capacity_reached db w workshop = true.
Proof.
  intros db Hworkshop Hmax Hnz Hfull.
  destruct (getWorkshopById_some _ _ _ _ Hworkshop) as [r [-> [Hin _]]].
  pose proof (reachable_capacity_only_on_vip fk requests) as Hinv.
  rewrite Forall_forall in Hinv. specialize (Hinv r Hin).
  cbn [Workshop.columns Workshop.select_star] in Hmax.
  destruct Hinv as [[_ Hnone]|Hvip]; [congruence|].
  unfold Server.is_vip_workshop, Server.capacity_reached.
  cbn [Workshop.columns Workshop.select_star Workshop.isVip Workshop.maxCapacity].
  rewrite Hvip, Hmax. cbn [Js.truthy_number Js.or_number orb Z.eqb negb].
  apply Z.eqb_neq in Hnz. rewrite Hnz. cbn [negb andb Js.ge_number].
  split; [reflexivity|]. now apply Z.leb_le.
Qed.




(** C4 at a failing input. The VIP workshop B has capacity 1. The VIP
    guest Y is checked in to it, which takes the one place, and Y is then
    deleted. On the connection of database.js, which does not enforce
    foreign keys, Y's attendance row stays; the capacity test counts the
    rows joined with the guests table and finds none, so the next guest Z
    is checked in with 201, and B has two attendance rows for its capacity
    of 1. On a connection that enforces foreign keys Y's row goes with Y
    and one row is left. *)
Theorem deleted_guest_gives_its_place_again :
  let db := run (empty_db false) (firstn 5 Example.place_taken_then_guest_deleted) in
  map status
    (responses (empty_db false) (firstn 5 Example.place_taken_then_guest_deleted))
  = [201; 201; 201; 201; 204]%nat
  /\ map (fun w => (Workshop.id w, Workshop.max_capacity w)) (workshops db)
     = [("wB", Some 1)]
  /\ filter (fun a => (Attendance.workshop_id a =? "wB")%string) (attendance db)
     = [Attendance.mk "a1" "wB" "gY" "09:00" 2]
  /\ Database.getWorkshopAttendees db "wB" = []
  /\ Server.post_attendance db Example.scanner (checkin "gZ" "wB" None)
       "09:01" "a2"
     = (set_attendance db
          [Attendance.mk "a1" "wB" "gY" "09:00" 2;
           Attendance.mk "a2" "wB" "gZ" "09:01" 2],
        Server.json 201 (AttendanceJson (Attendance.mk "a2" "wB" "gZ" "09:01" 2)))
  /\ filter (fun a => (Attendance.workshop_id a =? "wB")%string)
       (attendance
          (run (empty_db false) Example.place_taken_then_guest_deleted))
     = [Attendance.mk "a1" "wB" "gY" "09:00" 2;
        Attendance.mk "a2" "wB" "gZ" "09:01" 2]
  /\ attendance (run (empty_db true) Example.place_taken_then_guest_deleted)
     = [Attendance.mk "a2" "wB" "gZ" "09:01" 2].
Proof. repeat split. Qed.

(** ** The certificate route *)


(** ** Every route runs at most one writing statement *)

Lemma handle_runs_one_statement (db : Db) (r : Request) :
  statement db (fst (handle db r)).
Proof.
  destruct r; cbn [handle].
  - unfold Server.post_workshops.
    destruct (negb (Server.authorize _ _)); [constructor|].
    destruct (negb (Js.truthy_string _)); [constructor|].
    destruct (_ && _); [constructor|].
    unfold Database.createWorkshop.
    destruct (Sql.insert_workshop _ _ _ _ _ _ _ _ _) as [db'|e] eqn:Hs;
      [|constructor].
    cbn [fst]. eapply Workshop_inserted. exact Hs.
  - unfold Server.put_workshop.
    destruct (negb (Server.authorize _ _)); [constructor|].
    destruct (Database.getWorkshopById db id _); [|constructor].
    unfold Database.updateWorkshop.
    destruct (Sql.update_workshop _ _ _ _ _ _) as [[db' k]|e] eqn:Hs;
      [|constructor].
    destruct (k =? 0)%nat; cbn [fst]; eapply Workshop_updated_by; exact Hs.
  - unfold Server.delete_workshop.
    destruct (negb (Server.authorize _ _)); [constructor|].
    destruct (Database.getWorkshopById db id _); [|constructor].
    unfold Database.deleteWorkshop.
    destruct (Sql.delete_workshop _ _) as [[db' k]|e] eqn:Hs; [|constructor].
    destruct (k =? 0)%nat; cbn [fst]; eapply Workshop_deleted; exact Hs.
  - unfold Server.post_guests.
    destruct (negb (Server.authorize _ _)); [constructor|].
    destruct (negb (Js.truthy_string _)); [constructor|].
    unfold Database.createGuest.
    destruct (Sql.insert_guest _ _ _ _ _ _ _) as [db'|e] eqn:Hs.
    + cbn [fst]. eapply Guest_inserted. exact Hs.
    + destruct (Sql.unique_failed_on e _); constructor.
  - unfold Server.put_guest.
    destruct (negb (Server.authorize _ _)); [constructor|].
    destruct (Database.getGuestById db id _); [|constructor].
    unfold Database.updateGuest.
    destruct (Sql.update_guest _ _ _ _ _) as [[db' k]|e] eqn:Hs.
    + destruct (k =? 0)%nat; cbn [fst]; eapply Guest_updated; exact Hs.
    + destruct (Sql.unique_failed_on e _); constructor.
  - unfold Server.delete_guest.
    destruct (negb (Server.authorize _ _)); [constructor|].
    destruct (Database.getGuestById db id _); [|constructor].
    unfold Database.deleteGuest.
    destruct (Sql.delete_guest _ _) as [[db' k]|e] eqn:Hs; [|constructor].
    destruct (k =? 0)%nat; cbn [fst]; eapply Guest_deleted; exact Hs.
  - unfold Server.post_attendance.
    destruct (negb (Server.authorize _ _)); [constructor|].
    destruct (Server.ab_guestId b) as [g|]; [|constructor].
    destruct (Server.ab_workshopId b) as [w|]; [|constructor].
    destruct (negb _ || negb _); [constructor|].
    destruct (Database.getGuestById db g _); [|constructor].
    destruct (Database.getWorkshopById db w _); [|constructor].
    destruct (_ && Server.not_vip_guest _); [constructor|].
    destruct (_ && Server.capacity_reached _ _ _); [constructor|].
    destruct (Database.getAttendanceRecord db g w); [constructor|].
    unfold Database.createAttendance.
    destruct (Sql.insert_attendance _ _) as [db'|e] eqn:Hs.
    + cbn [fst]. eapply Attendance_inserted. exact Hs.
    + destruct e; constructor.
  - unfold Server.delete_attendance.
    destruct (negb (Server.authorize _ _)); [constructor|].
    cbn [fst]. apply Attendance_deleted_by.
  - unfold Server.post_vip_access.
    destruct (negb (Server.authorize _ _)); [constructor|].
    destruct guestId as [g|]; [|constructor].
    destruct (negb _ || negb _); [constructor|].
    destruct (Database.getWorkshopById db workshopId _); [|constructor].
    destruct (negb _ && negb _); [constructor|].
    destruct (Js.ge_number _ _); [constructor|].
    destruct (Database.getGuestById db g _); [|constructor].
    unfold Database.addVipAccess.
    destruct (Sql.insert_vip_access _ _) as [db'|e] eqn:Hs; [|constructor].
    cbn [fst]. eapply Vip_access_inserted. exact Hs.
  - unfold Server.delete_vip_access.
    destruct (negb (Server.authorize _ _)); [constructor|].
    destruct (Database.getWorkshopById db workshopId _) as [workshop|] eqn:Hw;
      [|constructor].
    destruct (getWorkshopById_some _ _ _ _ Hw) as [row [-> _]].
    cbn. constructor.
Qed.

(** ** What a statement that succeeded has done *)

Lemma insert_workshop_done (db db' : Db) (id : string)
    (n desc d l : option string) (u v : Z) (c : option Z) :
  Sql.insert_workshop db id n desc d l u v c = Sql.Done db' ->
  exists n' d' l',
    Sql.has_workshop db id = false
    /\ db' = set_workshops db
               (workshops db ++ [Workshop.mk id n' desc d' l' u v c]).
Proof.
  unfold Sql.insert_workshop. intros H.
  destruct n as [n'|]; [|discriminate].
  destruct d as [d'|]; [|discriminate].
  destruct l as [l'|]; [|discriminate].
  destruct (Sql.has_workshop db id); [discriminate|].
  injection H as <-. eauto.
Qed.

Lemma update_workshop_done (db db' : Db) (id : string)
    (n desc d l : option string) (k : nat) :
  Sql.update_workshop db id n desc d l = Sql.Done (db', k) ->
  db' = db
  \/ exists n' d' l',
       db' = set_workshops db
               (map (fun w =>
                       if (Workshop.id w =? id)%string
                       then Workshop.mk (Workshop.id w) n' desc d' l'
                              (Workshop.user_id w) (Workshop.is_vip w)
                              (Workshop.max_capacity w)
                       else w) (workshops db)).
Proof.
  unfold Sql.update_workshop. intros H.
  destruct (Sql.has_workshop db id); [|injection H as <- _; now left].
  destruct n as [n'|]; [|discriminate].
  destruct d as [d'|]; [|discriminate].
  destruct l as [l'|]; [|discriminate].
  injection H as <- _. right. eauto.
Qed.

Lemma delete_workshop_done (db db' : Db) (id : string) (k : nat) :
  Sql.delete_workshop db id = Sql.Done (db', k) ->
  vip_access db' = vip_access db /\ guests db' = guests db
  /\ foreign_keys db' = foreign_keys db
  /\ ((workshops db' = workshops db /\ attendance db' = attendance db)
      \/ (workshops db'
          = filter (fun w => negb (Workshop.id w =? id)%string) (workshops db)
          /\ attendance db'
             = if foreign_keys db
               then filter (fun a => negb (Attendance.workshop_id a =? id)%string)
                      (attendance db)
               else attendance db)).
Proof.
  unfold Sql.delete_workshop. intros H.
  destruct (Sql.has_workshop db id);
    [|injection H as <- _; repeat (split; [reflexivity|]); left; split;
      reflexivity].
  destruct (foreign_keys db) eqn:Hfk.
  - destruct (existsb _ (vip_access db)); [discriminate|].
    injection H as <- _. cbn. rewrite Hfk. repeat (split; [reflexivity|]).
    right. split; reflexivity.
  - injection H as <- _. cbn. rewrite Hfk. repeat (split; [reflexivity|]).
    right. split; reflexivity.
Qed.

Lemma insert_guest_done (db db' : Db) (id : string) (n : option string)
    (e q : string) (u v : Z) :
  Sql.insert_guest db id n e q u v = Sql.Done db' ->
  exists n',
    Sql.has_guest db id = false
    /\ existsb (fun g => (Guest.email g =? e)%string) (guests db) = false
    /\ existsb (fun g => (Guest.qr_code g =? q)%string) (guests db) = false
    /\ db' = set_guests db (guests db ++ [Guest.mk id n' e q u v]).
Proof.
  unfold Sql.insert_guest. intros H.
  destruct n as [n'|]; [|discriminate].
  destruct (Sql.has_guest db id); [discriminate|].
  destruct (existsb _ (guests db)); [discriminate|].
  destruct (existsb _ (guests db)); [discriminate|].
  injection H as <-. eauto.
Qed.

Lemma update_guest_done (db db' : Db) (id : string) (n e : option string)
    (v : Z) (k : nat) :
  Sql.update_guest db id n e v = Sql.Done (db', k) ->
  db' = db
  \/ exists n' e',
       existsb (fun g => (Guest.email g =? e')%string
                         && negb (Guest.id g =? id)%string) (guests db) = false
       /\ db' = set_guests db
                  (map (fun g =>
                          if (Guest.id g =? id)%string
                          then Guest.mk (Guest.id g) n' e' (Guest.qr_code g)
                                 (Guest.user_id g) v
                          else g) (guests db)).
Proof.
  unfold Sql.update_guest. intros H.
  destruct (Sql.has_guest db id); [|injection H as <- _; now left].
  destruct n as [n'|]; [|discriminate].
  destruct e as [e'|]; [|discriminate].
  destruct (existsb _ (guests db)) eqn:Hex; [discriminate|].
  injection H as <- _. right. eauto.
Qed.

Lemma delete_guest_done (db db' : Db) (id : string) (k : nat) :
  Sql.delete_guest db id = Sql.Done (db', k) ->
  vip_access db' = vip_access db /\ workshops db' = workshops db
  /\ foreign_keys db' = foreign_keys db
  /\ ((guests db' = guests db /\ attendance db' = attendance db)
      \/ (guests db'
          = filter (fun g => negb (Guest.id g =? id)%string) (guests db)
          /\ attendance db'
             = if foreign_keys db
               then filter (fun a => negb (Attendance.guest_id a =? id)%string)
                      (attendance db)
               else attendance db)).
Proof.
  unfold Sql.delete_guest. intros H.
  destruct (Sql.has_guest db id);
    [|injection H as <- _; repeat (split; [reflexivity|]); left; split;
      reflexivity].
  destruct (foreign_keys db) eqn:Hfk.
  - destruct (existsb _ (vip_access db)); [discriminate|].
    injection H as <- _. cbn. rewrite Hfk. repeat (split; [reflexivity|]).
    right. split; reflexivity.
  - injection H as <- _. cbn. rewrite Hfk. repeat (split; [reflexivity|]).
    right. split; reflexivity.
Qed.

Lemma insert_attendance_done (db db' : Db) (r : Attendance.row) :
  Sql.insert_attendance db r = Sql.Done db' ->
  existsb (fun a => (Attendance.id a =? Attendance.id r)%string) (attendance db)
  = false
  /\ rows_of db (Attendance.guest_id r) (Attendance.workshop_id r) = []
  /\ db' = set_attendance db (attendance db ++ [r]).
Proof.
  unfold Sql.insert_attendance. intros H.
  destruct (existsb _ (attendance db)) eqn:Hid; [discriminate|].
  destruct (existsb (fun a => _ && _) (attendance db)) eqn:Hpair; [discriminate|].
  destruct (foreign_keys db && _); [discriminate|].
  injection H as <-. repeat split.
  unfold rows_of. rewrite find_existsb in Hpair.
  destruct (find _ (attendance db)) eqn:Hf; [discriminate|].
  apply find_none_filter in Hf. rewrite <- Hf. apply filter_ext.
  intros a. apply andb_comm.
Qed.

Lemma insert_vip_access_done (db db' : Db) (r : VipAccess.row) :
  Sql.insert_vip_access db r = Sql.Done db' ->
  existsb (fun v => (VipAccess.id v =? VipAccess.id r)%string) (vip_access db)
  = false
  /\ Database.hasVipAccess db (VipAccess.guest_id r) (VipAccess.workshop_id r)
     = false
  /\ db' = set_vip_access db (vip_access db ++ [r]).
Proof.
  unfold Sql.insert_vip_access, Database.hasVipAccess. intros H.
  destruct (existsb _ (vip_access db)) eqn:Hid; [discriminate|].
  destruct (existsb (fun v => _ && _) (vip_access db)) eqn:Hpair; [discriminate|].
  destruct (foreign_keys db && _); [discriminate|].
  injection H as <-. auto.
Qed.

(** ** The keys of the schema *)

Lemma existsb_eqb_false_not_in {A : Type} (key : A -> string) (k : string)
    (l : list A) :
  existsb (fun x => (key x =? k)%string) l = false -> ~ In k (map key l).
Proof.
  intros Hex Hin. apply in_map_iff in Hin. destruct Hin as [x [Hk Hin]].
  rewrite find_existsb in Hex.
  destruct (find _ l) eqn:Hf; [discriminate|].
  pose proof (find_none _ _ Hf x Hin) as Hx. cbn in Hx.
  rewrite Hk, String.eqb_refl in Hx. discriminate.
Qed.

Lemma NoDup_map_snoc {A B : Type} (key : A -> B) (l : list A) (x : A) :
  NoDup (map key l) -> ~ In (key x) (map key l) ->
  NoDup (map key (l ++ [x])).
Proof.
  intros Hnd Hnotin. rewrite map_app. apply NoDup_app; [exact Hnd| |].
  - cbn [map]. constructor; [intros []|constructor].
  - intros k Hin [Hk|[]]. subst k. contradiction.
Qed.

Lemma updated_guest_emails_unique (l : list Guest.row) (id n e : string) (v : Z) :
  NoDup (map Guest.id l) -> NoDup (map Guest.email l) ->
  existsb (fun g => (Guest.email g =? e)%string
                    && negb (Guest.id g =? id)%string) l = false ->
  NoDup (map Guest.email
           (map (fun g =>
                   if (Guest.id g =? id)%string
                   then Guest.mk (Guest.id g) n e (Guest.qr_code g)
                          (Guest.user_id g) v
                   else g) l)).
Proof.
  induction l as [|x l IH]; intros Hids Hemails Hex; [constructor|].
  cbn [map] in *. inversion Hids as [|? ? Hidx Hids']; subst.
  inversion Hemails as [|? ? Hemx Hemails']; subst.
  cbn [existsb] in Hex. apply orb_false_iff in Hex. destruct Hex as [Hx Hex].
  constructor; [|now apply IH].
  intros Hin. apply in_map_iff in Hin. destruct Hin as [y' [Hy' Hin]].
  apply in_map_iff in Hin. destruct Hin as [y [<- Hin]].
  assert (Hyex : ((Guest.email y =? e)%string
                  && negb (Guest.id y =? id)%string) = false).
  { rewrite find_existsb in Hex. destruct (find _ l) eqn:Hf; [discriminate|].
    exact (find_none _ _ Hf y Hin). }
  destruct (String.eqb_spec (Guest.id x) id) as [Hxid|Hxid].
  - destruct (String.eqb_spec (Guest.id y) id) as [Hyid|Hyid].
    + apply Hidx. apply in_map_iff. exists y. split; [congruence | exact Hin].
    + cbn in Hy'. rewrite Hy', String.eqb_refl in Hyex. discriminate.
  - destruct (String.eqb_spec (Guest.id y) id) as [Hyid|Hyid].
    + cbn in Hy'. rewrite <- Hy', String.eqb_refl in Hx. discriminate.
    + apply Hemx. apply in_map_iff. exists y. split; [exact Hy' | exact Hin].
Qed.

Lemma statement_keeps_keys_unique (db db' : Db) :
  statement db db' -> store_keys_unique db -> store_keys_unique db'.
Proof.
  unfold store_keys_unique, attendance_unique.
  intros Hst [Hw [Hg [He [Hq [Ha [Hp [Hv Hvp]]]]]]].
  destruct Hst as [| id n desc d l u v c db' Hs | id n desc d l k db' Hs
                   | id k db' Hs | id n e u v db' Hs | id n e v k db' Hs
                   | id k db' Hs | r db' Hs | id | r db' Hs].
  - auto 10.
  - destruct (insert_workshop_done _ _ _ _ _ _ _ _ _ _ Hs)
      as [n' [d' [l' [Hfresh ->]]]].
    cbn [workshops guests attendance vip_access set_workshops].
    repeat split; auto. apply NoDup_map_snoc; [exact Hw|].
    now apply existsb_eqb_false_not_in.
  - destruct (update_workshop_done _ _ _ _ _ _ _ _ Hs) as [->|[n' [d' [l' ->]]]];
      [auto 10|].
    cbn [workshops guests attendance vip_access set_workshops].
    repeat split; auto. rewrite map_map.
    erewrite map_ext; [exact Hw|]. intros w.
    destruct (Workshop.id w =? id)%string; reflexivity.
  - destruct (delete_workshop_done _ _ _ _ Hs)
      as [Hv' [Hg' [_ [[Hw' Ha']|[Hw' Ha']]]]];
      rewrite Hv', Hg', Hw', Ha'; [auto 10|].
    repeat split; auto; try (now apply NoDup_map_filter);
      destruct (foreign_keys db); auto; now apply NoDup_map_filter.
  - destruct (insert_guest_done _ _ _ _ _ _ _ _ Hs)
      as [n' [Hfresh [Hemail [Hqr ->]]]].
    cbn [workshops guests attendance vip_access set_guests].
    repeat split; auto; apply NoDup_map_snoc; auto;
      now apply existsb_eqb_false_not_in.
  - destruct (update_guest_done _ _ _ _ _ _ _ Hs) as [->|[n' [e' [Hex ->]]]];
      [auto 10|].
    cbn [workshops guests attendance vip_access set_guests].
    repeat split; auto.
    + rewrite map_map. erewrite map_ext; [exact Hg|]. intros g.
      destruct (Guest.id g =? id)%string; reflexivity.
    + now apply updated_guest_emails_unique.
    + rewrite map_map. erewrite map_ext; [exact Hq|]. intros g.
      destruct (Guest.id g =? id)%string; reflexivity.
  - destruct (delete_guest_done _ _ _ _ Hs)
      as [Hv' [Hw' [_ [[Hg' Ha']|[Hg' Ha']]]]];
      rewrite Hv', Hg', Hw', Ha'; [auto 10|].
    repeat split; auto; try (now apply NoDup_map_filter);
      destruct (foreign_keys db); auto; now apply NoDup_map_filter.
  - destruct (insert_attendance_done _ _ _ Hs) as [Hid [Hrows ->]].
    cbn [workshops guests attendance vip_access set_attendance].
    repeat split; auto.
    + apply NoDup_map_snoc; [exact Ha|]. now apply existsb_eqb_false_not_in.
    + exact (attendance_step_unique db _ (Attendance_recorded db r Hrows) Hp).
  - unfold Sql.delete_attendance.
    cbn [workshops guests attendance vip_access set_attendance].
    repeat split; auto; now apply NoDup_map_filter.
  - destruct (insert_vip_access_done _ _ _ Hs) as [Hid [Hpair ->]].
    cbn [workshops guests attendance vip_access set_vip_access].
    repeat split; auto.
    + apply NoDup_map_snoc; [exact Hv|]. now apply existsb_eqb_false_not_in.
    + apply NoDup_map_snoc; [exact Hvp|].
      intros Hin. apply in_map_iff in Hin. destruct Hin as [x [Hx Hin]].
      injection Hx as Hxg Hxw. unfold Database.hasVipAccess in Hpair.
      rewrite find_existsb in Hpair.
      destruct (find _ (vip_access db)) eqn:Hf; [discriminate|].
      pose proof (find_none _ _ Hf x Hin) as Hnone. cbn in Hnone.
      rewrite Hxg, Hxw, !String.eqb_refl in Hnone. discriminate.
Qed.

Lemma run_keeps_keys_unique (db : Db) (requests : list Request) :
  store_keys_unique db -> store_keys_unique (run db requests).
Proof.
  apply (run_invariant store_keys_unique).
  intros db0 r. apply statement_keeps_keys_unique, handle_runs_one_statement.
Qed.

Lemma empty_keys_unique (fk : bool) : store_keys_unique (empty_db fk).
Proof. unfold store_keys_unique, attendance_unique. cbn. repeat split; constructor. Qed.

(** X1. In every store the routes produce from the empty database the
    keys of the schema hold: workshop ids, guest ids, guest emails, guest
    tokens, attendance ids, (workshop, guest) pairs of attendance, grant
    ids and (guest, workshop) pairs of grants are without duplicates. *)
Theorem produced_stores_keep_the_keys_unique :
  forall (fk : bool) (requests : list Request),
    store_keys_unique (run (empty_db fk) requests).
Proof.
  intros fk requests. apply run_keeps_keys_unique, empty_keys_unique.
Qed.

(** ** Tokens *)

Lemma statement_keeps_tokens_generated (db db' : Db) :
  statement db db' -> tokens_generated db -> tokens_generated db'.
Proof.
  unfold tokens_generated. intros Hst Hinv.
  destruct Hst as [| id n desc d l u v c db' Hs | id n desc d l k db' Hs
                   | id k db' Hs | id n e u v db' Hs | id n e v k db' Hs
                   | id k db' Hs | r db' Hs | id | r db' Hs].
  - exact Hinv.
  - destruct (insert_workshop_done _ _ _ _ _ _ _ _ _ _ Hs)
      as [n' [d' [l' [_ ->]]]]. exact Hinv.
  - destruct (update_workshop_done _ _ _ _ _ _ _ _ Hs) as [->|[n' [d' [l' ->]]]];
      exact Hinv.
  - destruct (delete_workshop_done _ _ _ _ Hs) as [_ [Hg' _]]. now rewrite Hg'.
  - destruct (insert_guest_done _ _ _ _ _ _ _ _ Hs) as [n' [_ [_ [_ ->]]]].
    cbn [guests set_guests]. apply Forall_app. split; [exact Hinv|].
    constructor; [reflexivity | constructor].
  - destruct (update_guest_done _ _ _ _ _ _ _ Hs) as [->|[n' [e' [_ ->]]]];
      [exact Hinv|].
    cbn [guests set_guests]. apply Forall_map. revert Hinv.
    apply Forall_impl. intros g Hg.
    destruct (Guest.id g =? id)%string; exact Hg.
  - destruct (delete_guest_done _ _ _ _ Hs) as [_ [_ [_ [[Hg' _]|[Hg' _]]]]];
      rewrite Hg'; [exact Hinv|].
    apply Forall_forall. intros g Hin. apply filter_In in Hin.
    rewrite Forall_forall in Hinv. now apply Hinv.
  - destruct (insert_attendance_done _ _ _ Hs) as [_ [_ ->]]. exact Hinv.
  - exact Hinv.
  - destruct (insert_vip_access_done _ _ _ Hs) as [_ [_ ->]]. exact Hinv.
Qed.

Lemma produced_tokens_generated (fk : bool) (requests : list Request) :
  tokens_generated (run (empty_db fk) requests).
Proof.
  apply (run_invariant tokens_generated).
  - intros db r.
    apply statement_keeps_tokens_generated, handle_runs_one_statement.
  - constructor.
Qed.

Lemma NoDup_map_injective_on {A B : Type} (key : A -> B) (l : list A) (x y : A) :
  NoDup (map key l) -> In x l -> In y l -> key x = key y -> x = y.
Proof.
  induction l as [|z l IH]; intros Hnd Hx Hy Hk; [destruct Hx|].
  cbn [map] in Hnd. inversion Hnd as [|? ? Hnotin Hnd']; subst.
  destruct Hx as [<-|Hx], Hy as [<-|Hy]; auto.
  - exfalso. apply Hnotin. rewrite Hk. now apply in_map.
  - exfalso. apply Hnotin. rewrite <- Hk. now apply in_map.
Qed.

(** X2. In a store the routes produced, every guest's token is
    generateQRCode of its id and passes the scanner's format test, and
    GET /api/guests/qr/<token> gives a caller whose scope holds the guest
    exactly that guest; so does the client's lookup. *)
Theorem generated_token_resolves_to_its_guest :
  forall (fk : bool) (requests : list Request) (user : User) (g : Guest.row),
    let db := run (empty_db fk) requests in
    In g (guests db) ->
    Server.authorize ["admin"; "scanner"] user = true ->
    Database.owned_by (Server.scope user) (Guest.user_id g) = true ->
    Guest.qr_code g = DataUtils.generateQRCode (Guest.id g)
    /\ String.prefix "guest-" (Guest.qr_code g) = true
    /\ Server.get_guest_by_qr db user (DataUtils.generateQRCode (Guest.id g))
       = Server.json 200 (GuestJson g)
    /\ Client.getGuestByQRCode db user (DataUtils.generateQRCode (Guest.id g))
       = Some {| Client.guest := g; Client.isVip := (Guest.is_vip g =? 1) |}.
Proof.
  intros fk requests user g db Hin Hauth Hown.
  pose proof (produced_tokens_generated fk requests) as Htok.
  unfold tokens_generated in Htok. rewrite Forall_forall in Htok.
  specialize (Htok g Hin). fold db in Htok.
  destruct (run_keeps_keys_unique (empty_db fk) requests (empty_keys_unique fk))
    as [_ [_ [_ [Hqr _]]]].
  fold db in Hqr.
  assert (Hfind : Database.getGuestByQRCode db
                    (DataUtils.generateQRCode (Guest.id g)) (Server.scope user)
                  = Some g).
  { destruct (Database.getGuestByQRCode db _ (Server.scope user)) as [g'|] eqn:Hf.
    - destruct (getGuestByQRCode_some _ _ _ _ Hf) as [Hin' [Hq' _]].
      f_equal. apply (NoDup_map_injective_on Guest.qr_code (guests db)); auto.
      congruence.
    - exfalso. unfold Database.getGuestByQRCode in Hf.
      apply (find_some_of_In _ _ g Hin) in Hf; [exact Hf|].
      rewrite Htok, String.eqb_refl, Hown. reflexivity. }
  assert (Hroute : Server.get_guest_by_qr db user
                     (DataUtils.generateQRCode (Guest.id g))
                   = Server.json 200 (GuestJson g)).
  { unfold Server.get_guest_by_qr. rewrite Hauth, Hfind. reflexivity. }
  repeat split.
  - exact Htok.
  - rewrite Htok. unfold DataUtils.generateQRCode.
    apply String.prefix_correct. destruct (Guest.id g); reflexivity.
  - exact Hroute.
  - unfold Client.getGuestByQRCode. rewrite Hroute. reflexivity.
Qed.

(** Witness: the token of X, looked up by a scanner. *)
Lemma token_of_X_resolves :
  Server.get_guest_by_qr (run (empty_db false) Example.workshop_and_guest)
    Example.scanner (DataUtils.generateQRCode "gX")
  = Server.json 200 (GuestJson (Example.guest_X 0)).
Proof.
  apply (generated_token_resolves_to_its_guest false Example.workshop_and_guest
           Example.scanner (Example.guest_X 0));
    [left; reflexivity | reflexivity | reflexivity].
Defined.

(** ** Who may change what *)

Lemma authorize_admin_only (user : User) :
  role user <> "admin" -> Server.authorize ["admin"] user = false.
Proof.
  intros H. apply String.eqb_neq in H. unfold Server.authorize.
  cbn [existsb]. rewrite H. reflexivity.
Qed.

(** X3. A caller whose role is not admin changes no workshop, guest or
    grant, whatever it requests; a caller who is neither admin nor
    scanner changes nothing at all and is answered 403 by every route. *)
Theorem only_an_admin_changes_workshops_guests_or_grants :
  forall (db : Db) (r : Request),
    role (requester r) <> "admin" ->
    workshops (fst (handle db r)) = workshops db
    /\ guests (fst (handle db r)) = guests db
    /\ vip_access (fst (handle db r)) = vip_access db
    /\ (role (requester r) <> "scanner" -> handle db r = (db, Server.forbidden)).
Proof.
  intros db r Hrole.
  pose proof (authorize_admin_only _ Hrole) as Hadmin.
  assert (Hscan : role (requester r) <> "scanner" ->
                  Server.authorize ["admin"; "scanner"] (requester r) = false).
  { intros Hs. apply String.eqb_neq in Hrole, Hs. unfold Server.authorize.
    cbn [existsb]. rewrite Hrole, Hs. reflexivity. }
  destruct r; cbn [handle requester] in *.
  - unfold Server.post_workshops. rewrite Hadmin. auto.
  - unfold Server.put_workshop. rewrite Hadmin. auto.
  - unfold Server.delete_workshop. rewrite Hadmin. auto.
  - unfold Server.post_guests. rewrite Hadmin. auto.
  - unfold Server.put_guest. rewrite Hadmin. auto.
  - unfold Server.delete_guest. rewrite Hadmin. auto.
  - repeat split.
    + destruct (post_attendance_cases db user b now uuid); reflexivity.
    + destruct (post_attendance_cases db user b now uuid); reflexivity.
    + destruct (post_attendance_cases db user b now uuid); reflexivity.
    + intros Hs. unfold Server.post_attendance. rewrite (Hscan Hs). reflexivity.
  - unfold Server.delete_attendance.
    destruct (Server.authorize ["admin"; "scanner"] user) eqn:Hauth; cbn [negb].
    + repeat split; auto; intros Hs; pose proof (Hscan Hs); congruence.
    + auto.
  - unfold Server.post_vip_access. rewrite Hadmin. auto.
  - unfold Server.delete_vip_access. rewrite Hadmin. auto.
Qed.

(** Witness: a scanner asking to delete the guest X, and a caller with
    the role 'user' asking to check X in. *)
Lemma scanner_and_plain_user_are_kept_out :
  guests (fst (handle (run (empty_db false) Example.workshop_and_guest)
                 (DeleteGuest Example.scanner "gX")))
  = guests (run (empty_db false) Example.workshop_and_guest)
  /\ handle (run (empty_db false) Example.workshop_and_guest)
       (PostAttendance {| userId := 3; role := "user" |}
          (checkin "gX" "wA" None) "09:00" "a1")
     = (run (empty_db false) Example.workshop_and_guest, Server.forbidden).
Proof.
  split.
  - apply (only_an_admin_changes_workshops_guests_or_grants
             (run (empty_db false) Example.workshop_and_guest)
             (DeleteGuest Example.scanner "gX")).
    discriminate.
  - apply (only_an_admin_changes_workshops_guests_or_grants
             (run (empty_db false) Example.workshop_and_guest)
             (PostAttendance {| userId := 3; role := "user" |}
                (checkin "gX" "wA" None) "09:00" "a1"));
      discriminate.
Defined.

(** ** Rows of another owner *)

Lemma owned_by_other (u v : Z) :
  u <> 0 -> v <> u -> Database.owned_by (Some u) v = false.
Proof.
  intros Hu Hv. unfold Database.owned_by, Js.truthy_number.
  apply Z.eqb_neq in Hu. rewrite Hu. cbn [negb]. now apply Z.eqb_neq.
Qed.

Lemma getWorkshopById_of_other_owner (db : Db) (id : string) (u : Z) :
  u <> 0 ->
  (forall w, In w (workshops db) -> Workshop.id w = id -> Workshop.user_id w <> u) ->
  Database.getWorkshopById db id (Some u) = None.
Proof.
  intros Hu Hother.
  destruct (Database.getWorkshopById db id (Some u)) as [o|] eqn:Hf;
    [|reflexivity].
  destruct (getWorkshopById_some _ _ _ _ Hf) as [r [_ [Hin [Hid Hown]]]].
  rewrite (owned_by_other u _ Hu (Hother r Hin Hid)) in Hown. discriminate.
Qed.

Lemma getGuestById_of_other_owner (db : Db) (id : string) (u : Z) :
  u <> 0 ->
  (forall g, In g (guests db) -> Guest.id g = id -> Guest.user_id g <> u) ->
  Database.getGuestById db id (Some u) = None.
Proof.
  intros Hu Hother.
  destruct (Database.getGuestById db id (Some u)) as [g|] eqn:Hf; [|reflexivity].
  destruct (getGuestById_some _ _ _ _ Hf) as [Hin [Hid Hown]].
  rewrite (owned_by_other u _ Hu (Hother g Hin Hid)) in Hown. discriminate.
Qed.

Lemma admin_scope (user : User) :
  role user = "admin" ->
  Server.authorize ["admin"] user = true
  /\ Server.authorize ["admin"; "scanner"] user = true
  /\ Server.scope user = Some (userId user).
Proof.
  intros H. unfold Server.authorize, Server.scope. rewrite H. auto.
Qed.

(** X4. To an admin a workshop of another owner does not exist: reading,
    updating and deleting it and granting access to it are answered 404
    'Workshop not found' (400 when an id is missing), a check-in to it is
    answered 400 or 404, and the store stays as it is. *)
Theorem workshop_of_another_owner_is_not_found :
  forall (db : Db) (user : User) (id : string),
    role user = "admin" ->
    userId user <> 0 ->
    (forall w, In w (workshops db) -> Workshop.id w = id ->
               Workshop.user_id w <> userId user) ->
    Server.get_workshop db user id = Server.error 404 "Workshop not found"
    /\ (forall name description date location,
           Server.put_workshop db user id name description date location
           = (db, Server.error 404 "Workshop not found"))
    /\ Server.delete_workshop db user id
       = (db, Server.error 404 "Workshop not found")
    /\ (forall guestId uuid,
           Server.post_vip_access db user id guestId uuid
           = (db, Server.error 404 "Workshop not found")
           \/ Server.post_vip_access db user id guestId uuid
              = (db, Server.error 400 "Workshop ID and Guest ID are required"))
    /\ (forall guestId ts now uuid,
           fst (Server.post_attendance db user (checkin guestId id ts) now uuid) = db
           /\ In (status (snd (Server.post_attendance db user
                                 (checkin guestId id ts) now uuid)))
                [400; 404]%nat).
Proof.
  intros db user id Hrole Hu Hother.
  destruct (admin_scope user Hrole) as [Hadmin [Hboth Hscope]].
  pose proof (getWorkshopById_of_other_owner db id _ Hu Hother) as Hnone.
  repeat split.
  - unfold Server.get_workshop. rewrite Hboth, Hscope, Hnone. reflexivity.
  - intros. unfold Server.put_workshop. rewrite Hadmin, Hnone. reflexivity.
  - unfold Server.delete_workshop. rewrite Hadmin, Hnone. reflexivity.
  - intros guestId uuid. unfold Server.post_vip_access. rewrite Hadmin, Hnone.
    cbn [negb]. destruct guestId as [g|]; [|now right].
    destruct (negb _ || negb _); [now right | now left].
  - unfold Server.post_attendance, checkin. cbn [Server.ab_guestId Server.ab_workshopId].
    rewrite Hboth, Hscope, Hnone. cbn [negb].
    destruct (negb _ || negb _); [reflexivity|].
    destruct (Database.getGuestById db guestId _); reflexivity.
  - unfold Server.post_attendance, checkin. cbn [Server.ab_guestId Server.ab_workshopId].
    rewrite Hboth, Hscope, Hnone. cbn [negb].
    destruct (negb _ || negb _); [cbn; auto|].
    destruct (Database.getGuestById db guestId _); cbn; auto.
Qed.

(** X5. To an admin a guest of another owner does not exist: updating and
    deleting it are answered 404 'Guest not found', so are its percentage,
    its eligibility and its certificate (400 when a field is missing), a
    check-in of it is answered 400 or 404, and the store stays as it is. *)
Theorem guest_of_another_owner_is_not_found :
  forall (db : Db) (user : User) (id : string),
    role user = "admin" ->
    userId user <> 0 ->
    (forall g, In g (guests db) -> Guest.id g = id ->
               Guest.user_id g <> userId user) ->
    (forall name email isVip,
        Server.put_guest db user id name email isVip
        = (db, Server.error 404 "Guest not found"))
    /\ Server.delete_guest db user id = (db, Server.error 404 "Guest not found")
    /\ Server.get_guest_percentage db user id = Server.error 404 "Guest not found"
    /\ Server.get_guest_eligible db user id = Server.error 404 "Guest not found"
    /\ (forall guestName,
           In (Server.post_certificates_generate db user (Some id) guestName)
             [Server.error 404 "Guest not found";
              Server.error 400 "Missing guest information"])
    /\ (forall workshopId ts now uuid,
           fst (Server.post_attendance db user (checkin id workshopId ts) now uuid)
           = db
           /\ In (snd (Server.post_attendance db user
                         (checkin id workshopId ts) now uuid))
                [Server.error 404 "Guest not found";
                 Server.error 400 "Guest ID and Workshop ID are required"]).
Proof.
  intros db user id Hrole Hu Hother.
  destruct (admin_scope user Hrole) as [Hadmin [Hboth Hscope]].
  pose proof (getGuestById_of_other_owner db id _ Hu Hother) as Hnone.
  repeat split.
  - intros. unfold Server.put_guest. rewrite Hadmin, Hnone. reflexivity.
  - unfold Server.delete_guest. rewrite Hadmin, Hnone. reflexivity.
  - unfold Server.get_guest_percentage. rewrite Hadmin, Hnone. reflexivity.
  - unfold Server.get_guest_eligible. rewrite Hadmin, Hnone. reflexivity.
  - intros guestName. unfold Server.post_certificates_generate.
    rewrite Hadmin, Hnone. cbn [negb].
    destruct guestName as [n|]; [|cbn; auto].
    destruct (negb _ || negb _); cbn; auto.
  - unfold Server.post_attendance, checkin. cbn [Server.ab_guestId Server.ab_workshopId].
    rewrite Hboth, Hscope, Hnone. cbn [negb].
    destruct (negb _ || negb _); reflexivity.
  - unfold Server.post_attendance, checkin. cbn [Server.ab_guestId Server.ab_workshopId].
    rewrite Hboth, Hscope, Hnone. cbn [negb].
    destruct (negb _ || negb _); cbn; auto.
Qed.

(** Witness: the second admin and the workshop A of the first. *)
Lemma other_admin_cannot_touch_workshop_A :
  Server.delete_workshop (run (empty_db false) Example.workshop_and_guest)
    other_admin "wA"
  = (run (empty_db false) Example.workshop_and_guest,
     Server.error 404 "Workshop not found").
Proof.
  apply (workshop_of_another_owner_is_not_found
           (run (empty_db false) Example.workshop_and_guest) other_admin "wA");
    [reflexivity | discriminate |].
  intros w Hin _. vm_compute in Hin. destruct Hin as [<-|[]]. discriminate.
Defined.

(** Witness: the second admin and the guest X of the first. *)
Lemma other_admin_cannot_touch_guest_X :
  Server.delete_guest (run (empty_db false) Example.workshop_and_guest)
    other_admin "gX"
  = (run (empty_db false) Example.workshop_and_guest,
     Server.error 404 "Guest not found").
Proof.
  apply (guest_of_another_owner_is_not_found
           (run (empty_db false) Example.workshop_and_guest) other_admin "gX");
    [reflexivity | discriminate |].
  intros g Hin _. vm_compute in Hin. destruct Hin as [<-|[]]. discriminate.
Defined.

(** ** Creating and finding *)

Lemma find_app {A : Type} (f : A -> bool) (l l' : list A) :
  find f (l ++ l') = match find f l with Some y => Some y | None => find f l' end.
Proof.
  induction l as [|x l IH]; [reflexivity|].
  cbn [app find]. destruct (f x); [reflexivity | exact IH].
Qed.

Lemma find_none_of_existsb {A : Type} (key : A -> string) (k : string)
    (p : A -> bool) (l : list A) :
  existsb (fun x => (key x =? k)%string) l = false ->
  find (fun x => (key x =? k)%string && p x) l = None.
Proof.
  intros Hex. apply find_none_filter.
  rewrite find_existsb in Hex.
  destruct (find (fun x => (key x =? k)%string) l) eqn:Hf; [discriminate|].
  apply find_none_filter in Hf.
  induction l as [|x l IH]; [reflexivity|].
  cbn [filter] in *. destruct (key x =? k)%string; [discriminate|].
  cbn [andb]. now apply IH.
Qed.

Lemma owned_by_self (u : Z) : Database.owned_by (Some u) u = true.
Proof.
  unfold Database.owned_by. destruct (Js.truthy_number (Some u));
    [apply Z.eqb_refl | reflexivity].
Qed.

Lemma authorized_admin (user : User) :
  Server.authorize ["admin"] user = true -> role user = "admin".
Proof.
  unfold Server.authorize. cbn [existsb]. intros H.
  destruct (role user =? "admin")%string eqn:Heq;
    [now apply String.eqb_eq | discriminate].
Qed.

(** X6. A workshop that POST /api/workshops answered 201 for is found
    under the id it was given, by its owner, with the name, date and
    location of the request, the VIP flag as 0 or 1 and the capacity of
    the request, as the column stores it, when it is VIP (none otherwise);
    every other id resolves as before. *)
Theorem created_workshop_is_found :
  forall (db : Db) (user : User) (b : Server.workshopBody) (uuid : string),
    status (snd (Server.post_workshops db user b uuid)) = 201%nat ->
    let db' := fst (Server.post_workshops db user b uuid) in
    exists n d l,
      Server.wb_name b = Some n /\ Server.wb_date b = Some d
      /\ Server.wb_location b = Some l
      /\ Server.get_workshop db' user uuid
         = Server.json 200
             (WorkshopJson
                (Workshop.select_star
                   (Workshop.mk uuid n (Server.wb_description b) d l (userId user)
                      (if Server.wb_isVip b then 1 else 0)
                      (if Server.wb_isVip b
                       then Sql.integer_column (Server.wb_maxCapacity b)
                       else None))))
      /\ Database.getWorkshopById db uuid None = None
      /\ (forall id u, id <> uuid ->
             Database.getWorkshopById db' id u = Database.getWorkshopById db id u).
Proof.
  intros db user b uuid. unfold Server.post_workshops.
  destruct (Server.authorize ["admin"] user) eqn:Hauth; [|not_201].
  cbn [negb]. destruct (negb (Js.truthy_string _)); [not_201|].
  destruct (_ && _); [not_201|].
  unfold Database.createWorkshop.
  cbn [Database.wd_name Database.wd_description Database.wd_date
       Database.wd_location Database.wd_userId Database.wd_isVip
       Database.wd_maxCapacity].
  destruct (Sql.insert_workshop _ _ _ _ _ _ _ _ _) as [db'|e] eqn:Hs; [|not_201].
  intros _. cbn [fst].
  destruct (insert_workshop_done _ _ _ _ _ _ _ _ _ _ Hs)
    as [n [d [l [Hfresh ->]]]].
  unfold Sql.insert_workshop in Hs.
  destruct (Server.wb_name b) as [n0|]; [|discriminate].
  destruct (Server.wb_date b) as [d0|]; [|discriminate].
  destruct (Server.wb_location b) as [l0|]; [|discriminate].
  rewrite Hfresh in Hs. injection Hs as Hs.
  apply app_inv_head in Hs. injection Hs as <- <- <-.
  exists n0, d0, l0. repeat split.
  - pose proof (authorized_admin user Hauth) as Hrole.
    destruct (admin_scope user Hrole) as [_ [Hboth Hscope]].
    unfold Server.get_workshop. rewrite Hboth, Hscope. cbn [negb].
    unfold Database.getWorkshopById. cbn [workshops set_workshops].
    rewrite find_app, (find_none_of_existsb Workshop.id uuid _ _ Hfresh).
    cbn [find Workshop.id Workshop.user_id]. rewrite String.eqb_refl, owned_by_self.
    destruct (Server.wb_isVip b); reflexivity.
  - unfold Database.getWorkshopById.
    rewrite (find_none_of_existsb Workshop.id uuid _ _ Hfresh). reflexivity.
  - intros id u Hid. unfold Database.getWorkshopById.
    cbn [workshops set_workshops]. rewrite find_app.
    destruct (find _ (workshops db)); [reflexivity|].
    cbn [find Workshop.id]. apply String.eqb_neq in Hid.
    rewrite String.eqb_sym, Hid. reflexivity.
Qed.

(** Witness: the workshop A, created in the empty database. *)
Lemma workshop_A_is_found_after_creation :
  Server.get_workshop
    (fst (Server.post_workshops (empty_db false) Example.admin
            (Example.workshop "A" false None) "wA"))
    Example.admin "wA"
  = Server.json 200 (WorkshopJson (Workshop.select_star workshop_A)).
Proof.
  destruct (created_workshop_is_found (empty_db false) Example.admin
              (Example.workshop "A" false None) "wA" eq_refl)
    as [n [d [l [Hn [Hd [Hl [Hfound _]]]]]]].
  injection Hn as <-. injection Hd as <-. injection Hl as <-. exact Hfound.
Defined.

(** X7. A guest that POST /api/guests answered 201 for is found by its
    owner under the id it was given and under the token generated from
    that id, with the name of the request, the email of the request or
    the empty string, and the VIP flag as 0 or 1. *)
Theorem created_guest_is_found :
  forall (db : Db) (user : User) (name email : option string) (isVip : bool)
         (uuid : string),
    status (snd (Server.post_guests db user name email isVip uuid)) = 201%nat ->
    let db' := fst (Server.post_guests db user name email isVip uuid) in
    exists n,
      name = Some n
      /\ let row := Guest.mk uuid n
                      (if Js.truthy_string email
                       then match email with Some e => e | None => "" end
                       else "")
                      (DataUtils.generateQRCode uuid) (userId user)
                      (if isVip then 1 else 0) in
         Database.getGuestById db' uuid (Some (userId user)) = Some row
         /\ Server.get_guest_by_qr db' user (DataUtils.generateQRCode uuid)
            = Server.json 200 (GuestJson row)
         /\ guests db' = (guests db ++ [row])%list.
Proof.
  intros db user name email isVip uuid. unfold Server.post_guests.
  destruct (Server.authorize ["admin"] user) eqn:Hauth; [|not_201].
  cbn [negb]. destruct (negb (Js.truthy_string _)); [not_201|].
  unfold Database.createGuest.
  cbn [Database.gd_name Database.gd_email Database.gd_userId Database.gd_isVip].
  assert (Hflag : match Js.or_number (Some (if isVip then 1 else 0)) (Some 0) with
                  | Some z => z | None => 0 end = if isVip then 1 else 0)
    by (destruct isVip; reflexivity).
  rewrite Hflag.
  destruct (Sql.insert_guest _ _ _ _ _ _ _) as [db'|e] eqn:Hs;
    [|destruct (Sql.unique_failed_on e _); not_201].
  intros _. cbn [fst].
  destruct (insert_guest_done _ _ _ _ _ _ _ _ Hs)
    as [n [Hfresh [_ [Hqr Hdb']]]].
  unfold Sql.insert_guest in Hs. destruct name as [n0|]; [|discriminate].
  exists n0. split; [reflexivity|].
  assert (Hn : n = n0).
  { subst db'. rewrite Hfresh in Hs.
    destruct (existsb _ (guests db)); [discriminate|].
    destruct (existsb _ (guests db)); [discriminate|].
    injection Hs as Hs. apply app_inv_head in Hs.
    injection Hs as <-. reflexivity. }
  subst n db'. cbv zeta. repeat split.
  - unfold Database.getGuestById. cbn [guests set_guests].
    rewrite find_app, (find_none_of_existsb Guest.id uuid _ _ Hfresh).
    cbn [find Guest.id Guest.user_id]. rewrite String.eqb_refl, owned_by_self.
    reflexivity.
  - pose proof (authorized_admin user Hauth) as Hrole.
    destruct (admin_scope user Hrole) as [_ [Hboth Hscope]].
    unfold Server.get_guest_by_qr. rewrite Hboth, Hscope. cbn [negb].
    unfold Database.getGuestByQRCode. cbn [guests set_guests].
    rewrite find_app, (find_none_of_existsb Guest.qr_code _ _ _ Hqr).
    cbn [find Guest.qr_code Guest.user_id]. rewrite String.eqb_refl, owned_by_self.
    reflexivity.
Qed.

(** Witness: the guest X, created in the empty database. *)
Lemma guest_X_is_found_after_creation :
  Server.get_guest_by_qr
    (fst (Server.post_guests (empty_db false) Example.admin (Some "X")
            (Some "x@example.org") false "gX"))
    Example.admin (DataUtils.generateQRCode "gX")
  = Server.json 200 (GuestJson (Example.guest_X 0)).
Proof.
  destruct (created_guest_is_found (empty_db false) Example.admin (Some "X")
              (Some "x@example.org") false "gX" eq_refl)
    as [n [Hn [_ [Hfound _]]]].
  injection Hn as <-. exact Hfound.
Defined.

(** ** A negative capacity *)

(** X8. The creation route accepts a negative capacity for a VIP workshop
    (it refuses only a missing one, the number 0 and more than 31); in a
    store the routes produced, no check-in to a workshop with a negative
    capacity is ever accepted. *)
Theorem negative_capacity_is_accepted_and_admits_nobody :
  (forall (db : Db) (user : User) (b : Server.workshopBody) (uuid : string) (m : Z),
      Server.authorize ["admin"] user = true ->
      Js.truthy_string (Server.wb_name b) = true ->
      Server.wb_date b <> None -> Server.wb_location b <> None ->
      Server.wb_isVip b = true ->
      Sql.integer_column (Server.wb_maxCapacity b) = Some m -> m < 0 ->
      Sql.has_workshop db uuid = false ->
      status (snd (Server.post_workshops db user b uuid)) = 201%nat)
  /\ (forall (fk : bool) (requests : list Request) (user : User) (g w : string)
             (ts : option string) (now uuid : string) (workshop : Workshop.obj)
             (k : Z),
         let db := run (empty_db fk) requests in
         Database.getWorkshopById db w (Server.scope user) = Some workshop ->
         Workshop.max_capacity (Workshop.columns workshop) = Some k -> k < 0 ->
         fst (Server.post_attendance db user (checkin g w ts) now uuid) = db
         /\ status (snd (Server.post_attendance db user (checkin g w ts) now uuid))
            <> 201%nat).
Proof.
  split.
  - intros db user b uuid m Hauth Hname Hdate Hloc Hvip Hmax Hneg Hfresh.
    unfold Server.post_workshops. rewrite Hauth, Hname, Hvip.
    assert (Hm0 : (m =? 0) = false) by (apply Z.eqb_neq; lia).
    assert (Hm31 : (31 <? m) = false) by (apply Z.ltb_ge; lia).
    assert (Hguard : negb (Js.truthy_value (Server.wb_maxCapacity b))
                     || Js.gt_value (Server.wb_maxCapacity b) 31 = false).
    { destruct (Server.wb_maxCapacity b) as [|n|n]; [discriminate Hmax| |];
        injection Hmax as ->; cbn [Js.truthy_value Js.gt_value];
        rewrite ?Hm0, Hm31; reflexivity. }
    rewrite Hguard. cbn [negb andb].
    unfold Database.createWorkshop, Sql.insert_workshop.
    cbn [Database.wd_name Database.wd_description Database.wd_date
         Database.wd_location Database.wd_userId Database.wd_isVip
         Database.wd_maxCapacity].
    unfold Js.truthy_string in Hname.
    destruct (Server.wb_name b); [|discriminate].
    destruct (Server.wb_date b); [|contradiction].
    destruct (Server.wb_location b); [|contradiction].
    rewrite Hfresh. reflexivity.
  - intros fk requests user g w ts now uuid workshop k db Hworkshop Hmax Hneg.
    subst db.
    assert (Hfull : k <= Z.of_nat
                           (length (Database.getWorkshopAttendees
                                      (run (empty_db fk) requests) w))) by lia.
    assert (Hnz : k <> 0) by lia.
    destruct (limited_workshop_is_checked fk requests w _ workshop k
                Hworkshop Hmax Hnz Hfull) as [Hvip Hcap].
    assert (Hnot : status (snd (Server.post_attendance (run (empty_db fk) requests)
                                  user (checkin g w ts) now uuid)) <> 201%nat).
    { intros H201.
      destruct (post_attendance_accepted _ _ _ _ _ _ _ H201)
        as [_ [_ [_ [guest [workshop' [r [_ [Hworkshop' [_ [Hno _]]]]]]]]]].
      rewrite Hworkshop in Hworkshop'. injection Hworkshop' as <-.
      rewrite Hvip, Hcap in Hno. discriminate. }
    split; [|exact Hnot].
    destruct (post_attendance_cases (run (empty_db fk) requests) user
                (checkin g w ts) now uuid) as [s m _ _ | g' w' r _ _ _ _ _];
      [reflexivity|].
    exfalso. apply Hnot. reflexivity.
Qed.

(** Witness: the VIP workshop N is created with the capacity -5 and
    refuses the VIP guest V. *)
Lemma workshop_N_is_created_and_refuses_V :
  status (snd (Server.post_workshops (empty_db false) Example.admin
                 (Example.workshop "N" true (Some (-5))) "wN")) = 201%nat
  /\ status (snd (Server.post_attendance (run (empty_db false) negative_capacity)
                    Example.scanner (checkin "gV" "wN" None) "09:00" "a1"))
     <> 201%nat.
Proof.
  destruct negative_capacity_is_accepted_and_admits_nobody as [Hcreate Hrefuse].
  split.
  - apply (Hcreate (empty_db false) Example.admin
             (Example.workshop "N" true (Some (-5))) "wN" (-5));
      try reflexivity; discriminate.
  - apply (Hrefuse false negative_capacity Example.scanner "gV" "wN" None
             "09:00" "a1"
             (Workshop.select_star
                (Workshop.mk "wN" "N" None "2025-05-01" "Hall" 1 1 (Some (-5))))
             (-5)); reflexivity.
Defined.

(** ** Grants *)

(** X9. DELETE /api/workshops/:workshopId/vip-access/:guestId never
    removes a grant: the route tests workshop.isVip on a row that
    getWorkshopById selected without that alias, so it answers 400 'This is
    not a VIP workshop' for every workshop it finds (403 or 404 otherwise)
    and the store stays as it is. *)
Theorem revoking_a_grant_is_always_refused :
  forall (db : Db) (user : User) (workshopId guestId : string),
    fst (Server.delete_vip_access db user workshopId guestId) = db
    /\ In (snd (Server.delete_vip_access db user workshopId guestId))
         [Server.forbidden;
          Server.error 404 "Workshop not found";
          Server.error 400 "This is not a VIP workshop"].
Proof.
  intros db user w g. unfold Server.delete_vip_access.
  destruct (negb (Server.authorize _ _)); [cbn; auto|].
  destruct (Database.getWorkshopById db w _) as [workshop|] eqn:Hw; [|cbn; auto].
  destruct (getWorkshopById_some _ _ _ _ Hw) as [row [-> _]].
  cbn. auto.
Qed.

Lemma statement_keeps_grants (db db' : Db) :
  statement db db' ->
  exists added, vip_access db' = (vip_access db ++ added)%list.
Proof.
  intros Hst.
  destruct Hst as [| id n desc d l u v c db' Hs | id n desc d l k db' Hs
                   | id k db' Hs | id n e u v db' Hs | id n e v k db' Hs
                   | id k db' Hs | r db' Hs | id | r db' Hs].
  - exists []. now rewrite app_nil_r.
  - destruct (insert_workshop_done _ _ _ _ _ _ _ _ _ _ Hs)
      as [n' [d' [l' [_ ->]]]]. exists []. now rewrite app_nil_r.
  - destruct (update_workshop_done _ _ _ _ _ _ _ _ Hs) as [->|[n' [d' [l' ->]]]];
      exists []; now rewrite app_nil_r.
  - destruct (delete_workshop_done _ _ _ _ Hs) as [Hv _]. rewrite Hv.
    exists []. now rewrite app_nil_r.
  - destruct (insert_guest_done _ _ _ _ _ _ _ _ Hs) as [n' [_ [_ [_ ->]]]].
    exists []. now rewrite app_nil_r.
  - destruct (update_guest_done _ _ _ _ _ _ _ Hs) as [->|[n' [e' [_ ->]]]];
      exists []; now rewrite app_nil_r.
  - destruct (delete_guest_done _ _ _ _ Hs) as [Hv _]. rewrite Hv.
    exists []. now rewrite app_nil_r.
  - destruct (insert_attendance_done _ _ _ Hs) as [_ [_ ->]].
    exists []. now rewrite app_nil_r.
  - exists []. now rewrite app_nil_r.
  - destruct (insert_vip_access_done _ _ _ Hs) as [_ [_ ->]].
    exists [r]. reflexivity.
Qed.

(** X10. No sequence of requests removes a grant: the grants of the store
    it starts from stay, in order, at the head of the grants afterwards,
    so access once granted stays granted, also when its guest or its
    workshop is deleted. *)
Theorem no_request_removes_a_grant :
  forall (db : Db) (requests : list Request),
    (exists added,
        vip_access (run db requests) = (vip_access db ++ added)%list)
    /\ forall g w, Database.hasVipAccess db g w = true ->
                   Database.hasVipAccess (run db requests) g w = true.
Proof.
  intros db requests.
  assert (Hgrow : exists added,
             vip_access (run db requests) = (vip_access db ++ added)%list).
  { revert db. induction requests as [|r rest IH]; intros db.
    - exists []. cbn. now rewrite app_nil_r.
    - cbn [run fold_left].
      destruct (statement_keeps_grants db _ (handle_runs_one_statement db r))
        as [a1 H1].
      destruct (IH (fst (handle db r))) as [a2 H2].
      exists (a1 ++ a2)%list. unfold run in H2. rewrite H2, H1.
      now rewrite app_assoc. }
  split; [exact Hgrow|].
  intros g w Hgranted. destruct Hgrow as [added Hadded].
  unfold Database.hasVipAccess in *.
  rewrite Hadded, existsb_app, Hgranted. reflexivity.
Qed.

(** Witness: the grant of X for B is still there after X and B are
    deleted and the grant is revoked. *)
Lemma grant_of_X_outlives_guest_and_workshop :
  Database.hasVipAccess
    (run (run (empty_db false) Example.granted_and_checked_in)
       [ DeleteGuest Example.admin "gX";
         DeleteWorkshop Example.admin "wB";
         DeleteVipAccess Example.admin "wB" "gX" ])
    "gX" "wB" = true.
Proof.
  apply (proj2 (no_request_removes_a_grant
                  (run (empty_db false) Example.granted_and_checked_in)
                  [ DeleteGuest Example.admin "gX";
                    DeleteWorkshop Example.admin "wB";
                    DeleteVipAccess Example.admin "wB" "gX" ])).
  reflexivity.
Defined.

(** X11. A grant that POST /api/workshops/:workshopId/vip-access answered
    201 for was not stored before and is stored afterwards; the workshop
    is the caller's and VIP, it has one grant more than before, and before
    it had fewer grants than its capacity. *)
Theorem accepted_grant_is_stored_within_capacity :
  forall (db : Db) (user : User) (w g uuid : string),
    status (snd (Server.post_vip_access db user w (Some g) uuid)) = 201%nat ->
    let db' := fst (Server.post_vip_access db user w (Some g) uuid) in
    Database.hasVipAccess db g w = false
    /\ Database.hasVipAccess db' g w = true
    /\ Database.getVipWorkshopCount db' w = S (Database.getVipWorkshopCount db w)
    /\ exists row,
         Database.getWorkshopById db w (Some (userId user))
         = Some (Workshop.select_star row)
         /\ Workshop.is_vip row <> 0
         /\ forall k, Workshop.max_capacity row = Some k -> k <> 0 ->
                      Z.of_nat (Database.getVipWorkshopCount db w) < k.
Proof.
  intros db user w g uuid. unfold Server.post_vip_access.
  destruct (negb (Server.authorize _ _)); [not_201|].
  destruct (negb _ || negb _); [not_201|].
  destruct (Database.getWorkshopById db w _) as [workshop|] eqn:Hw; [|not_201].
  destruct (getWorkshopById_some _ _ _ _ Hw) as [row [-> _]].
  destruct (negb _ && negb _) eqn:Hvip; [not_201|].
  destruct (Js.ge_number _ _) eqn:Hcap; [not_201|].
  destruct (Database.getGuestById db g _); [|not_201].
  unfold Database.addVipAccess.
  destruct (Sql.insert_vip_access _ _) as [db'|e] eqn:Hs; [|not_201].
  intros _. cbn [fst].
  destruct (insert_vip_access_done _ _ _ Hs) as [_ [Hnew ->]].
  cbn [VipAccess.guest_id VipAccess.workshop_id] in Hnew.
  repeat split.
  - exact Hnew.
  - unfold Database.hasVipAccess. cbn [vip_access set_vip_access].
    rewrite existsb_app. cbn [existsb VipAccess.guest_id VipAccess.workshop_id].
    rewrite !String.eqb_refl. cbn. apply orb_true_r.
  - unfold Database.getVipWorkshopCount. cbn [vip_access set_vip_access].
    rewrite filter_app_singleton. cbn [VipAccess.workshop_id].
    rewrite String.eqb_refl, length_app. cbn [length]. lia.
  - exists row. split; [reflexivity|]. split.
    + cbn [Workshop.columns Workshop.select_star Workshop.isVip] in Hvip.
      cbn [Js.truthy_number] in Hvip. rewrite andb_true_r in Hvip.
      apply negb_false_iff, negb_true_iff, Z.eqb_neq in Hvip. exact Hvip.
    + intros k Hk Hk0.
      cbn [Workshop.columns Workshop.select_star Workshop.maxCapacity] in Hcap.
      rewrite Hk in Hcap. unfold Js.or_number, Js.truthy_number in Hcap.
      apply Z.eqb_neq in Hk0. rewrite Hk0 in Hcap. cbn [negb Js.ge_number] in Hcap.
      apply Z.leb_gt in Hcap. exact Hcap.
Qed.

(** Witness: the grant of X for B in the store with B and X. *)
Lemma grant_of_X_for_B_is_stored :
  Database.hasVipAccess
    (fst (Server.post_vip_access
            (run (empty_db false) (firstn 2 Example.granted_twice))
            Example.admin "wB" (Some "gX") "v1")) "gX" "wB" = true.
Proof.
  apply (accepted_grant_is_stored_within_capacity
           (run (empty_db false) (firstn 2 Example.granted_twice))
           Example.admin "wB" "gX" "v1" eq_refl).
Defined.

(** ** Undoing a check-in *)

Lemma post_attendance_recorded_row (db : Db) (user : User)
    (b : Server.attendanceBody) (now uuid : string) :
  status (snd (Server.post_attendance db user b now uuid)) = 201%nat ->
  exists r,
    Attendance.id r = uuid /\ Attendance.created_by r = userId user
    /\ Sql.insert_attendance db r
       = Sql.Done (fst (Server.post_attendance db user b now uuid)).
Proof.
  unfold Server.post_attendance.
  destruct (negb (Server.authorize _ _)); [not_201|].
  destruct (Server.ab_guestId b) as [g|]; [|not_201].
  destruct (Server.ab_workshopId b) as [w|]; [|not_201].
  destruct (negb _ || negb _); [not_201|].
  destruct (Database.getGuestById db g _); [|not_201].
  destruct (Database.getWorkshopById db w _); [|not_201].
  destruct (_ && Server.not_vip_guest _); [not_201|].
  destruct (_ && Server.capacity_reached _ _ _); [not_201|].
  destruct (Database.getAttendanceRecord db g w); [not_201|].
  unfold Database.createAttendance.
  destruct (Sql.insert_attendance db _) as [db'|e] eqn:Hs;
    [|destruct e; not_201].
  intros _. eexists. repeat split; [| |exact Hs]; reflexivity.
Qed.

Lemma filter_all {A : Type} (f : A -> bool) (l : list A) :
  existsb (fun x => negb (f x)) l = false -> filter f l = l.
Proof.
  induction l as [|x l IH]; [reflexivity|].
  cbn [existsb filter]. intros H. apply orb_false_iff in H. destruct H as [Hx Hl].
  apply negb_false_iff in Hx. rewrite Hx, IH; auto.
Qed.

(** X12. DELETE /api/attendance/:id undoes a check-in: for the id of the
    row a check-in answered 201 with, it answers 204 to an admin or
    scanner and leaves every table as it was before the check-in. *)
Theorem deleting_the_new_row_undoes_the_checkin :
  forall (db : Db) (user user' : User) (b : Server.attendanceBody)
         (now uuid : string),
    status (snd (Server.post_attendance db user b now uuid)) = 201%nat ->
    Server.authorize ["admin"; "scanner"] user' = true ->
    let db1 := fst (Server.post_attendance db user b now uuid) in
    snd (Server.delete_attendance db1 user' uuid) = Server.json 204 NoContent
    /\ attendance (fst (Server.delete_attendance db1 user' uuid)) = attendance db
    /\ workshops (fst (Server.delete_attendance db1 user' uuid)) = workshops db
    /\ guests (fst (Server.delete_attendance db1 user' uuid)) = guests db
    /\ vip_access (fst (Server.delete_attendance db1 user' uuid)) = vip_access db
    /\ foreign_keys (fst (Server.delete_attendance db1 user' uuid))
       = foreign_keys db.
Proof.
  intros db user user' b now uuid H201 Hauth.
  destruct (post_attendance_recorded_row _ _ _ _ _ H201) as [r [Hid [_ Hs]]].
  destruct (insert_attendance_done _ _ _ Hs) as [Hfresh [_ Hdb1]].
  cbv zeta. rewrite Hdb1. unfold Server.delete_attendance. rewrite Hauth.
  cbn [negb attendance set_attendance].
  rewrite Hid in Hfresh.
  unfold Sql.delete_attendance.
  cbn [fst snd attendance workshops guests vip_access foreign_keys set_attendance].
  repeat split.
  rewrite filter_app_singleton, Hid, String.eqb_refl. cbn [negb].
  rewrite app_nil_r. apply filter_all.
  rewrite <- Hfresh. clear. induction (attendance db) as [|a l IH]; [reflexivity|].
  cbn [existsb]. rewrite negb_involutive, IH. reflexivity.
Qed.

(** Witness: X is checked in to A and the row a1 is deleted again. *)
Lemma checkin_of_X_is_undone :
  attendance
    (fst (Server.delete_attendance
            (fst (Server.post_attendance
                    (run (empty_db false) Example.workshop_and_guest)
                    Example.scanner (checkin "gX" "wA" None) "09:00" "a1"))
            Example.admin "a1"))
  = attendance (run (empty_db false) Example.workshop_and_guest).
Proof.
  apply (deleting_the_new_row_undoes_the_checkin
           (run (empty_db false) Example.workshop_and_guest)
           Example.scanner Example.admin (checkin "gX" "wA" None) "09:00" "a1");
    reflexivity.
Defined.

(** ** Bounds of the percentage; eligibility and the certificate *)

Lemma attended_at_most_total (db : Db) (g : string) (u : Z) :
  attendance_unique db ->
  (Database.attendedWorkshops db g u <= Database.totalWorkshops db u)%nat.
Proof.
  intros Huniq. unfold Database.attendedWorkshops, Database.totalWorkshops.
  rewrite (join_count_swap
             (fun a w => (Attendance.workshop_id a =? Workshop.id w)%string
                         && (Workshop.user_id w =? u))).
  induction (workshops db) as [|w ws IH]; [cbn; lia|].
  cbn [flat_map filter]. rewrite length_app, joined_rows.
  pose proof (rows_of_at_most_one db g (Workshop.id w) Huniq) as Hle.
  destruct (Workshop.user_id w =? u); cbn [length]; lia.
Qed.

(** X13. In every store the routes produce, the attendance percentage of
    a guest lies between 0 and 100. *)
Theorem guest_percentage_is_between_0_and_100 :
  forall (fk : bool) (requests : list Request) (guestId : string) (userId : Z),
    (0 <= Database.calculateGuestAttendancePercentage
            (run (empty_db fk) requests) guestId userId <= 100)%Q.
Proof.
  intros fk requests g u.
  pose proof (attended_at_most_total (run (empty_db fk) requests) g u
                (reachable_attendance_unique fk requests)) as Hle.
  unfold Database.calculateGuestAttendancePercentage.
  destruct (Database.totalWorkshops _ u =? 0)%nat eqn:Ht;
    [split; discriminate|].
  apply Nat.eqb_neq in Ht.
  assert (Htpos : (0 < inject_Z (Z.of_nat
                                   (Database.totalWorkshops
                                      (run (empty_db fk) requests) u)))%Q).
  { unfold Qlt. cbn. lia. }
  split.
  - apply Qmult_le_0_compat; [|discriminate].
    apply Qle_shift_div_l; [exact Htpos|]. rewrite Qmult_0_l.
    unfold Qle. cbn. lia.
  - setoid_replace (100:Q) with (1 * 100)%Q at 2 by reflexivity.
    apply Qmult_le_compat_r; [|discriminate].
    apply Qle_shift_div_r; [exact Htpos|]. rewrite Qmult_1_l.
    unfold Qle. cbn. lia.
Qed.




(** ** The scanner and the routes together *)

Lemma getAllAttendance_incl (db : Db) (u : option Z) (a : Attendance.row) :
  In a (Database.getAllAttendance db u) -> In a (attendance db).
Proof.
  unfold Database.getAllAttendance. intros Hin. apply order_by_In in Hin.
  apply in_flat_map in Hin. destruct Hin as [a' [Ha' Hin]].
  apply in_flat_map in Hin. destruct Hin as [w [_ Hin]].
  apply in_flat_map in Hin. destruct Hin as [g [_ Hin]].
  destruct (Js.truthy_number u);
    [destruct (_ || _)|]; cbn in Hin; try tauto;
    destruct Hin as [<-|[]]; exact Ha'.
Qed.

(** What recordAttendance of the client returns, by the route's answer. *)
Lemma recordAttendance_cases (db : Db) (user : User) (g w now uuid : string) :
  (exists m, Client.recordAttendance db user g w now uuid = (db, Client.Thrown m)
             /\ (m = "Non-VIP guest cannot attend VIP workshops"
                 \/ m = "Failed to record attendance"))
  \/ (exists r,
         Client.recordAttendance db user g w now uuid
         = (set_attendance db (attendance db ++ [r]), Client.Returned r)
         /\ Attendance.guest_id r = g /\ Attendance.workshop_id r = w).
Proof.
  unfold Client.recordAttendance.
  destruct (post_attendance_cases db user
              {| Server.ab_guestId := Some g; Server.ab_workshopId := Some w;
                 Server.ab_timestamp := Some now |} now uuid)
    as [s m Hs Hrange | g' w' r Hg Hw Hrg Hrw _].
  - left. rewrite (error_not_ok s m Hrange). cbn [negb body Server.error Server.json].
    destruct (m =? "Non-VIP guest cannot attend VIP workshops")%string; eauto.
  - right. exists r. cbn in Hg, Hw. injection Hg as <-. injection Hw as <-.
    repeat split; auto.
Qed.

(** X15. Whatever onScanSuccess is shown, it changes no workshop, guest or
    grant; when it reports a failure the store is as before, and when it
    reports success the guest the token resolves to has an attendance row
    for the scanner's workshop afterwards. *)
Theorem scan_success_means_an_attendance_row :
  forall (db : Db) (user : User) (w token now uuid : string),
    let db' := fst (Client.onScanSuccess db user w token now uuid) in
    let result := snd (Client.onScanSuccess db user w token now uuid) in
    workshops db' = workshops db
    /\ guests db' = guests db
    /\ vip_access db' = vip_access db
    /\ (Client.success result = false -> db' = db)
    /\ (Client.success result = true ->
        exists g, Client.getGuestByQRCode db user token = Some g
                  /\ rows_of db' (Guest.id (Client.guest g)) w <> []).
Proof.
  intros db user w token now uuid. cbv zeta. unfold Client.onScanSuccess.
  destruct (negb (String.prefix "guest-" token));
    [cbn; repeat (split; [reflexivity|]); discriminate|].
  destruct (Client.getGuestByQRCode db user token) as [g|];
    [|cbn; repeat (split; [reflexivity|]); discriminate].
  destruct (Client.getWorkshopById db user w) as [workshop|m];
    [|cbn; repeat (split; [reflexivity|]); discriminate].
  unfold Client.getAttendance.
  destruct (negb (ok (Server.get_attendance db user)));
    [cbn; repeat (split; [reflexivity|]); discriminate|].
  destruct (body (Server.get_attendance db user)) eqn:Hbody;
    try (cbn; repeat (split; [reflexivity|]); discriminate).
  destruct (Js.truthy_number (Workshop.isVip workshop) && negb (Client.isVip g));
    [cbn; repeat (split; [reflexivity|]); discriminate|].
  destruct (Js.truthy_number (Workshop.maxCapacity workshop) && _);
    [cbn; repeat (split; [reflexivity|]); discriminate|].
  destruct (find _ (map _ l)) as [record|] eqn:Hfind.
  - cbn. repeat (split; [first [reflexivity | discriminate]|]).
    intros _. exists g. split; [reflexivity|].
    apply find_some in Hfind. destruct Hfind as [Hin Hp].
    apply in_map_iff in Hin. destruct Hin as [a [<- Hin]].
    cbn in Hp. apply andb_true_iff in Hp. destruct Hp as [Hg Hw].
    assert (Hstored : In a (attendance db)).
    { unfold Server.get_attendance in Hbody.
      destruct (negb (Server.authorize _ user)); [discriminate|].
      cbn in Hbody. injection Hbody as <-.
      eapply getAllAttendance_incl. exact Hin. }
    intros Hempty.
    assert (Hrow : In a (rows_of db (Guest.id (Client.guest g)) w)).
    { apply filter_In. split; [exact Hstored|]. now rewrite Hg, Hw. }
    rewrite Hempty in Hrow. exact Hrow.
  - destruct (recordAttendance_cases db user (Guest.id (Client.guest g)) w now uuid)
      as [[m [Hrec _]]|[r [Hrec [Hrg Hrw]]]]; rewrite Hrec.
    + destruct (m =? _)%string; cbn; repeat (split; [reflexivity|]); discriminate.
    + cbn. repeat (split; [first [reflexivity | discriminate]|]).
      intros _. exists g. split; [reflexivity|].
      unfold rows_of. cbn [attendance set_attendance].
      rewrite filter_app_singleton, Hrg, Hrw, !String.eqb_refl. cbn [andb].
      intros Hempty. apply app_eq_nil in Hempty. destruct Hempty as [_ H].
      discriminate.
Qed.

(** Witness: the scan of X at the workshop A. *)
Lemma scan_of_X_at_A_leaves_a_row :
  exists g,
    Client.getGuestByQRCode (run (empty_db false) Example.workshop_and_guest)
      Example.scanner "guest-gX" = Some g
    /\ rows_of
         (fst (Client.onScanSuccess
                 (run (empty_db false) Example.workshop_and_guest)
                 Example.scanner "wA" "guest-gX" "09:00" "a1"))
         (Guest.id (Client.guest g)) "wA" <> [].
Proof.
  apply (proj2 (proj2 (proj2 (proj2
           (scan_success_means_an_attendance_row
              (run (empty_db false) Example.workshop_and_guest)
              Example.scanner "wA" "guest-gX" "09:00" "a1"))))).
  reflexivity.
Defined.

(** X16. The failures onScanSuccess can report are 'Invalid QR code
    format', 'Guest not found', 'This guest does not have VIP access for
    this workshop' and 'Error processing QR code'. Its own VIP and
    capacity tests never fire, because GET /api/workshops/:id returns the
    row without isVip and maxCapacity: 'This is a VIP workshop. Guest does
    not have VIP access.' and 'Workshop has reached maximum capacity' are
    never reported, and neither is 'Workshop not found'. *)
Theorem scan_failures_are_the_four_messages :
  forall (db : Db) (user : User) (w token now uuid : string),
    let result := snd (Client.onScanSuccess db user w token now uuid) in
    (Client.success result = true
     \/ In result
          [Client.failure "Invalid QR code format";
           Client.failure "Guest not found";
           Client.failure "This guest does not have VIP access for this workshop";
           Client.failure "Error processing QR code"])
    /\ result <> Client.failure "This is a VIP workshop. Guest does not have VIP access."
    /\ result <> Client.failure "Workshop has reached maximum capacity"
    /\ result <> Client.failure "Workshop not found".
Proof.
  intros db user w token now uuid. cbv zeta.
  assert (Hmain : Client.success (snd (Client.onScanSuccess db user w token now uuid))
                  = true
                  \/ In (snd (Client.onScanSuccess db user w token now uuid))
                       [Client.failure "Invalid QR code format";
                        Client.failure "Guest not found";
                        Client.failure "This guest does not have VIP access for this workshop";
                        Client.failure "Error processing QR code"]).
  { unfold Client.onScanSuccess.
    destruct (negb (String.prefix "guest-" token)); [cbn; auto|].
    destruct (Client.getGuestByQRCode db user token) as [g|]; [|cbn; auto].
    unfold Client.getWorkshopById, Server.get_workshop.
    destruct (negb (Server.authorize _ user)); [cbn; auto 10|].
    destruct (Database.getWorkshopById db w _) as [workshop|] eqn:Hw;
      [|cbn; auto 10].
    destruct (getWorkshopById_some _ _ _ _ Hw) as [row [-> _]].
    cbn [negb ok status body Server.json].
    change ((200 <=? 200)%nat && (200 <=? 299)%nat) with true. cbn [negb].
    destruct (Client.getAttendance db user) as [l|m]; [|cbn; auto 10].
    cbn [Workshop.isVip Workshop.maxCapacity Workshop.select_star
         Js.truthy_number andb].
    destruct (find _ l); [cbn; auto|].
    destruct (recordAttendance_cases db user (Guest.id (Client.guest g)) w now uuid)
      as [[m [Hrec _]]|[r [Hrec _]]]; rewrite Hrec.
    - destruct (m =? _)%string; cbn; auto 10.
    - cbn. auto. }
  split; [exact Hmain|].
  repeat split; intros Heq; rewrite Heq in Hmain;
    destruct Hmain as [H|H]; try discriminate H;
    cbn in H; intuition discriminate.
Qed.

(** A 200 answer is [ok] for the fetch API. *)
Lemma json_200_ok (b : Body) : ok (Server.json 200 b) = true.
Proof. reflexivity. Qed.

(** X17. The first scan of a guest at an ordinary workshop: when the token
    has the format and resolves to a guest, the workshop resolves and is
    not VIP, the guest has no row for it and the new id is not in use,
    onScanSuccess reports '<name> checked in successfully' and the store
    gains exactly the row of the guest for the workshop, stamped with the
    client's clock and the caller's id. *)
Theorem first_scan_at_an_ordinary_workshop_checks_in :
  forall (db : Db) (user : User) (w token now uuid : string) (g : Guest.row)
         (workshop : Workshop.obj),
    Server.authorize ["admin"; "scanner"] user = true ->
    String.prefix "guest-" token = true ->
    Database.getGuestByQRCode db token (Server.scope user) = Some g ->
    Database.getWorkshopById db w (Server.scope user) = Some workshop ->
    Workshop.is_vip (Workshop.columns workshop) = 0 ->
    Guest.id g <> "" -> w <> "" -> now <> "" ->
    rows_of db (Guest.id g) w = [] ->
    existsb (fun a => (Attendance.id a =? uuid)%string) (attendance db) = false ->
    Client.onScanSuccess db user w token now uuid
    = (set_attendance db
         (attendance db ++ [Attendance.mk uuid w (Guest.id g) now (userId user)]),
       {| Client.success := true;
          Client.message := Guest.name g ++ " checked in successfully" |}).
Proof.
  intros db user w token now uuid g workshop Hauth Hprefix Htoken Hworkshop
    Hplain Hg Hw Hnow Hrows Hfresh.
  destruct (getGuestByQRCode_some _ _ _ _ Htoken) as [Hgin [_ Hgown]].
  destruct (getWorkshopById_some _ _ _ _ Hworkshop) as [row [-> [Hwin [Hwid _]]]].
  assert (Hbyid : Database.getGuestById db (Guest.id g) (Server.scope user) <> None).
  { unfold Database.getGuestById. apply (find_some_of_In _ _ g Hgin).
    now rewrite String.eqb_refl, Hgown. }
  destruct (Database.getGuestById db (Guest.id g) (Server.scope user))
    as [g'|] eqn:Hguest'; [clear Hbyid | contradiction].
  unfold Client.onScanSuccess. rewrite Hprefix. cbn [negb].
  unfold Client.getGuestByQRCode, Server.get_guest_by_qr.
  rewrite Hauth, Htoken. cbn [negb]. rewrite json_200_ok. cbn [negb body Server.json].
  unfold Client.getWorkshopById, Server.get_workshop. rewrite Hauth, Hworkshop.
  cbn [negb]. rewrite json_200_ok. cbn [negb body Server.json].
  unfold Client.getAttendance, Server.get_attendance. rewrite Hauth.
  cbn [negb]. rewrite json_200_ok. cbn [negb body Server.json].
  cbn [Workshop.isVip Workshop.maxCapacity Workshop.select_star
       Js.truthy_number andb Client.guest].
  match goal with
  | |- context [find ?f ?l] => destruct (find f l) as [record|] eqn:Hfind
  end.
  { exfalso. apply find_some in Hfind. destruct Hfind as [Hin Hp].
    apply in_map_iff in Hin. destruct Hin as [a [<- Hin]].
    cbn in Hp. apply andb_true_iff in Hp. destruct Hp as [Hag Haw].
    apply getAllAttendance_incl in Hin.
    assert (Hrow : In a (rows_of db (Guest.id g) w))
      by (apply filter_In; split; [exact Hin | now rewrite Hag, Haw]).
    rewrite Hrows in Hrow. exact Hrow. }
  unfold Client.recordAttendance.
  change {| Server.ab_guestId := Some (Guest.id g);
            Server.ab_workshopId := Some w;
            Server.ab_timestamp := Some now |}
    with (checkin (Guest.id g) w (Some now)).
  rewrite (post_attendance_resolved db user (Guest.id g) w (Some now) now uuid
             g' (Workshop.select_star row) Hauth Hg Hw Hguest' Hworkshop).
  unfold Server.is_vip_workshop.
  cbn [Workshop.isVip Workshop.columns Workshop.select_star Js.truthy_number orb]
    in *.
  rewrite Hplain. cbn [Z.eqb negb andb].
  assert (Hnone : Database.getAttendanceRecord db (Guest.id g) w = None).
  { destruct (Database.getAttendanceRecord db (Guest.id g) w) eqn:Hrec;
      [|reflexivity].
    exfalso. apply (proj2 (rows_of_nonempty db (Guest.id g) w));
      [rewrite Hrec; discriminate | exact Hrows]. }
  rewrite Hnone.
  unfold Js.truthy_string. apply String.eqb_neq in Hnow. rewrite Hnow.
  cbn [negb].
  unfold Database.createAttendance, Sql.insert_attendance.
  cbn [Attendance.id Attendance.workshop_id Attendance.guest_id].
  rewrite Hfresh.
  assert (Hpair : existsb
                    (fun a => (Attendance.workshop_id a =? w)%string
                              && (Attendance.guest_id a =? Guest.id g)%string)
                    (attendance db) = false).
  { rewrite find_existsb.
    destruct (find _ (attendance db)) as [a|] eqn:Hf; [|reflexivity].
    exfalso. apply find_some in Hf. destruct Hf as [Hin Hp].
    apply andb_true_iff in Hp. destruct Hp as [Haw Hag].
    assert (Hrow : In a (rows_of db (Guest.id g) w))
      by (apply filter_In; split; [exact Hin | now rewrite Hag, Haw]).
    rewrite Hrows in Hrow. exact Hrow. }
  rewrite Hpair.
  assert (Hparents : Sql.has_workshop db w && Sql.has_guest db (Guest.id g) = true).
  { unfold Sql.has_workshop, Sql.has_guest. apply andb_true_iff. split.
    - apply existsb_exists. exists row. split; [exact Hwin|].
      now apply String.eqb_eq.
    - apply existsb_exists. exists g. split; [exact Hgin|].
      apply String.eqb_refl. }
  rewrite Hparents. cbn [negb]. rewrite andb_false_r.
  reflexivity.
Qed.

(** Witness: the first scan of X at the workshop A. *)
Lemma first_scan_of_X_at_A :
  Client.onScanSuccess (run (empty_db false) Example.workshop_and_guest)
    Example.scanner "wA" "guest-gX" "09:00" "a1"
  = (set_attendance (run (empty_db false) Example.workshop_and_guest)
       [Attendance.mk "a1" "wA" "gX" "09:00" 2],
     {| Client.success := true;
        Client.message := "X checked in successfully" |}).
Proof.
  apply (first_scan_at_an_ordinary_workshop_checks_in
           (run (empty_db false) Example.workshop_and_guest) Example.scanner
           "wA" "guest-gX" "09:00" "a1" (Example.guest_X 0)
           (Workshop.select_star workshop_A));
    try reflexivity; discriminate.
Defined.

(** ** Roles: the guard of the pages and the guard of the routes *)

(** X18. For a users row whose role is not the empty string, hasRole of
    the client, on the user object built from the profile the server
    sends, decides as authorize of the server does for the caller made of
    that row: what a page shows is what the routes allow. *)
Theorem hasRole_agrees_with_authorize :
  forall (u : UserDb.row) (roles : list string),
    UserDb.role u <> "" ->
    AuthContext.hasRole
      (Some (AuthContext.of_profile (UserDb.username u) (Some (UserDb.role u))))
      roles
    = Server.authorize roles (caller u).
Proof.
  intros u roles Hrole.
  unfold AuthContext.hasRole, AuthContext.of_profile, Server.authorize, caller,
    Js.truthy_string.
  apply String.eqb_neq in Hrole. rewrite Hrole.
  cbn [negb AuthContext.role role].
  destruct (UserDb.role u =? "admin")%string; reflexivity.
Qed.

(** Witness: a scanner sees the scanner pages and not the admin pages. *)
Lemma scanner_row_is_guarded_alike :
  AuthContext.hasRole
    (Some (AuthContext.of_profile "door" (Some "scanner"))) ["admin"]
  = Server.authorize ["admin"] (caller (UserDb.mk 2 "door" "hash" [] "scanner")).
Proof.
  apply (hasRole_agrees_with_authorize (UserDb.mk 2 "door" "hash" [] "scanner")
           ["admin"]).
  discriminate.
Defined.

(** ** The login history *)

Lemma find_map_same_key (row' : UserDb.row -> UserDb.row) (userId : Z)
    (users : list UserDb.row) :
  (forall u, UserDb.id (row' u) = UserDb.id u) ->
  find (fun u => UserDb.id u =? userId)
    (map (fun u => if UserDb.id u =? userId then row' u else u) users)
  = option_map row' (find (fun u => UserDb.id u =? userId) users).
Proof.
  intros Hid. induction users as [|u users IH]; [reflexivity|].
  cbn [map find]. destruct (UserDb.id u =? userId) eqn:Hu.
  - rewrite Hid, Hu. reflexivity.
  - rewrite Hu. exact IH.
Qed.

(** X19. updateLoginHistory for a user that exists resolves; afterwards
    the user's history ends with the new login, keeps the latest of the
    older ones in their order and holds min(10, n+1) entries, n being the
    number before; the other columns of the row and the ids of all rows
    are as before. *)
Theorem login_history_keeps_the_latest_ten :
  forall (users : list UserDb.row) (userId : Z) (login : UserDb.loginData)
         (row : UserDb.row),
    find (fun u => UserDb.id u =? userId) users = Some row ->
    snd (UserDb.updateLoginHistory users userId login) = Resolved true
    /\ map UserDb.id (fst (UserDb.updateLoginHistory users userId login))
       = map UserDb.id users
    /\ exists (row' : UserDb.row) (dropped kept : list UserDb.loginData),
        find (fun u => UserDb.id u =? userId)
          (fst (UserDb.updateLoginHistory users userId login)) = Some row'
        /\ UserDb.login_history row = (dropped ++ kept)%list
        /\ UserDb.login_history row' = (kept ++ [login])%list
        /\ length (UserDb.login_history row')
           = Nat.min 10 (S (length (UserDb.login_history row)))
        /\ UserDb.username row' = UserDb.username row
        /\ UserDb.password row' = UserDb.password row
        /\ UserDb.role row' = UserDb.role row.
Proof.
  intros users userId login row Hfind.
  unfold UserDb.updateLoginHistory. rewrite Hfind. cbv zeta. cbn [fst snd].
  split; [reflexivity|]. split.
  - rewrite map_map. apply map_ext. intros u.
    destruct (UserDb.id u =? userId); reflexivity.
  - set (n := length (UserDb.login_history row)).
    set (k := (S n - 10)%nat).
    exists (UserDb.mk (UserDb.id row) (UserDb.username row) (UserDb.password row)
              (UserDb.slice_last 10 (UserDb.login_history row ++ [login]))
              (UserDb.role row)),
      (firstn k (UserDb.login_history row)),
      (skipn k (UserDb.login_history row)).
    assert (Hslice : UserDb.slice_last 10 (UserDb.login_history row ++ [login])
                     = (skipn k (UserDb.login_history row) ++ [login])%list).
    { unfold UserDb.slice_last. rewrite length_app. cbn [length].
      replace (length (UserDb.login_history row) + 1)%nat with (S n) by (subst n; lia).
      fold k. rewrite skipn_app.
      replace (k - length (UserDb.login_history row))%nat with 0%nat
        by (subst k n; lia).
      reflexivity. }
    split.
    { rewrite (find_map_same_key
                 (fun u => UserDb.mk (UserDb.id u) (UserDb.username u)
                             (UserDb.password u)
                             (UserDb.slice_last 10
                                (UserDb.login_history row ++ [login]))
                             (UserDb.role u)))
        by reflexivity.
      rewrite Hfind. reflexivity. }
    split; [symmetry; apply firstn_skipn|].
    cbn [UserDb.login_history UserDb.username UserDb.password UserDb.role].
    split; [exact Hslice|].
    split; [|repeat split].
    rewrite Hslice, length_app, length_skipn. cbn [length]. subst k n. lia.
Qed.

(** Witness: the eleventh login pushes the first one out. *)
Lemma eleventh_login_drops_the_first :
  let login (t : string) :=
    {| UserDb.timestamp := t; UserDb.ip := "::1"; UserDb.userAgent := "ua" |} in
  let users :=
    [UserDb.mk 1 "admin" "hash"
       (map login ["01"; "02"; "03"; "04"; "05"; "06"; "07"; "08"; "09"; "10"])
       "admin"] in
  snd (UserDb.updateLoginHistory users 1 (login "11")) = Resolved true
  /\ map UserDb.id (fst (UserDb.updateLoginHistory users 1 (login "11")))
     = map UserDb.id users
  /\ exists (row' : UserDb.row) (dropped kept : list UserDb.loginData),
      find (fun u => UserDb.id u =? 1)
        (fst (UserDb.updateLoginHistory users 1 (login "11"))) = Some row'
      /\ map login ["01"; "02"; "03"; "04"; "05"; "06"; "07"; "08"; "09"; "10"]
         = (dropped ++ kept)%list
      /\ UserDb.login_history row' = (kept ++ [login "11"])%list
      /\ length (UserDb.login_history row') = Nat.min 10 11
      /\ UserDb.username row' = "admin"
      /\ UserDb.password row' = "hash"
      /\ UserDb.role row' = "admin".
Proof.
  intros login users.
  apply (login_history_keeps_the_latest_ten users 1 (login "11")
           (UserDb.mk 1 "admin" "hash"
              (map login ["01"; "02"; "03"; "04"; "05"; "06"; "07"; "08"; "09"; "10"])
              "admin")).
  reflexivity.
Defined.

(** ** The role migration *)

(** X20. After runRoleMigration, which the server runs at every start, a
    users row has the role admin when its username is 'admin' and the role
    scanner otherwise, whatever it had before: the caller made of it
    passes authorize('admin') exactly when it is the user 'admin', and it
    always passes authorize(['admin', 'scanner']). *)
Theorem after_the_role_migration_only_admin_is_admin :
  forall (users : list UserDb.row) (u : UserDb.row),
    In u (UserDb.runRoleMigration users) ->
    UserDb.role u
    = (if (UserDb.username u =? "admin")%string then "admin" else "scanner")
    /\ Server.authorize ["admin"] (caller u)
       = (UserDb.username u =? "admin")%string
    /\ Server.authorize ["admin"; "scanner"] (caller u) = true.
Proof.
  intros users u Hin.
  assert (Hrole : UserDb.role u
                  = (if (UserDb.username u =? "admin")%string
                     then "admin" else "scanner")).
  { unfold UserDb.runRoleMigration in Hin. rewrite map_map in Hin.
    apply in_map_iff in Hin. destruct Hin as [u0 [<- _]].
    destruct (UserDb.username u0 =? "admin")%string eqn:Hname.
    - cbn [UserDb.username]. rewrite Hname. cbn [negb UserDb.role UserDb.username].
      rewrite Hname. reflexivity.
    - rewrite Hname. cbn [negb UserDb.role UserDb.username]. rewrite Hname.
      reflexivity. }
  split; [exact Hrole|].
  unfold Server.authorize, caller. cbn [role]. rewrite Hrole.
  destruct (UserDb.username u =? "admin")%string; split; reflexivity.
Qed.

(** Witness: a row named door that held the role admin is a scanner after
    the migration. *)
Lemma door_is_a_scanner_after_the_migration :
  UserDb.role (UserDb.mk 2 "door" "hash" [] "scanner") = "scanner"
  /\ Server.authorize ["admin"] (caller (UserDb.mk 2 "door" "hash" [] "scanner"))
     = false
  /\ Server.authorize ["admin"; "scanner"]
       (caller (UserDb.mk 2 "door" "hash" [] "scanner")) = true.
Proof.
  apply (after_the_role_migration_only_admin_is_admin
           [UserDb.mk 1 "admin" "hash" [] "user";
            UserDb.mk 2 "door" "hash" [] "admin"]
           (UserDb.mk 2 "door" "hash" [] "scanner")).
  right. left. reflexivity.
Defined.

(** X21. runRoleMigration changes the role column only and is idempotent:
    ids, usernames, passwords and login histories are as before, and a
    second run changes nothing. *)
Theorem role_migration_changes_roles_only_and_is_idempotent :
  forall users : list UserDb.row,
    map UserDb.id (UserDb.runRoleMigration users) = map UserDb.id users
    /\ map UserDb.username (UserDb.runRoleMigration users)
       = map UserDb.username users
    /\ map UserDb.password (UserDb.runRoleMigration users)
       = map UserDb.password users
    /\ map UserDb.login_history (UserDb.runRoleMigration users)
       = map UserDb.login_history users
    /\ UserDb.runRoleMigration (UserDb.runRoleMigration users)
       = UserDb.runRoleMigration users.
Proof.
  intros users. unfold UserDb.runRoleMigration.
  repeat split; rewrite !map_map; apply map_ext; intros [i n p h r];
    cbn [UserDb.username UserDb.id UserDb.password UserDb.login_history];
    destruct (n =? "admin")%string eqn:Hname;
    cbn [UserDb.username UserDb.id UserDb.password UserDb.login_history
         UserDb.role negb];
    rewrite ?Hname;
    cbn [UserDb.username UserDb.id UserDb.password UserDb.login_history
         UserDb.role negb];
    rewrite ?Hname;
    cbn [UserDb.username UserDb.id UserDb.password UserDb.login_history
         UserDb.role negb];
    rewrite ?Hname; reflexivity.
Qed.

(** ** References on a connection that enforces foreign keys *)

Lemma has_key_map {A : Type} (key : A -> string) (f : A -> A) (x : string)
    (l : list A) :
  (forall w, key (f w) = key w) ->
  existsb (fun w => (key w =? x)%string) (map f l)
  = existsb (fun w => (key w =? x)%string) l.
Proof.
  intros Hkey. induction l as [|w l IH]; [reflexivity|].
  cbn [map existsb]. now rewrite Hkey, IH.
Qed.

Lemma has_key_filter {A : Type} (key : A -> string) (id x : string) (l : list A) :
  x <> id ->
  existsb (fun w => (key w =? x)%string)
    (filter (fun w => negb (key w =? id)%string) l)
  = existsb (fun w => (key w =? x)%string) l.
Proof.
  intros Hx. induction l as [|w l IH]; [reflexivity|].
  cbn [filter existsb]. destruct (String.eqb_spec (key w) id) as [Hid|Hid].
  - cbn [negb]. rewrite IH.
    destruct (String.eqb_spec (key w) x) as [Hwx|_]; [congruence | reflexivity].
  - cbn [negb existsb]. now rewrite IH.
Qed.

Lemma existsb_false_all {A : Type} (f : A -> bool) (l : list A) (x : A) :
  existsb f l = false -> In x l -> f x = false.
Proof.
  intros Hnone Hin. destruct (f x) eqn:Hfx; [|reflexivity].
  rewrite <- Hnone. symmetry. apply existsb_exists. eauto.
Qed.

Lemma statement_keeps_foreign_keys (db db' : Db) :
  statement db db' -> foreign_keys db' = foreign_keys db.
Proof.
  intros Hs. destruct Hs as
    [ | id n desc d l u v c db' H | id n desc d l k db' H | id k db' H
      | id n e u v db' H | id n e v k db' H | id k db' H
      | r db' H | id | r db' H ].
  - reflexivity.
  - apply insert_workshop_done in H. destruct H as [? [? [? [_ ->]]]]. reflexivity.
  - apply update_workshop_done in H. destruct H as [->|[? [? [? ->]]]]; reflexivity.
  - apply delete_workshop_done in H. tauto.
  - apply insert_guest_done in H. destruct H as [? [_ [_ [_ ->]]]]. reflexivity.
  - apply update_guest_done in H. destruct H as [->|[? [? [_ ->]]]]; reflexivity.
  - apply delete_guest_done in H. tauto.
  - apply insert_attendance_done in H. destruct H as [_ [_ ->]]. reflexivity.
  - reflexivity.
  - apply insert_vip_access_done in H. destruct H as [_ [_ ->]]. reflexivity.
Qed.

Lemma statement_keeps_references (db db' : Db) :
  statement db db' -> foreign_keys db = true ->
  references_resolve db -> references_resolve db'.
Proof.
  intros Hs Hfk [Hatt Hvip]. unfold references_resolve, Sql.has_workshop,
    Sql.has_guest in *.
  destruct Hs as
    [ | id n desc d l u v c db' H | id n desc d l k db' H | id k db' H
      | id n e u v db' H | id n e v k db' H | id k db' H
      | r db' H | id | r db' H ].
  - split; assumption.
  - apply insert_workshop_done in H. destruct H as [? [? [? [_ ->]]]].
    cbn [workshops guests attendance vip_access set_workshops].
    split; intros y Hy; [destruct (Hatt y Hy) | destruct (Hvip y Hy)];
      rewrite existsb_app; split; auto using orb_true_intro.
  - apply update_workshop_done in H. destruct H as [->|[? [? [? ->]]]];
      [split; assumption|].
    cbn [workshops guests attendance vip_access set_workshops].
    split; intros y Hy; [destruct (Hatt y Hy) | destruct (Hvip y Hy)];
      (rewrite (has_key_map Workshop.id);
       [split; assumption | intros w; destruct (Workshop.id w =? id)%string;
                            reflexivity]).
  - unfold Sql.delete_workshop in H. rewrite Hfk in H.
    destruct (Sql.has_workshop db id);
      [|injection H as <- _; split; assumption].
    destruct (existsb _ (vip_access db)) eqn:Hnone; [discriminate|].
    injection H as <- _.
    cbn [workshops guests attendance vip_access set_workshops set_attendance].
    split.
    + intros a Ha. apply filter_In in Ha. destruct Ha as [Ha Hkeep].
      destruct (Hatt a Ha) as [Hw Hg]. split; [|exact Hg].
      rewrite (has_key_filter Workshop.id); [exact Hw|].
      apply negb_true_iff in Hkeep. now apply String.eqb_neq.
    + intros v Hv. destruct (Hvip v Hv) as [Hg Hw]. split; [exact Hg|].
      rewrite (has_key_filter Workshop.id); [exact Hw|].
      apply String.eqb_neq. exact (existsb_false_all _ _ v Hnone Hv).
  - apply insert_guest_done in H. destruct H as [? [_ [_ [_ ->]]]].
    cbn [workshops guests attendance vip_access set_guests].
    split; intros y Hy; [destruct (Hatt y Hy) | destruct (Hvip y Hy)];
      rewrite existsb_app; split; auto using orb_true_intro.
  - apply update_guest_done in H. destruct H as [->|[? [? [_ ->]]]];
      [split; assumption|].
    cbn [workshops guests attendance vip_access set_guests].
    split; intros y Hy; [destruct (Hatt y Hy) | destruct (Hvip y Hy)];
      (rewrite (has_key_map Guest.id);
       [split; assumption | intros g; destruct (Guest.id g =? id)%string;
                            reflexivity]).
  - unfold Sql.delete_guest in H. rewrite Hfk in H.
    destruct (Sql.has_guest db id);
      [|injection H as <- _; split; assumption].
    destruct (existsb _ (vip_access db)) eqn:Hnone; [discriminate|].
    injection H as <- _.
    cbn [workshops guests attendance vip_access set_guests set_attendance].
    split.
    + intros a Ha. apply filter_In in Ha. destruct Ha as [Ha Hkeep].
      destruct (Hatt a Ha) as [Hw Hg]. split; [exact Hw|].
      rewrite (has_key_filter Guest.id); [exact Hg|].
      apply negb_true_iff in Hkeep. now apply String.eqb_neq.
    + intros v Hv. destruct (Hvip v Hv) as [Hg Hw]. split; [|exact Hw].
      rewrite (has_key_filter Guest.id); [exact Hg|].
      apply String.eqb_neq. exact (existsb_false_all _ _ v Hnone Hv).
  - unfold Sql.insert_attendance in H. rewrite Hfk in H.
    destruct (existsb _ (attendance db)); [discriminate|].
    destruct (existsb _ (attendance db)); [discriminate|].
    unfold Sql.has_workshop, Sql.has_guest in H.
    destruct (existsb _ (workshops db) && existsb _ (guests db)) eqn:Hparents;
      [|discriminate].
    injection H as <-. apply andb_true_iff in Hparents.
    cbn [workshops guests attendance vip_access set_attendance].
    split; [|exact Hvip].
    intros a Ha. apply in_app_iff in Ha. destruct Ha as [Ha|[<-|[]]];
      [exact (Hatt a Ha) | exact Hparents].
  - cbn [workshops guests attendance vip_access set_attendance
         Sql.delete_attendance].
    split; [|exact Hvip].
    intros a Ha. apply filter_In in Ha. exact (Hatt a (proj1 Ha)).
  - unfold Sql.insert_vip_access in H. rewrite Hfk in H.
    destruct (existsb _ (vip_access db)); [discriminate|].
    destruct (existsb _ (vip_access db)); [discriminate|].
    unfold Sql.has_workshop, Sql.has_guest in H.
    destruct (existsb _ (guests db) && existsb _ (workshops db)) eqn:Hparents;
      [|discriminate].
    injection H as <-. apply andb_true_iff in Hparents.
    cbn [workshops guests attendance vip_access set_vip_access].
    split; [exact Hatt|].
    intros v Hv. apply in_app_iff in Hv. destruct Hv as [Hv|[<-|[]]];
      [exact (Hvip v Hv) | exact Hparents].
Qed.

(** X22. On a connection that enforces foreign keys, no sequence of
    requests from the empty database leaves a row that references a
    missing parent: every attendance row and every grant names a stored
    workshop and a stored guest. *)
Theorem enforced_foreign_keys_leave_no_dangling_row :
  forall requests : list Request,
    references_resolve (run (empty_db true) requests).
Proof.
  intros requests.
  apply (run_invariant
           (fun db => foreign_keys db = true /\ references_resolve db)).
  - intros db r [Hfk Hrefs].
    pose proof (handle_runs_one_statement db r) as Hs. split.
    + rewrite (statement_keeps_foreign_keys _ _ Hs). exact Hfk.
    + exact (statement_keeps_references _ _ Hs Hfk Hrefs).
  - split; [reflexivity|]. split; intros x [].
Qed.

(** ** Granting and revoking in database.js *)

Lemma existsb_pointwise {A : Type} (f g : A -> bool) (l : list A) :
  (forall x, f x = g x) -> existsb f l = existsb g l.
Proof.
  intros Hfg. induction l as [|x l IH]; [reflexivity|].
  cbn [existsb]. now rewrite Hfg, IH.
Qed.

Lemma set_vip_access_back (db : Db) (l : list VipAccess.row) :
  set_vip_access (set_vip_access db l) (vip_access db) = db.
Proof. destruct db. reflexivity. Qed.

(** X23. removeVipAccess undoes addVipAccess: when addVipAccess resolves,
    the grant is there (hasVipAccess), the workshop's count of grants is
    one more, and removeVipAccess for the same guest and workshop gives
    back the database as it was. *)
Theorem removeVipAccess_undoes_addVipAccess :
  forall (db db' : Db) (guestId workshopId uuid : string) (r : VipAccess.row),
    Database.addVipAccess db guestId workshopId uuid = (db', Resolved r) ->
    Database.hasVipAccess db' guestId workshopId = true
    /\ Database.getVipWorkshopCount db' workshopId
       = S (Database.getVipWorkshopCount db workshopId)
    /\ Database.removeVipAccess db' guestId workshopId = db.
Proof.
  intros db db' guestId workshopId uuid r Hadd.
  unfold Database.addVipAccess in Hadd.
  destruct (Sql.insert_vip_access db _) as [db''|e] eqn:Hins; [|discriminate].
  injection Hadd as <- <-.
  apply insert_vip_access_done in Hins.
  cbn [VipAccess.id VipAccess.guest_id VipAccess.workshop_id] in Hins.
  destruct Hins as [_ [Hnone ->]].
  unfold Database.hasVipAccess, Database.getVipWorkshopCount,
    Database.removeVipAccess, Sql.delete_vip_access in *.
  cbn [vip_access set_vip_access].
  rewrite existsb_app, !filter_app_singleton.
  cbn [VipAccess.id VipAccess.guest_id VipAccess.workshop_id existsb].
  rewrite !String.eqb_refl. cbn [andb negb orb].
  split; [apply orb_true_r|]. split.
  - rewrite length_app. cbn [length]. lia.
  - rewrite app_nil_r, filter_all.
    + apply set_vip_access_back.
    + rewrite <- Hnone. apply existsb_pointwise. intros v. apply negb_involutive.
Qed.

(** Witness: a grant of X for wA, added and removed. *)
Lemma grant_of_X_is_added_and_removed :
  let db := run (empty_db false) Example.workshop_and_guest in
  let db' := set_vip_access db [VipAccess.mk "v1" "gX" "wA"] in
  Database.hasVipAccess db' "gX" "wA" = true
  /\ Database.getVipWorkshopCount db' "wA"
     = S (Database.getVipWorkshopCount db "wA")
  /\ Database.removeVipAccess db' "gX" "wA" = db.
Proof.
  intros db db'.
  apply (removeVipAccess_undoes_addVipAccess db db' "gX" "wA" "v1"
           (VipAccess.mk "v1" "gX" "wA")).
  reflexivity.
Defined.
